(** * TaskFlowTextManager: the document engine of xcoder-cli

    A shallow embedding of [src/TaskFlowTextManager.py] and the properties
    of its parser, mutation API, serializer and validator, together with
    the two pure functions of its neighbours that meet it:
    [ProjectFileGenerator._build_content] of [src/project_scanner.py], which
    writes the document the parser reads, and
    [TechnologyDetector._get_default_patterns] of
    [src/technology_detector.py].

    Conventions of the embedding.
    - A Python [str] is a [string]; its characters are read as code points
      below 256, for which [str.strip], [str.isspace] and the regex class
      [\d] are the tables [isspace] and [isdigit] below.
    - A Python [int] is a [Z].  CPython converts between [str] and [int]
      only up to 4300 digits: [Py.int] and [Py.str] are the conversions
      without that limit, and [Limited] has the conversions with it and the
      methods that convert, written with them.  What is proved about when
      [_parse_content], [add_function] and [_generate_content] return or
      raise is proved of the methods in [Limited].
    - A [dict] is an association list in insertion order with unique keys.
    - A Python exception is the [Raise] case of [result].
    - The [files_involved] lists are caller-supplied mutable objects: they
      live in a store of list objects and a [Function] holds a reference.
    - [print] output is not part of the state, except in [validate_project]
      whose report is the only place the issue list is observable. *)

From Stdlib Require Import ZArith NArith Ascii String List Lia Bool.
From Stdlib Require Import DecimalString DecimalZ DecimalN DecimalFacts.
From Stdlib Require Import Sorted Permutation.
From stdpp Require Import base option list strings.

Local Open Scope Z_scope.

(** ** Exceptions *)

Inductive exn := ValueError | IndexError | KeyError | TypeError.

Inductive result (A : Type) : Type :=
| Ok (a : A)
| Raise (e : exn).
Arguments Ok {A} a.
Arguments Raise {A} e.

#[global] Instance result_ret : MRet result := fun _ a => Ok a.
#[global] Instance result_bind : MBind result := fun _ _ k m =>
  match m with
  | Ok a => k a
  | Raise e => Raise e
  end.
#[global] Instance result_fmap : FMap result := fun _ _ f m =>
  match m with
  | Ok a => Ok (f a)
  | Raise e => Raise e
  end.

Definition returns {A} (m : result A) : Prop := exists a, m = Ok a.

(** ** Python builtins on [str] *)

Module Py.

(** [str.isspace] on the code points below 256: TAB..CR, FS..US, SPACE,
    NEL (0x85) and NBSP (0xA0). *)
Definition isspace (c : ascii) : bool :=
  let n := nat_of_ascii c in
  ((9 <=? n) && (n <=? 13) || (28 <=? n) && (n <=? 32)
   || (n =? 133) || (n =? 160))%nat.

(** The regex class [\d] on the code points below 256. *)
Definition isdigit (c : ascii) : bool :=
  let n := nat_of_ascii c in ((48 <=? n) && (n <=? 57))%nat.

Definition newline : ascii := "010"%char.

Fixpoint lstrip (s : string) : string :=
  match s with
  | String c r => if isspace c then lstrip r else s
  | EmptyString => EmptyString
  end.

Fixpoint rstrip (s : string) : string :=
  match s with
  | String c r =>
      match rstrip r with
      | EmptyString => if isspace c then EmptyString else String c EmptyString
      | r' => String c r'
      end
  | EmptyString => EmptyString
  end.

(** [s.strip()] *)
Definition strip (s : string) : string := rstrip (lstrip s).

(** [s.startswith(p)] *)
Definition startswith (p s : string) : bool := String.prefix p s.

(** [bool(s)]: a string is truthy when it is not empty. *)
Definition truthy (s : string) : bool :=
  match s with EmptyString => false | _ => true end.

(** [s.split(sep)] for a one-character separator; never the empty list. *)
Fixpoint split (sep : ascii) (s : string) : list string :=
  match s with
  | EmptyString => [EmptyString]
  | String c r =>
      if Ascii.eqb c sep then EmptyString :: split sep r
      else match split sep r with
           | h :: t => String c h :: t
           | [] => [String c EmptyString]
           end
  end.

(** [s.split(sep, 1)] for a one-character separator. *)
Fixpoint split1 (sep : ascii) (s : string) : list string :=
  match s with
  | EmptyString => [EmptyString]
  | String c r =>
      if Ascii.eqb c sep then [EmptyString; r]
      else match split1 sep r with
           | [h] => [String c h]
           | h :: t => String c h :: t
           | [] => [String c EmptyString]
           end
  end.

(** [sep.join(l)] *)
Fixpoint join (sep : string) (l : list string) : string :=
  match l with
  | [] => EmptyString
  | [s] => s
  | s :: r => s +:+ sep +:+ join sep r
  end.

(** [s.replace(c, '')] for a one-character [c]. *)
Fixpoint remove_char (c : ascii) (s : string) : string :=
  match s with
  | EmptyString => EmptyString
  | String a r => if Ascii.eqb a c then remove_char c r else String a (remove_char c r)
  end.

(** [l[i]] *)
Definition item {A} (l : list A) (i : nat) : result A :=
  match l !! i with
  | Some a => Ok a
  | None => Raise IndexError
  end.

Fixpoint take_digits (s : string) : string :=
  match s with
  | String c r => if isdigit c then String c (take_digits r) else EmptyString
  | EmptyString => EmptyString
  end.

Fixpoint drop_digits (s : string) : string :=
  match s with
  | String c r => if isdigit c then drop_digits r else s
  | EmptyString => EmptyString
  end.

(** [re.match(r'^\d+' + lit, s)] as a truth value, for a literal [lit] that
    does not start with a digit: the digits are matched greedily, and no
    shorter run can be followed by [lit]. *)
Definition re_match_digits (lit s : string) : bool :=
  match s with
  | String c r => isdigit c && startswith lit (drop_digits r)
  | EmptyString => false
  end.

Fixpoint drop_chars (n : nat) (s : string) : string :=
  match n, s with
  | S k, String _ r => drop_chars k r
  | _, _ => s
  end.

(** [re.findall(r'File (\d+)', s)]: the scan resumes after each match;
    [skip] counts the characters of the current match still to pass. *)
Fixpoint findall_File_go (skip : nat) (s : string) : list string :=
  match s with
  | EmptyString => []
  | String c r =>
      match skip with
      | S k => findall_File_go k r
      | O =>
          if startswith "File " s then
            match take_digits (drop_chars 4 r) with
            | EmptyString => findall_File_go 0 r
            | d => d :: findall_File_go (4 + String.length d) r
            end
          else findall_File_go 0 r
      end
  end.

Definition findall_File (s : string) : list string := findall_File_go 0 s.

(** Where [int()] accepts underscores: single ones, between digits. *)
Fixpoint underscores_ok (after_digit : bool) (s : string) : bool :=
  match s with
  | EmptyString => after_digit
  | String c r =>
      if isdigit c then underscores_ok true r
      else if Ascii.eqb c "_" then after_digit && underscores_ok false r
      else false
  end.

Definition int_unsigned (s : string) : result Z :=
  if underscores_ok false s then
    match NilEmpty.uint_of_string (remove_char "_" s) with
    | Some d => Ok (Z.of_uint d)
    | None => Raise ValueError
    end
  else Raise ValueError.

(** The whitespace [int()] skips around the number: TAB..CR, SPACE, NEL
    (0x85) and NBSP (0xA0).  FS..US, which [str.strip] removes, are not
    among them: [int('\x1c4')] raises. *)
Definition int_space (c : ascii) : bool :=
  let n := nat_of_ascii c in
  ((9 <=? n) && (n <=? 13) || (n =? 32) || (n =? 133) || (n =? 160))%nat.

Fixpoint int_lstrip (s : string) : string :=
  match s with
  | String c r => if int_space c then int_lstrip r else s
  | EmptyString => EmptyString
  end.

Fixpoint int_rstrip (s : string) : string :=
  match s with
  | String c r =>
      match int_rstrip r with
      | EmptyString => if int_space c then EmptyString else String c EmptyString
      | r' => String c r'
      end
  | EmptyString => EmptyString
  end.

(** [int(s)]: surrounding whitespace, an optional sign, decimal digits. *)
Definition int (s : string) : result Z :=
  match int_rstrip (int_lstrip s) with
  | String "+" r => int_unsigned r
  | String "-" r => Z.opp <$> int_unsigned r
  | t => int_unsigned t
  end.

(** [str(n)] *)
Definition str (n : Z) : string := NilZero.string_of_int (Z.to_int n).

Fixpoint contains (c : ascii) (s : string) : bool :=
  match s with
  | EmptyString => false
  | String a r => Ascii.eqb a c || contains c r
  end.

(** The part of [s] before, and after, the first [sep]. *)
Fixpoint before (sep : ascii) (s : string) : string :=
  match s with
  | EmptyString => EmptyString
  | String c r => if Ascii.eqb c sep then EmptyString else String c (before sep r)
  end.

Fixpoint after (sep : ascii) (s : string) : string :=
  match s with
  | EmptyString => EmptyString
  | String c r => if Ascii.eqb c sep then r else after sep r
  end.

Fixpoint all_digits (s : string) : bool :=
  match s with
  | EmptyString => true
  | String c r => isdigit c && all_digits r
  end.

(** No whitespace at either end. *)
Definition stripped (s : string) : Prop := strip s = s.

(** The value of a string of digits. *)
Definition digits_value (s : string) : Z :=
  match NilEmpty.uint_of_string s with
  | Some d => Z.of_uint d
  | None => 0
  end.


(** No whitespace anywhere in [s]. *)
Fixpoint no_space (s : string) : bool :=
  match s with
  | EmptyString => true
  | String c r => negb (isspace c) && no_space r
  end.

(** [s] starts with a digit. *)
Definition starts_with_digit (s : string) : bool :=
  match s with
  | String c _ => isdigit c
  | EmptyString => false
  end.

(** [c.lower()] on the code points below 256: A..Z and the accented
    capitals 0xC0..0xDE (but not the multiplication sign 0xD7) move up by
    32; the result stays below 256. *)
Definition lower_char (c : ascii) : ascii :=
  let n := nat_of_ascii c in
  if ((65 <=? n) && (n <=? 90)
      || (192 <=? n) && (n <=? 222) && negb (n =? 215))%nat
  then ascii_of_nat (n + 32) else c.

(** [s.lower()] *)
Fixpoint lower (s : string) : string :=
  match s with
  | EmptyString => EmptyString
  | String c r => String (lower_char c) (lower r)
  end.

(** [q in s] for strings: [q] occurs in [s] as a substring. *)
Fixpoint is_in (q s : string) : bool :=
  startswith q s
  || match s with
     | String _ r => is_in q r
     | EmptyString => false
     end.
End Py.

(** ** Python [dict]: insertion-ordered, unique keys *)

Section Dict.
Context {K V : Type} `{EqDecision K}.

Definition dict_keys (d : list (K * V)) : list K := map fst d.
Definition dict_values (d : list (K * V)) : list V := map snd d.

(** [d.get(k)] *)
Fixpoint dict_get (d : list (K * V)) (k : K) : option V :=
  match d with
  | [] => None
  | (k', v) :: r => if decide (k = k') then Some v else dict_get r k
  end.

(** [k in d] *)
Definition dict_mem (d : list (K * V)) (k : K) : bool :=
  match dict_get d k with Some _ => true | None => false end.

(** [d[k]] *)
Definition dict_item (d : list (K * V)) (k : K) : result V :=
  match dict_get d k with Some v => Ok v | None => Raise KeyError end.

(** [d[k] = v]: an existing key keeps its place, a new one goes last. *)
Fixpoint dict_set (k : K) (v : V) (d : list (K * V)) : list (K * V) :=
  match d with
  | [] => [(k, v)]
  | (k', v') :: r =>
      if decide (k = k') then (k', v) :: r else (k', v') :: dict_set k v r
  end.

(** [del d[k]] for a key that is present. *)
Fixpoint dict_del (k : K) (d : list (K * V)) : list (K * V) :=
  match d with
  | [] => []
  | (k', v') :: r =>
      if decide (k = k') then r else (k', v') :: dict_del k r
  end.
End Dict.

Definition dict (K V : Type) : Type := list (K * V).

(** ** Data model *)

(** A reference to a list object, and the store of list objects. *)
Abbreviation loc := nat (only parsing).
Abbreviation store := (list (list Z)) (only parsing).

(** [l[...]] read through a reference. *)
Definition deref (h : store) (l : loc) : list Z := default [] (h !! l).

(** A new list object. *)
Definition alloc (v : list Z) (h : store) : store * loc := (h ++ [v], length h).

Module ProjectFile.
Record t : Type := mk { index : Z; path : string; description : string }.
End ProjectFile.

Module Function.
Record t : Type := mk {
  id : string;
  name : string;
  description : string;
  implementation : string;
  files_involved : loc
}.
End Function.

Record TaskFlowTextManager : Type := mkManager {
  project_name : string;
  project_description : string;
  technology : string;
  files : dict Z ProjectFile.t;
  functions : dict string Function.t;
  config_section : string
}.

(** [TaskFlowTextManager.__init__] *)
Definition init : TaskFlowTextManager :=
  {| project_name := ""; project_description := ""; technology := "";
     files := []; functions := []; config_section := "" |}.

Definition set_project_name (v : string) (m : TaskFlowTextManager) :=
  {| project_name := v; project_description := project_description m;
     technology := technology m; files := files m; functions := functions m;
     config_section := config_section m |}.
Definition set_project_description (v : string) (m : TaskFlowTextManager) :=
  {| project_name := project_name m; project_description := v;
     technology := technology m; files := files m; functions := functions m;
     config_section := config_section m |}.
Definition set_technology (v : string) (m : TaskFlowTextManager) :=
  {| project_name := project_name m; project_description := project_description m;
     technology := v; files := files m; functions := functions m;
     config_section := config_section m |}.
Definition set_files (v : dict Z ProjectFile.t) (m : TaskFlowTextManager) :=
  {| project_name := project_name m; project_description := project_description m;
     technology := technology m; files := v; functions := functions m;
     config_section := config_section m |}.
Definition set_functions (v : dict string Function.t) (m : TaskFlowTextManager) :=
  {| project_name := project_name m; project_description := project_description m;
     technology := technology m; files := files m; functions := v;
     config_section := config_section m |}.
Definition set_config_section (v : string) (m : TaskFlowTextManager) :=
  {| project_name := project_name m; project_description := project_description m;
     technology := technology m; files := files m; functions := functions m;
     config_section := v |}.

(** The program state a method runs in: the list objects and [self]. *)
Record state : Type := mkState { objects : store; self : TaskFlowTextManager }.

(** ** [_parse_content] *)

Inductive section := files_sec | functions_sec | config_sec.

#[global] Instance section_eq_dec : EqDecision section.
Proof. solve_decision. Defined.

(** The dict bound to [current_function]. *)
Record pending : Type := mkPending {
  p_id : string;
  p_name : string;
  p_description : string;
  p_implementation : list string;
  p_files : loc
}.

(** The locals of the scanning loop, with the state they act on. *)
Record scanner : Type := mkScanner {
  sc_objects : store;
  sc_self : TaskFlowTextManager;
  current_section : option section;
  current_function : option pending
}.

Definition with_self (f : TaskFlowTextManager -> TaskFlowTextManager) (sc : scanner) :=
  {| sc_objects := sc_objects sc; sc_self := f (sc_self sc);
     current_section := current_section sc; current_function := current_function sc |}.
Definition with_section (s : section) (sc : scanner) :=
  {| sc_objects := sc_objects sc; sc_self := sc_self sc;
     current_section := Some s; current_function := current_function sc |}.
Definition with_function (p : pending) (sc : scanner) :=
  {| sc_objects := sc_objects sc; sc_self := sc_self sc;
     current_section := current_section sc; current_function := Some p |}.

(** [self.functions[current_function['id']] = Function(...)] *)
Definition save_function (p : pending) (m : TaskFlowTextManager) : TaskFlowTextManager :=
  set_functions
    (dict_set (p_id p)
       (Function.mk (p_id p) (p_name p) (p_description p)
          (Py.join (String Py.newline "") (p_implementation p)) (p_files p))
       (functions m)) m.

Definition save_current (sc : scanner) : scanner :=
  match current_function sc with
  | Some p => with_self (save_function p) sc
  | None => sc
  end.

Definition is_header (line : string) : bool := Py.re_match_digits "F." line.

Definition in_section (s : section) (sc : scanner) : bool :=
  bool_decide (current_section sc = Some s).

(** [int(ref) for ref in refs] *)
Fixpoint ints (refs : list string) : result (list Z) :=
  match refs with
  | [] => Ok []
  | r :: rs => n ← Py.int r; ns ← ints rs; mret (n :: ns)
  end.

(** The branch taken while a function is being accumulated. *)
Definition accumulate (line : string) (sc : scanner) : result scanner :=
  match current_function sc with
  | None => mret sc
  | Some p =>
      if negb (Py.truthy (p_description p))
         && negb (Py.startswith "Implementation:" line) then
        mret (with_function
                (mkPending (p_id p) (p_name p) line (p_implementation p) (p_files p)) sc)
      else if Py.startswith "Implementation:" line then mret sc
      else if Py.startswith "File " line then
        refs ← ints (Py.findall_File line);
        mret {| sc_objects :=
                  <[p_files p := deref (sc_objects sc) (p_files p) ++ refs]> (sc_objects sc);
                sc_self := sc_self sc;
                current_section := current_section sc;
                current_function :=
                  Some (mkPending (p_id p) (p_name p) (p_description p)
                          (p_implementation p ++ [line]) (p_files p)) |}
      else
        mret (with_function
                (mkPending (p_id p) (p_name p) (p_description p)
                   (p_implementation p ++ [line]) (p_files p)) sc)
  end.

Definition config_trigger : string := "key projct configuration:".

(** One pass of the [while] body, for the raw line [lines[i]]. *)
Definition parse_line (raw : string) (sc : scanner) : result scanner :=
  let line := Py.strip raw in
  if Py.startswith "Project:" line then
    v ← Py.item (Py.split1 ":" line) 1;
    mret (with_self (set_project_name (Py.strip v)) sc)
  else if Py.startswith "Description:" line then
    v ← Py.item (Py.split1 ":" line) 1;
    mret (with_self (set_project_description (Py.strip v)) sc)
  else if Py.startswith "technology:" line then
    v ← Py.item (Py.split1 ":" line) 1;
    mret (with_self (set_technology (Py.strip v)) sc)
  else if bool_decide (line = "PROJECT FILES INDEX:") then
    mret (with_section files_sec sc)
  else if in_section files_sec sc && Py.truthy line
          && negb (Py.startswith "All functions:" line) then
    if Py.re_match_digits "." line then
      let parts := Py.split1 "." line in
      if bool_decide (length parts = 2%nat) then
        p0 ← Py.item parts 0;
        index ← Py.int p0;
        p1 ← Py.item parts 1;
        let path := Py.strip p1 in
        mret (with_self (fun m =>
                set_files (dict_set index (ProjectFile.mk index path "") (files m)) m) sc)
      else mret sc
    else mret sc
  else if bool_decide (line = "All functions:") then
    mret (with_section functions_sec sc)
  else if in_section functions_sec sc && is_header line then
    let sc1 := save_current sc in
    let parts := Py.split1 "." line in
    p0 ← Py.item parts 0;
    let func_id := Py.strip p0 in
    p1 ← Py.item parts 1;
    let func_name := Py.strip p1 in
    let '(h, l) := alloc [] (sc_objects sc1) in
    mret {| sc_objects := h; sc_self := sc_self sc1;
            current_section := current_section sc1;
            current_function := Some (mkPending func_id func_name "" [] l) |}
  else if bool_decide (is_Some (current_function sc)) && Py.truthy line
          && negb (is_header line) then
    accumulate line sc
  else if Py.startswith config_trigger line then
    mret (with_section config_sec
            (with_self (set_config_section (line +:+ String Py.newline "")) sc))
  else if in_section config_sec sc then
    mret (with_self (fun m =>
            set_config_section (config_section m +:+ line +:+ String Py.newline "") m) sc)
  else mret sc.

(** The [while] loop over [lines]. *)
Fixpoint parse_lines (lines : list string) (sc : scanner) : result scanner :=
  match lines with
  | [] => Ok sc
  | raw :: rest => sc' ← parse_line raw sc; parse_lines rest sc'
  end.

Definition _parse_content (content : string) (st : state) : result state :=
  let lines := Py.split Py.newline content in
  sc ← parse_lines lines
         {| sc_objects := objects st; sc_self := self st;
            current_section := None; current_function := None |};
  let sc' := save_current sc in
  mret {| objects := sc_objects sc'; self := sc_self sc' |}.

(** Parsing into a fresh manager. *)
Definition parse (content : string) : result state :=
  _parse_content content {| objects := []; self := init |}.

(** A text given by its lines. *)
Definition text (lines : list string) : string := Py.join (String Py.newline "") lines.

(** ** Mutation API *)

(** [int(fid.replace('F', ''))] *)
Definition numeric_id (fid : string) : result Z := Py.int (Py.remove_char "F" fid).

Fixpoint numeric_ids (fids : list string) : result (list Z) :=
  match fids with
  | [] => Ok []
  | f :: r => n ← numeric_id f; ns ← numeric_ids r; mret (n :: ns)
  end.

(** [max(l)] of a list known to be non-empty. *)
Definition max_list (l : list Z) : Z :=
  match l with
  | [] => 0
  | x :: r => fold_left Z.max r x
  end.

(** [add_function(name, description, implementation, files_involved)];
    [None] for [files_involved] is the default argument. *)
Definition add_function (name description implementation : string)
    (files_involved : option loc) (st : state) : result (state * string) :=
  let '(h, l) :=
    match files_involved with
    | None => alloc [] (objects st)
    | Some l => (objects st, l)
    end in
  existing_ids ← numeric_ids (dict_keys (functions (self st)));
  let new_id :=
    match existing_ids with
    | [] => "1F"
    | _ => Py.str (max_list existing_ids + 1) +:+ "F"
    end in
  let new_function := Function.mk new_id name description implementation l in
  mret ({| objects := h;
           self := set_functions (dict_set new_id new_function (functions (self st)))
                     (self st) |},
        new_id).


(** [delete_function(function_id)] *)
Definition delete_function (function_id : string) (st : state) : state * bool :=
  if dict_mem (functions (self st)) function_id then
    ({| objects := objects st;
        self := set_functions (dict_del function_id (functions (self st))) (self st) |},
     true)
  else (st, false).

(** [add_file(path, description)] *)
Definition add_file (path description : string) (st : state) : state * Z :=
  let new_index :=
    match dict_keys (files (self st)) with
    | [] => 1
    | ks => max_list ks + 1
    end in
  ({| objects := objects st;
      self := set_files
                (dict_set new_index (ProjectFile.mk new_index path description)
                   (files (self st))) (self st) |},
   new_index).





(** [sorted(l, key=...)] on pairs of a key and a payload: a stable
    insertion sort by the key. *)
Section Sorted.
Context {A : Type}.

Fixpoint insert_by_key (x : Z * A) (l : list (Z * A)) : list (Z * A) :=
  match l with
  | [] => [x]
  | y :: r => if fst x <=? fst y then x :: l else y :: insert_by_key x r
  end.

Definition sorted_by_key (l : list (Z * A)) : list (Z * A) :=
  foldr insert_by_key [] l.
End Sorted.

Definition set_index (i : Z) (f : ProjectFile.t) : ProjectFile.t :=
  ProjectFile.mk i (ProjectFile.path f) (ProjectFile.description f).

(** The first loop of [reorder_files], over [enumerate(sorted_files, 1)]. *)
Fixpoint renumber (new_idx : Z) (sorted_files : list (Z * ProjectFile.t))
    (new_files : dict Z ProjectFile.t) (index_mapping : dict Z Z)
  : dict Z ProjectFile.t * dict Z Z :=
  match sorted_files with
  | [] => (new_files, index_mapping)
  | (old_idx, file_obj) :: r =>
      renumber (new_idx + 1) r
        (dict_set new_idx (set_index new_idx file_obj) new_files)
        (dict_set old_idx new_idx index_mapping)
  end.

(** [index_mapping.get(idx, idx)] *)
Definition translate (index_mapping : dict Z Z) (idx : Z) : Z :=
  default idx (dict_get index_mapping idx).

(** The second loop of [reorder_files]: each function gets a new list. *)
Fixpoint rewrite_references (index_mapping : dict Z Z)
    (funcs : dict string Function.t) (h : store) : dict string Function.t * store :=
  match funcs with
  | [] => ([], h)
  | (k, func) :: r =>
      let '(h1, l) :=
        alloc (map (translate index_mapping) (deref h (Function.files_involved func))) h in
      let func' :=
        Function.mk (Function.id func) (Function.name func) (Function.description func)
          (Function.implementation func) l in
      let '(r', h2) := rewrite_references index_mapping r h1 in
      ((k, func') :: r', h2)
  end.

(** [reorder_files()] *)
Definition reorder_files (st : state) : state :=
  let sorted_files := sorted_by_key (files (self st)) in
  let '(new_files, index_mapping) := renumber 1 sorted_files [] [] in
  let '(funcs, h) := rewrite_references index_mapping (functions (self st)) (objects st) in
  {| objects := h; self := set_files new_files (set_functions funcs (self st)) |}.

(** ** [_generate_content] *)

Fixpoint file_lines (fs : dict Z ProjectFile.t) (indices : list Z) : result (list string) :=
  match indices with
  | [] => Ok []
  | index :: r =>
      file_obj ← dict_item fs index;
      rest ← file_lines fs r;
      mret ((Py.str index +:+ ". " +:+ ProjectFile.path file_obj) :: rest)
  end.

Fixpoint function_lines (fns : dict string Function.t) (ids : list string)
  : result (list string) :=
  match ids with
  | [] => Ok []
  | func_id :: r =>
      func ← dict_item fns func_id;
      rest ← function_lines fns r;
      mret ([func_id +:+ ". " +:+ Function.name func;
             Function.description func;
             "Implementation:";
             Function.implementation func;
             ""] ++ rest)
  end.

(** [sorted(self.functions.keys(), key=lambda x: int(x.replace('F', '')))] *)
Definition sorted_function_ids (fns : dict string Function.t) : result (list string) :=
  keys ← numeric_ids (dict_keys fns);
  mret (map snd (sorted_by_key (zip keys (dict_keys fns)))).

(** [sorted(self.files.keys())] *)
Definition sorted_file_indices (fs : dict Z ProjectFile.t) : list Z :=
  map fst (sorted_by_key (map (fun k => (k, ())) (dict_keys fs))).

Definition _generate_content (m : TaskFlowTextManager) : result string :=
  fl ← file_lines (files m) (sorted_file_indices (files m));
  ids ← sorted_function_ids (functions m);
  fnl ← function_lines (functions m) ids;
  mret (Py.join (String Py.newline "")
          (["Project:" +:+ project_name m;
            "Description:" +:+ project_description m;
            "technology:" +:+ technology m;
            "PROJECT FILES INDEX:"]
           ++ fl ++ [""] ++ ["All functions:"] ++ fnl
           ++ [Py.strip (config_section m)])).

(** ** [validate_project] *)

(** An entry of [issues].  The text of a [MissingFile] issue is
    [issue_text]; the text of a [DuplicatePaths] issue ends with the display
    of a Python [set], whose order depends on the interpreter's hash seed,
    so the issue carries the list the set is built from. *)
Inductive issue :=
| MissingFile (func_id : string) (file_idx : Z)
| DuplicatePaths (duplicates : list string).






(** ** The scanner without the exception plumbing

    [step] is what one pass of the loop body does once every subscript and
    [int()] call in it is known to succeed; [parse_line_step] below proves
    that [parse_line] always returns it. *)

(** [line.split(':', 1)[1].strip()] *)
Definition field_value (line : string) : string := Py.strip (Py.after ":" line).

(** [[int(ref) for ref in re.findall(r'File (\d+)', line)]] *)
Definition file_refs (line : string) : list Z :=
  map Py.digits_value (Py.findall_File line).

Definition new_function (line : string) (sc : scanner) : scanner :=
  let sc1 := save_current sc in
  {| sc_objects := sc_objects sc1 ++ [[]]; sc_self := sc_self sc1;
     current_section := current_section sc1;
     current_function :=
       Some (mkPending (Py.strip (Py.before "." line)) (Py.strip (Py.after "." line))
               "" [] (length (sc_objects sc1))) |}.

Definition accumulate_step (line : string) (p : pending) (sc : scanner) : scanner :=
  if negb (Py.truthy (p_description p))
     && negb (Py.startswith "Implementation:" line) then
    with_function (mkPending (p_id p) (p_name p) line (p_implementation p) (p_files p)) sc
  else if Py.startswith "Implementation:" line then sc
  else
    {| sc_objects :=
         if Py.startswith "File " line
         then <[p_files p := deref (sc_objects sc) (p_files p) ++ file_refs line]>
                (sc_objects sc)
         else sc_objects sc;
       sc_self := sc_self sc;
       current_section := current_section sc;
       current_function :=
         Some (mkPending (p_id p) (p_name p) (p_description p)
                 (p_implementation p ++ [line]) (p_files p)) |}.

Definition add_parsed_file (line : string) (sc : scanner) : scanner :=
  let index := Py.digits_value (Py.before "." line) in
  with_self (fun m =>
    set_files (dict_set index (ProjectFile.mk index (Py.strip (Py.after "." line)) "")
                 (files m)) m) sc.

Definition config_step (line : string) (sc : scanner) : scanner :=
  if Py.startswith config_trigger line then
    with_section config_sec
      (with_self (set_config_section (line +:+ String Py.newline "")) sc)
  else if in_section config_sec sc then
    with_self (fun m =>
      set_config_section (config_section m +:+ line +:+ String Py.newline "") m) sc
  else sc.

Definition step_line (line : string) (sc : scanner) : scanner :=
  if Py.startswith "Project:" line then
    with_self (set_project_name (field_value line)) sc
  else if Py.startswith "Description:" line then
    with_self (set_project_description (field_value line)) sc
  else if Py.startswith "technology:" line then
    with_self (set_technology (field_value line)) sc
  else if bool_decide (line = "PROJECT FILES INDEX:") then with_section files_sec sc
  else if in_section files_sec sc && Py.truthy line
          && negb (Py.startswith "All functions:" line) then
    if Py.re_match_digits "." line then add_parsed_file line sc else sc
  else if bool_decide (line = "All functions:") then with_section functions_sec sc
  else if in_section functions_sec sc && is_header line then new_function line sc
  else
    match current_function sc with
    | Some p =>
        if Py.truthy line && negb (is_header line) then accumulate_step line p sc
        else config_step line sc
    | None => config_step line sc
    end.

Definition step (sc : scanner) (raw : string) : scanner := step_line (Py.strip raw) sc.

Definition start (st : state) : scanner :=
  {| sc_objects := objects st; sc_self := self st;
     current_section := None; current_function := None |}.

Definition finish (sc : scanner) : state :=
  {| objects := sc_objects (save_current sc); self := sc_self (save_current sc) |}.

(** The state [parse] returns: see [parse_returns]. *)
Definition parsed (content : string) : state :=
  finish (fold_left step (Py.split Py.newline content) (start (mkState [] init))).

(** ** Predicates used in the statements *)

(** The representation invariant of a [dict]: its keys are distinct. *)
Definition dict_wf {K V : Type} (d : dict K V) : Prop := NoDup (dict_keys d).

(** The representation invariant of a state: both dicts have distinct keys
    and every [files_involved] refers to a list object of the store. *)
Definition wf_state (st : state) : Prop :=
  dict_wf (files (self st)) /\ dict_wf (functions (self st))
  /\ Forall (fun func => (Function.files_involved func < length (objects st))%nat)
       (dict_values (functions (self st))).







(** The values of the header lines of a text that start with [prefix], in
    the order of the text. *)
Definition header_values (prefix content : string) : list string :=
  map field_value
    (List.filter (Py.startswith prefix) (map Py.strip (Py.split Py.newline content))).


(** The lines [ls], each followed by a newline. *)
Fixpoint blob (ls : list string) : string :=
  match ls with
  | [] => ""
  | l :: r => l +:+ String Py.newline "" +:+ blob r
  end.



(** A function id as the data model has it: digits, then [F]. *)
Definition is_function_id (k : string) : bool :=
  Py.truthy (Py.take_digits k) && bool_decide (Py.drop_digits k = "F").

(** [max(ns, default=0)] *)
Definition max_or_zero (ns : list Z) : Z := foldr Z.max 0 ns.

(** The numeric prefix of a function id of the data model. *)
Definition id_number (k : string) : Z := Py.digits_value (Py.take_digits k).


(** The scenario of the specification: files 1 and 2, a function ["1F"]
    that references both. *)
Definition scenario : state :=
  {| objects := [[1; 2]];
     self := {| project_name := "Demo"; project_description := ""; technology := "";
                files := [(1, ProjectFile.mk 1 "a.js" ""); (2, ProjectFile.mk 2 "b.js" "")];
                functions := [("1F", Function.mk "1F" "LOGIN" "Checks the password"
                                       "File 1 reads, File 2 writes" 0%nat)];
                config_section := "" |} |}.

(** The place of [k] among the file indices [keys], counted from 1 in
    ascending order. *)
Definition rank (keys : list Z) (k : Z) : Z :=
  1 + Z.of_nat (length (List.filter (fun j => j <? k) keys)).

(** The old-to-new table of [reorder_files] as a function: an existing
    index goes to its rank, anything else stays. *)
Definition renumbered (keys : list Z) (idx : Z) : Z :=
  if bool_decide (idx ∈ keys) then rank keys idx else idx.

(** The two dicts the first loop of [reorder_files] builds from the sorted
    items, as lists. *)
Fixpoint numbered (n : Z) (items : list (Z * ProjectFile.t)) : dict Z ProjectFile.t :=
  match items with
  | [] => []
  | (_, f) :: r => (n, set_index n f) :: numbered (n + 1) r
  end.

Fixpoint mapping (n : Z) (items : list (Z * ProjectFile.t)) : dict Z Z :=
  match items with
  | [] => []
  | (k, _) :: r => (k, n) :: mapping (n + 1) r
  end.

Definition key_lt {A} (a b : Z * A) : Prop := fst a < fst b.

#[global] Instance issue_eq_dec : EqDecision issue.
Proof. solve_decision. Defined.




(** ** The round trip *)

(** [parse(serialize(parse(content)))] *)
Definition reparse (content : string) : result state :=
  st ← parse content;
  t ← _generate_content (self st);
  parse t.

(** What the round trip compares of a function: id, name, description,
    implementation text and the entries of [files_involved]. *)
Definition function_view (st : state) (fid : string)
  : option (string * string * string * string * list Z) :=
  (fun func =>
     (Function.id func, Function.name func, Function.description func,
      Function.implementation func, deref (objects st) (Function.files_involved func)))
  <$> dict_get (functions (self st)) fid.

(** What the round trip compares of a file: index and path. *)
Definition file_view (st : state) (index : Z) : option (Z * string) :=
  (fun f => (ProjectFile.index f, ProjectFile.path f)) <$> dict_get (files (self st)) index.

(** The same file collection and the same function collection. *)
Definition same_model (st st' : state) : Prop :=
  (forall index, file_view st index = file_view st' index)
  /\ (forall fid, function_view st fid = function_view st' fid).

(** A document whose configuration section comes before its functions. *)
Definition config_first : string :=
  text ["Project:Demo";
        "key projct configuration:";
        "mode=fast";
        "PROJECT FILES INDEX:";
        "1. a.py";
        "";
        "All functions:";
        "1F. LOGIN";
        "Checks the password";
        "Implementation:";
        "File 1 reads the input"].

(** ** What parsing produces

    The shape of every model [parse] returns ([parsed_image] below); the
    round trip is proved for every model of this shape. *)

(** A name as a line keeps it: stripped, on one line. *)
Definition name_ok (s : string) : Prop :=
  Py.stripped s /\ Py.contains Py.newline s = false.

(** A line a function keeps as its description or in its implementation. *)
Definition content_line (l : string) : Prop :=
  Py.truthy l = true /\ name_ok l
  /\ Py.startswith "Project:" l = false
  /\ Py.startswith "Description:" l = false
  /\ Py.startswith "technology:" l = false
  /\ l <> "PROJECT FILES INDEX:" /\ l <> "All functions:"
  /\ is_header l = false
  /\ Py.startswith "Implementation:" l = false.

(** The file references the implementation lines [ls] give. *)
Definition refs_of (ls : list string) : list Z :=
  concat (map (fun l => if Py.startswith "File " l then file_refs l else []) ls).

(** A description [d] with the implementation lines [ls]. *)
Definition body_ok (d : string) (ls : list string) : Prop :=
  (d = "" \/ content_line d) /\ Forall content_line ls /\ (ls <> [] -> d <> "").

Definition function_ok (h : store) (k : string) (f : Function.t) : Prop :=
  Function.id f = k /\ is_function_id k = true /\ name_ok (Function.name f)
  /\ (Function.files_involved f < length h)%nat
  /\ exists ls, body_ok (Function.description f) ls
       /\ Function.implementation f = Py.join (String Py.newline "") ls
       /\ deref h (Function.files_involved f) = refs_of ls.

Definition file_ok (k : Z) (f : ProjectFile.t) : Prop :=
  ProjectFile.index f = k /\ 0 <= k /\ name_ok (ProjectFile.path f).

Definition metadata_ok (m : TaskFlowTextManager) : Prop :=
  Py.contains Py.newline (project_name m) = false
  /\ Py.contains Py.newline (project_description m) = false
  /\ Py.contains Py.newline (technology m) = false.

Definition files_ok (m : TaskFlowTextManager) : Prop :=
  dict_wf (files m) /\ forall k f, dict_get (files m) k = Some f -> file_ok k f.

Definition functions_ok (h : store) (m : TaskFlowTextManager) : Prop :=
  dict_wf (functions m)
  /\ forall k f, dict_get (functions m) k = Some f -> function_ok h k f.

Definition parsed_image (st : state) : Prop :=
  metadata_ok (self st) /\ files_ok (self st) /\ functions_ok (objects st) (self st).

Definition pending_ok (h : store) (p : pending) : Prop :=
  is_function_id (p_id p) = true /\ name_ok (p_name p)
  /\ (p_files p < length h)%nat
  /\ body_ok (p_description p) (p_implementation p)
  /\ deref h (p_files p) = refs_of (p_implementation p).

(** The invariant of the scanning loop on the functions. *)
Definition scanning_ok (sc : scanner) : Prop :=
  functions_ok (sc_objects sc) (sc_self sc)
  /\ forall p, current_function sc = Some p ->
       pending_ok (sc_objects sc) p
       /\ forall k f, dict_get (functions (sc_self sc)) k = Some f ->
            Function.files_involved f <> p_files p.

(** ** The serialized text, line by line *)

(** The line [_generate_content] writes for the file index [index]. *)
Definition file_line (fs : dict Z ProjectFile.t) (index : Z) : string :=
  Py.str index +:+ ". "
  +:+ match dict_get fs index with Some f => ProjectFile.path f | None => "" end.

(** The five items [_generate_content] writes for the function [func_id]. *)
Definition block_text (fns : dict string Function.t) (func_id : string) : list string :=
  match dict_get fns func_id with
  | Some func =>
      [func_id +:+ ". " +:+ Function.name func;
       Function.description func;
       "Implementation:";
       Function.implementation func;
       ""]
  | None => []
  end.

(** The items of the serialized text, before they are joined. *)
Definition items (m : TaskFlowTextManager) (indices : list Z) (ids : list string)
  : list string :=
  ["Project:" +:+ project_name m;
   "Description:" +:+ project_description m;
   "technology:" +:+ technology m;
   "PROJECT FILES INDEX:"]
  ++ map (file_line (files m)) indices ++ [""] ++ ["All functions:"]
  ++ concat (map (block_text (functions m)) ids)
  ++ [Py.strip (config_section m)].

(** What of the scanning loop's state the round trip follows. *)
Definition shape (sc : scanner)
  : store * dict Z ProjectFile.t * dict string Function.t
    * option section * option pending :=
  (sc_objects sc, files (sc_self sc), functions (sc_self sc),
   current_section sc, current_function sc).

(** The lines of the serialized text for the function [func]. *)
Definition block_lines (func_id : string) (func : Function.t) : list string :=
  [func_id +:+ ". " +:+ Function.name func; Function.description func; "Implementation:"]
  ++ Py.split Py.newline (Function.implementation func) ++ [""].

(** The path the model has for a file index. *)
Definition path_of (fs : dict Z ProjectFile.t) (k : Z) : string :=
  match dict_get fs k with Some f => ProjectFile.path f | None => "" end.

(** The file collection the file lines of the serialized text give. *)
Definition reparsed_files (fs : dict Z ProjectFile.t) (indices : list Z)
    (d : dict Z ProjectFile.t) : dict Z ProjectFile.t :=
  fold_left (fun d k => dict_set k (ProjectFile.mk k (path_of fs k) "") d) indices d.

(** The function [f] with its list at the reference [l]. *)
Definition relocate (l : loc) (f : Function.t) : Function.t :=
  Function.mk (Function.id f) (Function.name f) (Function.description f)
    (Function.implementation f) l.

(** The function collection the blocks of the serialized text give: the
    functions in the order of the text, the list of the [i]-th one at the
    [i]-th new reference. *)
Fixpoint replay (base : nat) (blocks : list (string * Function.t))
    (fns : dict string Function.t) : dict string Function.t :=
  match blocks with
  | [] => fns
  | (k, f) :: r => replay (S base) r (dict_set k (relocate base f) fns)
  end.

Definition lines_of_blocks (blocks : list (string * Function.t)) : list string :=
  concat (map (fun b => block_lines (fst b) (snd b)) blocks).

Definition lists_of_blocks (h : store) (blocks : list (string * Function.t)) : store :=
  map (fun b => deref h (Function.files_involved (snd b))) blocks.

(** ** The rest of the manager's API *)

(** [edit_file(index, path, description)]; [None] is an omitted argument. *)
Definition edit_file (index : Z) (path description : option string) (st : state)
  : state * bool :=
  match dict_get (files (self st)) index with
  | None => (st, false)
  | Some file_obj =>
      let path' :=
        match path with
        | Some v => if Py.truthy v then v else ProjectFile.path file_obj
        | None => ProjectFile.path file_obj
        end in
      let description' :=
        match description with
        | Some v => v
        | None => ProjectFile.description file_obj
        end in
      ({| objects := objects st;
          self := set_files
                    (dict_set index
                       (ProjectFile.mk (ProjectFile.index file_obj) path' description')
                       (files (self st))) (self st) |},
       true)
  end.

(** [search_functions(query)]: the list it returns. *)
Definition search_functions (query : string) (st : state) : list Function.t :=
  let query_lower := Py.lower query in
  List.filter
    (fun func =>
       Py.is_in query_lower (Py.lower (Function.name func))
       || Py.is_in query_lower (Py.lower (Function.description func))
       || Py.is_in query_lower (Py.lower (Function.implementation func)))
    (dict_values (functions (self st))).

(** [get_function_info(function_id)]: the function it returns, or [None]. *)
Definition get_function_info (function_id : string) (st : state) : option Function.t :=
  dict_get (functions (self st)) function_id.

(** ** [TechnologyDetector._get_default_patterns] *)

Definition default_patterns : dict string (list string) :=
  [("javascript", ["node_modules/**"; "*.log"; ".env*"; "dist/**"; "build/**"]);
   ("python", ["__pycache__/**"; "*.pyc"; "venv/**"; "*.egg-info/**"; ".pytest_cache/**"]);
   ("browser-extension", ["*.zip"; "*.crx"; "web-ext-artifacts/**"]);
   ("unknown", ["*.log"; ".env*"; ".DS_Store"; "Thumbs.db"; ".vscode/**"; ".idea/**"])].

(** [technology.lower().replace('-', '').replace('_', '')] *)
Definition pattern_key (technology : string) : string :=
  Py.remove_char "_" (Py.remove_char "-" (Py.lower technology)).

Definition _get_default_patterns (technology : string) : result (list string) :=
  let key := pattern_key technology in
  fallback ← dict_item default_patterns "unknown";
  mret (default fallback (dict_get default_patterns key)).

(** ** [ProjectFileGenerator._build_content] *)

Module ScannedFile.
Record t : Type := mk {
  index : Z; path : string; relative_path : string; size : Z; extension : string
}.
End ScannedFile.

Module ProjectInfo.
Record t : Type := mk {
  name : string; description : string; technologies : list string; root_path : string
}.
End ProjectInfo.

Module AnalyzedFunction.
Record t : Type := mk {
  name : string;
  description : string;
  implementation : string;
  files_involved : list Z;
  function_type : string;
  files_flow : string
}.
End AnalyzedFunction.




(** ** What the manager reads back from a generated document *)







(** ** The configuration text of a parsed model *)





(** ** Parsing into a manager that already holds a model *)

(** The function being accumulated, with its list [n] references further. *)
Definition shift_pending (n : nat) (p : pending) : pending :=
  mkPending (p_id p) (p_name p) (p_description p) (p_implementation p)
    (n + p_files p)%nat.

(** A function of the text's own model, as the manager that held [n] list
    objects before has it. *)
Definition shift_function (n : nat) (f : Function.t) : Function.t :=
  relocate (n + Function.files_involved f)%nat f.

(** The scanning loop started on the state [st0], at [sc2], against the
    loop started on a new manager, at [sc1], after the same lines: the list
    objects of the text come after those of [st0]; an entry the text has
    given so far overrides the entry of [st0] with the same key, and the
    other entries of [st0] are there; the configuration text is the one of
    the text once the text has one. *)
Definition overlaid (st0 : state) (sc1 sc2 : scanner) : Prop :=
  sc_objects sc2 = objects st0 ++ sc_objects sc1
  /\ current_section sc2 = current_section sc1
  /\ current_function sc2 = shift_pending (length (objects st0)) <$> current_function sc1
  /\ (forall k, dict_get (files (sc_self sc2)) k
                = match dict_get (files (sc_self sc1)) k with
                  | Some f => Some f
                  | None => dict_get (files (self st0)) k
                  end)
  /\ (forall k, dict_get (functions (sc_self sc2)) k
                = match dict_get (functions (sc_self sc1)) k with
                  | Some f => Some (shift_function (length (objects st0)) f)
                  | None => dict_get (functions (self st0)) k
                  end)
  /\ config_section (sc_self sc2)
     = (if Py.truthy (config_section (sc_self sc1)) then config_section (sc_self sc1)
        else config_section (self st0))
  /\ (current_section sc1 = Some config_sec ->
      Py.truthy (config_section (sc_self sc1)) = true).

(** ** The digit limit of [int()] and [str()]

    CPython converts between [str] and [int] only up to
    [sys.int_info.default_max_str_digits] digits: [int(s)] for an [s] of
    more digits, and [str(n)] or an f-string that formats an [n] of more
    digits, raise [ValueError].  [Py.int] and [Py.str] are the conversions
    without the limit, and the definitions above are written with them.
    This module has the conversions with the limit and, written with
    these, the methods of the manager that convert: [_parse_content],
    [add_function] and [_generate_content].  An exception leaves the method
    at once; what the method had stored until then stays in the manager,
    and is not part of [Raise]. *)

Module Limited.

Definition max_str_digits : nat := 4300.

(** How many digits [s] holds. *)
Fixpoint count_digits (s : string) : nat :=
  match s with
  | EmptyString => 0
  | String c r => if Py.isdigit c then S (count_digits r) else count_digits r
  end.

Definition within_limit (s : string) : bool := (count_digits s <=? max_str_digits)%nat.

(** [int(s)] *)
Definition int (s : string) : result Z :=
  if within_limit s then Py.int s else Raise ValueError.

(** [str(n)], and [n] formatted by an f-string *)
Definition str (n : Z) : result string :=
  if within_limit (Py.str n) then Ok (Py.str n) else Raise ValueError.

(** The longest run of digits in [s], where a run at the start of [s]
    counts with the [n] digits before it. *)
Fixpoint longest_digits (n : nat) (s : string) : nat :=
  match s with
  | EmptyString => n
  | String c r =>
      if Py.isdigit c then longest_digits (S n) r else Nat.max n (longest_digits 0 r)
  end.

(** No number written in [s] has more digits than the limit. *)
Definition digits_fit (s : string) : bool := (longest_digits 0 s <=? max_str_digits)%nat.

(** *** [_parse_content] *)

(** [int(ref) for ref in refs] *)
Fixpoint ints (refs : list string) : result (list Z) :=
  match refs with
  | [] => Ok []
  | r :: rs => n ← int r; ns ← ints rs; mret (n :: ns)
  end.

Definition accumulate (line : string) (sc : scanner) : result scanner :=
  match current_function sc with
  | None => mret sc
  | Some p =>
      if negb (Py.truthy (p_description p))
         && negb (Py.startswith "Implementation:" line) then
        mret (with_function
                (mkPending (p_id p) (p_name p) line (p_implementation p) (p_files p)) sc)
      else if Py.startswith "Implementation:" line then mret sc
      else if Py.startswith "File " line then
        refs ← ints (Py.findall_File line);
        mret {| sc_objects :=
                  <[p_files p := deref (sc_objects sc) (p_files p) ++ refs]> (sc_objects sc);
                sc_self := sc_self sc;
                current_section := current_section sc;
                current_function :=
                  Some (mkPending (p_id p) (p_name p) (p_description p)
                          (p_implementation p ++ [line]) (p_files p)) |}
      else
        mret (with_function
                (mkPending (p_id p) (p_name p) (p_description p)
                   (p_implementation p ++ [line]) (p_files p)) sc)
  end.

Definition parse_line (raw : string) (sc : scanner) : result scanner :=
  let line := Py.strip raw in
  if Py.startswith "Project:" line then
    v ← Py.item (Py.split1 ":" line) 1;
    mret (with_self (set_project_name (Py.strip v)) sc)
  else if Py.startswith "Description:" line then
    v ← Py.item (Py.split1 ":" line) 1;
    mret (with_self (set_project_description (Py.strip v)) sc)
  else if Py.startswith "technology:" line then
    v ← Py.item (Py.split1 ":" line) 1;
    mret (with_self (set_technology (Py.strip v)) sc)
  else if bool_decide (line = "PROJECT FILES INDEX:") then
    mret (with_section files_sec sc)
  else if in_section files_sec sc && Py.truthy line
          && negb (Py.startswith "All functions:" line) then
    if Py.re_match_digits "." line then
      let parts := Py.split1 "." line in
      if bool_decide (length parts = 2%nat) then
        p0 ← Py.item parts 0;
        index ← int p0;
        p1 ← Py.item parts 1;
        let path := Py.strip p1 in
        mret (with_self (fun m =>
                set_files (dict_set index (ProjectFile.mk index path "") (files m)) m) sc)
      else mret sc
    else mret sc
  else if bool_decide (line = "All functions:") then
    mret (with_section functions_sec sc)
  else if in_section functions_sec sc && is_header line then
    let sc1 := save_current sc in
    let parts := Py.split1 "." line in
    p0 ← Py.item parts 0;
    let func_id := Py.strip p0 in
    p1 ← Py.item parts 1;
    let func_name := Py.strip p1 in
    let '(h, l) := alloc [] (sc_objects sc1) in
    mret {| sc_objects := h; sc_self := sc_self sc1;
            current_section := current_section sc1;
            current_function := Some (mkPending func_id func_name "" [] l) |}
  else if bool_decide (is_Some (current_function sc)) && Py.truthy line
          && negb (is_header line) then
    accumulate line sc
  else if Py.startswith config_trigger line then
    mret (with_section config_sec
            (with_self (set_config_section (line +:+ String Py.newline "")) sc))
  else if in_section config_sec sc then
    mret (with_self (fun m =>
            set_config_section (config_section m +:+ line +:+ String Py.newline "") m) sc)
  else mret sc.

Fixpoint parse_lines (lines : list string) (sc : scanner) : result scanner :=
  match lines with
  | [] => Ok sc
  | raw :: rest => sc' ← parse_line raw sc; parse_lines rest sc'
  end.

Definition _parse_content (content : string) (st : state) : result state :=
  let lines := Py.split Py.newline content in
  sc ← parse_lines lines
         {| sc_objects := objects st; sc_self := self st;
            current_section := None; current_function := None |};
  let sc' := save_current sc in
  mret {| objects := sc_objects sc'; self := sc_self sc' |}.

Definition parse (content : string) : result state :=
  _parse_content content {| objects := []; self := init |}.

(** *** [add_function] *)

(** [int(fid.replace('F', ''))] *)
Definition numeric_id (fid : string) : result Z := int (Py.remove_char "F" fid).

Fixpoint numeric_ids (fids : list string) : result (list Z) :=
  match fids with
  | [] => Ok []
  | f :: r => n ← numeric_id f; ns ← numeric_ids r; mret (n :: ns)
  end.

(** The loop of [add_function] over [files_involved]: the warning it prints
    for an entry that is no file index formats that entry. *)
Fixpoint warn_missing (fs : dict Z ProjectFile.t) (files_involved : list Z)
  : result unit :=
  match files_involved with
  | [] => Ok ()
  | file_idx :: r =>
      (if dict_mem fs file_idx then Ok "" else str file_idx);;
      warn_missing fs r
  end.

Definition add_function (name description implementation : string)
    (files_involved : option loc) (st : state) : result (state * string) :=
  let '(h, l) :=
    match files_involved with
    | None => alloc [] (objects st)
    | Some l => (objects st, l)
    end in
  existing_ids ← numeric_ids (dict_keys (functions (self st)));
  new_id ← match existing_ids with
           | [] => Ok "1F"
           | _ => number ← str (max_list existing_ids + 1); mret (number +:+ "F")
           end;
  warn_missing (files (self st)) (deref h l);;
  let new_function := Function.mk new_id name description implementation l in
  mret ({| objects := h;
           self := set_functions (dict_set new_id new_function (functions (self st)))
                     (self st) |},
        new_id).

(** *** [_generate_content] *)

Fixpoint file_lines (fs : dict Z ProjectFile.t) (indices : list Z) : result (list string) :=
  match indices with
  | [] => Ok []
  | index :: r =>
      file_obj ← dict_item fs index;
      number ← str index;
      rest ← file_lines fs r;
      mret ((number +:+ ". " +:+ ProjectFile.path file_obj) :: rest)
  end.

Definition sorted_function_ids (fns : dict string Function.t) : result (list string) :=
  keys ← numeric_ids (dict_keys fns);
  mret (map snd (sorted_by_key (zip keys (dict_keys fns)))).

Definition _generate_content (m : TaskFlowTextManager) : result string :=
  fl ← file_lines (files m) (sorted_file_indices (files m));
  ids ← sorted_function_ids (functions m);
  fnl ← function_lines (functions m) ids;
  mret (Py.join (String Py.newline "")
          (["Project:" +:+ project_name m;
            "Description:" +:+ project_description m;
            "technology:" +:+ technology m;
            "PROJECT FILES INDEX:"]
           ++ fl ++ [""] ++ ["All functions:"] ++ fnl
           ++ [Py.strip (config_section m)])).

End Limited.

(** A number of one digit more than the limit allows. *)
Definition long_number : string :=
  string_of_list_ascii (repeat "1"%char (S Limited.max_str_digits)).


(** A function catalog whose one function has the number [long_number]. *)
Definition long_id : string :=
  text ["All functions:"; long_number +:+ "F. REPORT"; "Prints the totals"].


(** The largest number of as many digits as the limit allows. *)
Definition last_number : string :=
  string_of_list_ascii (repeat "9"%char Limited.max_str_digits).

(** A function catalog whose one function has the number [last_number]. *)
Definition last_id : string :=
  text ["All functions:"; last_number +:+ "F. REPORT"; "Prints the totals"].

(** The entries of the list [add_function] is called with. *)
Definition entries (files_involved : option loc) (st : state) : list Z :=
  match files_involved with
  | Some l => deref (objects st) l
  | None => []
  end.

(** [str(n)] is within the limit. *)
Definition formats (n : Z) : Prop := Limited.within_limit (Py.str n) = true.

(** An entry of [files_involved] the warning loop of [add_function] passes:
    a file index, or a number it can format. *)
Definition warns (fs : dict Z ProjectFile.t) (file_idx : Z) : Prop :=
  dict_mem fs file_idx = false -> formats file_idx.

(** The conversions of [add_function] are within the limit: those of the
    existing ids, the one of the new number, and the ones of the warning
    loop. *)
Definition add_function_fits (files_involved : option loc) (st : state) : Prop :=
  Forall (fun k => Limited.within_limit k = true) (dict_keys (functions (self st)))
  /\ formats (max_or_zero (map id_number (dict_keys (functions (self st)))) + 1)
  /\ Forall (warns (files (self st))) (entries files_involved st).


(** The ids that [n] calls of [add_function] in a row give, when the
    largest number before them is [top]. *)
Definition next_ids (top : Z) (n : nat) : list string :=
  map (fun i => Py.str (top + Z.of_nat i) +:+ "F") (seq 1 n).

(** [u] is a part of [s]. *)
Definition part_of (u s : string) : Prop := exists a b, s = a +:+ u +:+ b.

(** * Facts about the builtins *)

Example strip_ex : Py.strip "  File 12 	" = "File 12".
Proof. reflexivity. Qed.

Example split1_ex : Py.split1 ":" "Project: a:b" = ["Project"; " a:b"].
Proof. reflexivity. Qed.

Example findall_ex :
  Py.findall_File "File 12 and File 3, File x, ProFile 07" = ["12"; "3"; "07"].
Proof. reflexivity. Qed.

Example int_ex :
  Py.int " 0_12 " = Ok 12 /\ Py.int "-7" = Ok (-7) /\ Py.int "1__2" = Raise ValueError
  /\ Py.int "" = Raise ValueError /\ Py.int (String "028" "4") = Raise ValueError
  /\ Py.int (String "160" "4") = Ok 4 /\ Py.str 120 = "120" /\ Py.str (-5) = "-5" /\ Py.str 0 = "0".
Proof. repeat split; reflexivity. Qed.

Module PyFacts.
Import Py.

Lemma sapp_cons c s t : String c s +:+ t = String c (s +:+ t).
Proof. reflexivity. Qed.

Lemma sapp_nil_l s : "" +:+ s = s.
Proof. reflexivity. Qed.

Lemma sapp_nil_r s : s +:+ "" = s.
Proof. induction s as [|c s IH]; [reflexivity|]. rewrite sapp_cons. now f_equal. Qed.

Lemma sapp_assoc s t u : (s +:+ t) +:+ u = s +:+ t +:+ u.
Proof. induction s as [|c s IH]; [reflexivity|]. rewrite !sapp_cons. now f_equal. Qed.

Lemma startswith_app p r : startswith p (p +:+ r) = true.
Proof.
  induction p as [|c p IH]; [now destruct r|].
  rewrite sapp_cons. unfold startswith in *. simpl.
  destruct (ascii_dec c c); [assumption | congruence].
Qed.

Lemma startswith_inv p s : startswith p s = true -> exists r, s = p +:+ r.
Proof.
  revert s. induction p as [|c p IH]; intros s H.
  - exists s. reflexivity.
  - destruct s as [|a s]; [discriminate|]. unfold startswith in *. simpl in H.
    destruct (ascii_dec c a) as [->|]; [|discriminate].
    destruct (IH _ H) as [r ->]. exists r. reflexivity.
Qed.

(** *** Stripping *)

Lemma rstrip_nil_inv c r : rstrip (String c r) = "" -> isspace c = true /\ rstrip r = "".
Proof. simpl. destruct (rstrip r); [destruct (isspace c)|]; intros; try discriminate; auto. Qed.

Lemma rstrip_idem s : rstrip (rstrip s) = rstrip s.
Proof.
  induction s as [|c s IH]; [reflexivity|]. simpl.
  destruct (rstrip s) as [|a t] eqn:E.
  - destruct (isspace c) eqn:Ec; [reflexivity|]. simpl. now rewrite Ec.
  - simpl in *. now rewrite IH.
Qed.

Lemma rstrip_head c r :
  isspace c = false -> exists t, rstrip (String c r) = String c t.
Proof.
  intros Hc. simpl. destruct (rstrip r); [rewrite Hc|]; eauto.
Qed.

Lemma lstrip_head s :
  lstrip s = "" \/ exists c r, lstrip s = String c r /\ isspace c = false.
Proof.
  induction s as [|c s IH]; [now left|]. simpl.
  destruct (isspace c) eqn:Ec; [assumption|]. right. eauto.
Qed.

Lemma lstrip_fix c r : isspace c = false -> lstrip (String c r) = String c r.
Proof. intros H. simpl. now rewrite H. Qed.

Lemma strip_idem s : strip (strip s) = strip s.
Proof.
  unfold strip. destruct (lstrip_head s) as [->|(c & r & -> & Hc)]; [reflexivity|].
  destruct (rstrip_head c r Hc) as [t Ht]. rewrite Ht, lstrip_fix by assumption.
  rewrite <- Ht. apply rstrip_idem.
Qed.

Lemma strip_stripped s : stripped (strip s).
Proof. apply strip_idem. Qed.

Lemma stripped_nil : stripped "".
Proof. reflexivity. Qed.

Lemma contains_lstrip c s : contains c (lstrip s) = true -> contains c s = true.
Proof.
  induction s as [|a s IH]; [trivial|]. simpl.
  destruct (isspace a); [|trivial]. intros H. rewrite (IH H). apply orb_true_r.
Qed.

Lemma contains_rstrip c s : contains c (rstrip s) = true -> contains c s = true.
Proof.
  induction s as [|a s IH]; [trivial|]. simpl.
  destruct (rstrip s) as [|b t] eqn:E.
  - destruct (isspace a); simpl; [discriminate|]. rewrite orb_false_r. intros ->. reflexivity.
  - simpl in *. destruct (Ascii.eqb a c); [trivial|]. exact IH.
Qed.

Lemma contains_strip c s : contains c s = false -> contains c (strip s) = false.
Proof.
  intros H. destruct (contains c (strip s)) eqn:E; [|reflexivity].
  apply contains_rstrip, contains_lstrip in E. congruence.
Qed.

(** *** Splitting and joining *)

Lemma split1_spec sep s :
  split1 sep s = if contains sep s then [before sep s; after sep s] else [s].
Proof.
  induction s as [|c s IH]; [reflexivity|]. simpl.
  destruct (Ascii.eqb c sep); [reflexivity|]. simpl. rewrite IH.
  destruct (contains sep s); reflexivity.
Qed.

Lemma contains_app_r c s t : contains c t = true -> contains c (s +:+ t) = true.
Proof.
  intros H. induction s as [|a s IH]; [assumption|].
  rewrite sapp_cons. simpl. rewrite IH. apply orb_true_r.
Qed.

Lemma contains_app c s t : contains c (s +:+ t) = contains c s || contains c t.
Proof.
  induction s as [|a s IH]; [reflexivity|].
  rewrite sapp_cons. simpl. rewrite IH. apply orb_assoc.
Qed.

Lemma split_not_nil sep s : split sep s <> [].
Proof.
  induction s as [|c s IH]; [discriminate|]. simpl.
  destruct (Ascii.eqb c sep); [discriminate|]. destruct (split sep s); [congruence|discriminate].
Qed.

Lemma split_no_sep sep s : Forall (fun l => contains sep l = false) (split sep s).
Proof.
  induction s as [|c s IH]; [repeat constructor|]. simpl.
  destruct (Ascii.eqb c sep) eqn:E; [constructor; [reflexivity|assumption]|].
  destruct (split sep s) as [|h t]; [repeat constructor; simpl; now rewrite E|].
  inversion IH; subst. constructor; [simpl; now rewrite E|assumption].
Qed.

Lemma split_no_sep_id sep s : contains sep s = false -> split sep s = [s].
Proof.
  induction s as [|c s IH]; [reflexivity|]. simpl.
  destruct (Ascii.eqb c sep); [discriminate|]. simpl. intros H. now rewrite IH.
Qed.

Lemma split_app sep s t :
  contains sep s = false ->
  split sep (s +:+ String sep t) = s :: split sep t.
Proof.
  induction s as [|c s IH]; intros H.
  - rewrite sapp_nil_l. simpl. now rewrite Ascii.eqb_refl.
  - rewrite sapp_cons. simpl in *. destruct (Ascii.eqb c sep); [discriminate|].
    simpl in H. now rewrite IH.
Qed.

Lemma split_join sep ls :
  ls <> [] -> Forall (fun l => contains sep l = false) ls ->
  split sep (join (String sep "") ls) = ls.
Proof.
  induction ls as [|l ls IH]; [congruence|]. intros _ H. inversion H; subst.
  destruct ls as [|l' ls]; [now apply split_no_sep_id|].
  change (join (String sep "") (l :: l' :: ls))
    with (l +:+ String sep "" +:+ join (String sep "") (l' :: ls)).
  rewrite sapp_cons, sapp_nil_l, split_app by assumption.
  f_equal. apply IH; [discriminate|assumption].
Qed.

(** *** Digits, [int] and [str] *)

Lemma isdigit_cases c :
  isdigit c = true ->
  (c = "0" \/ c = "1" \/ c = "2" \/ c = "3" \/ c = "4" \/ c = "5" \/ c = "6"
   \/ c = "7" \/ c = "8" \/ c = "9")%char.
Proof.
  destruct c as [[] [] [] [] [] [] [] []]; vm_compute; intros H;
    try discriminate H; tauto.
Qed.

Ltac digit_cases c H :=
  destruct (isdigit_cases c H)
    as [->|[->|[->|[->|[->|[->|[->|[->|[->| ->]]]]]]]]].

Lemma isdigit_not_space c : isdigit c = true -> isspace c = false.
Proof. intros H. digit_cases c H; reflexivity. Qed.

Lemma all_digits_take s : all_digits (take_digits s) = true.
Proof.
  induction s as [|c s IH]; [reflexivity|]. simpl.
  destruct (isdigit c) eqn:E; [|reflexivity]. simpl. now rewrite E.
Qed.

Lemma take_drop_digits s : take_digits s +:+ drop_digits s = s.
Proof.
  induction s as [|c s IH]; [reflexivity|]. simpl.
  destruct (isdigit c); [|reflexivity]. rewrite sapp_cons. now f_equal.
Qed.

Lemma all_digits_rstrip s : all_digits s = true -> rstrip s = s.
Proof.
  induction s as [|c s IH]; [reflexivity|]. simpl.
  intros [Hc Hs]%andb_prop. rewrite (IH Hs).
  destruct s; [now rewrite (isdigit_not_space c Hc)|reflexivity].
Qed.

Lemma all_digits_stripped s : all_digits s = true -> stripped s.
Proof.
  intros H. unfold stripped, strip. destruct s as [|c s]; [reflexivity|].
  pose proof H as [Hc _]%andb_prop.
  rewrite lstrip_fix by now apply isdigit_not_space.
  now apply all_digits_rstrip.
Qed.

Lemma all_digits_no c s : isdigit c = false -> all_digits s = true -> contains c s = false.
Proof.
  intros Hc. induction s as [|a s IH]; [reflexivity|]. simpl.
  intros [Ha Hs]%andb_prop. rewrite (IH Hs), orb_false_r.
  destruct (Ascii.eqb_spec a c); [congruence|reflexivity].
Qed.

Lemma all_digits_remove c s :
  isdigit c = false -> all_digits s = true -> remove_char c s = s.
Proof.
  intros Hc. induction s as [|a s IH]; [reflexivity|]. simpl.
  intros [Ha Hs]%andb_prop. rewrite (IH Hs).
  destruct (Ascii.eqb_spec a c); [congruence|reflexivity].
Qed.

Lemma all_digits_underscores s b :
  all_digits s = true -> underscores_ok b s = (b || truthy s).
Proof.
  revert b. induction s as [|a s IH]; intros b; simpl; [now rewrite orb_false_r|].
  intros [Ha Hs]%andb_prop. rewrite Ha, (IH _ Hs). now rewrite orb_true_r.
Qed.

Lemma all_digits_uint s :
  all_digits s = true -> exists d, NilEmpty.uint_of_string s = Some d.
Proof.
  induction s as [|a s IH]; simpl; [eauto|].
  intros [Ha Hs]%andb_prop. destruct (IH Hs) as [d ->].
  digit_cases a Ha; simpl; eauto.
Qed.

Lemma isdigit_not_int_space c : isdigit c = true -> int_space c = false.
Proof. intros H. digit_cases c H; reflexivity. Qed.

Lemma all_digits_int_rstrip s : all_digits s = true -> int_rstrip s = s.
Proof.
  induction s as [|c s IH]; [reflexivity|]. simpl.
  intros [Hc Hs]%andb_prop. rewrite (IH Hs).
  destruct s; [now rewrite (isdigit_not_int_space c Hc)|reflexivity].
Qed.

Lemma all_digits_int_strip s : all_digits s = true -> int_rstrip (int_lstrip s) = s.
Proof.
  intros H. destruct s as [|c s]; [reflexivity|].
  pose proof H as [Hc _]%andb_prop. cbn [int_lstrip].
  rewrite (isdigit_not_int_space c Hc). now apply all_digits_int_rstrip.
Qed.

Lemma int_digits s :
  all_digits s = true -> s <> "" -> int s = Ok (digits_value s).
Proof.
  intros H Hne. unfold int. rewrite (all_digits_int_strip s H).
  assert (int_unsigned s = Ok (digits_value s)) as Hu.
  { unfold int_unsigned, digits_value.
    rewrite (all_digits_underscores s false H).
    rewrite (all_digits_remove "_" s eq_refl H).
    destruct s; [congruence|]. simpl orb. cbv iota.
    now destruct (all_digits_uint _ H) as [d ->]. }
  destruct s as [|c s]; [congruence|].
  apply andb_prop in H as [Hc _].
  digit_cases c Hc; exact Hu.
Qed.

Lemma digits_value_nonneg s : 0 <= digits_value s.
Proof.
  unfold digits_value. destruct (NilEmpty.uint_of_string s); [|lia].
  unfold Z.of_uint. lia.
Qed.

Lemma all_digits_string_of_uint d : all_digits (NilEmpty.string_of_uint d) = true.
Proof. induction d; simpl; auto. Qed.

Lemma str_nonneg n :
  0 <= n -> exists d, d <> Decimal.Nil /\ str n = NilEmpty.string_of_uint d
                      /\ Z.of_uint d = n.
Proof.
  intros Hn. unfold str. destruct n as [|p|p]; [| |lia].
  - exists (Decimal.D0 Decimal.Nil). repeat split. discriminate.
  - exists (Pos.to_uint p). split; [apply DecimalPos.Unsigned.to_uint_nonnil|].
    split.
    + simpl. pose proof (DecimalPos.Unsigned.to_uint_nonnil p).
      now destruct (Pos.to_uint p).
    + unfold Z.of_uint. now rewrite DecimalPos.Unsigned.of_to.
Qed.

Lemma str_digits n : 0 <= n -> all_digits (str n) = true /\ str n <> "".
Proof.
  intros Hn. destruct (str_nonneg n Hn) as (d & Hd & -> & _).
  split; [apply all_digits_string_of_uint|]. now destruct d.
Qed.

Lemma digits_value_str n : 0 <= n -> digits_value (str n) = n.
Proof.
  intros Hn. destruct (str_nonneg n Hn) as (d & Hd & -> & <-).
  unfold digits_value. now rewrite NilEmpty.usu.
Qed.

Lemma int_str_nonneg n : 0 <= n -> int (str n) = Ok n.
Proof.
  intros Hn. destruct (str_digits n Hn) as [H1 H2].
  rewrite int_digits by assumption. now rewrite digits_value_str.
Qed.

(** *** The two line patterns *)

Lemma re_match_digits_inv lit s :
  re_match_digits lit s = true ->
  exists r, s = take_digits s +:+ lit +:+ r /\ take_digits s <> "".
Proof.
  destruct s as [|c s]; [discriminate|]. simpl.
  intros [Hc Hs]%andb_prop. rewrite Hc.
  apply startswith_inv in Hs as [r Hr]. exists r. split; [|discriminate].
  rewrite sapp_cons. f_equal. rewrite <- Hr. symmetry. apply take_drop_digits.
Qed.

Lemma before_digits c r s :
  isdigit c = false -> all_digits s = true ->
  before c (s +:+ String c r) = s /\ after c (s +:+ String c r) = r
  /\ contains c (s +:+ String c r) = true.
Proof.
  intros Hc. induction s as [|a s IH]; intros H.
  - rewrite sapp_nil_l. simpl. now rewrite Ascii.eqb_refl.
  - rewrite sapp_cons. simpl in *. apply andb_prop in H as [Ha Hs].
    destruct (Ascii.eqb_spec a c); [congruence|].
    destruct (IH Hs) as (-> & -> & ->). auto.
Qed.

Lemma ints_digits refs :
  Forall (fun r => all_digits r = true /\ r <> "") refs ->
  ints refs = Ok (map digits_value refs).
Proof.
  induction 1 as [|r refs [H1 H2] _ IH]; [reflexivity|].
  simpl. rewrite int_digits by assumption. simpl. now rewrite IH.
Qed.

Lemma findall_File_go_digits k s :
  Forall (fun r => all_digits r = true /\ r <> "") (findall_File_go k s).
Proof.
  revert k. induction s as [|c s IH]; intros k; [constructor|].
  cbn [findall_File_go]. destruct k; [|apply IH].
  destruct (startswith "File " (String c s)); [|apply IH].
  destruct (take_digits (drop_chars 4 s)) eqn:E; [apply IH|].
  constructor; [|apply IH]. rewrite <- E. split; [apply all_digits_take|].
  rewrite E. discriminate.
Qed.

Lemma ints_findall line :
  ints (findall_File line) = Ok (map digits_value (findall_File line)).
Proof. apply ints_digits, findall_File_go_digits. Qed.

(** *** Stripping a line that is put together from parts *)

Lemma rstrip_cons c r : isspace c = false -> rstrip (String c r) = String c (rstrip r).
Proof. intros Hc. simpl. destruct (rstrip r); [now rewrite Hc|reflexivity]. Qed.

Lemma rstrip_no_space a b : no_space a = true -> rstrip (a +:+ b) = a +:+ rstrip b.
Proof.
  induction a as [|c a IH]; [reflexivity|]. cbn [no_space].
  intros [Hc Ha]%andb_prop. apply negb_true_iff in Hc.
  rewrite !sapp_cons, rstrip_cons, IH by assumption. reflexivity.
Qed.

Lemma strip_no_space a b :
  a <> "" -> no_space a = true -> strip (a +:+ b) = a +:+ rstrip b.
Proof.
  intros Hne Ha. unfold strip. destruct a as [|c a]; [congruence|].
  pose proof Ha as [Hc _]%andb_prop. apply negb_true_iff in Hc.
  rewrite sapp_cons, lstrip_fix by assumption. rewrite <- sapp_cons.
  now apply rstrip_no_space.
Qed.

Lemma stripped_lstrip s : stripped s -> lstrip s = s.
Proof.
  unfold stripped, strip. intros H.
  destruct (lstrip_head s) as [E|(c & r & E & Hc)].
  - rewrite E in H. simpl in H. now subst s.
  - rewrite E in H. destruct (rstrip_head c r Hc) as [t Ht]. rewrite Ht in H.
    subst s. now apply lstrip_fix.
Qed.

Lemma stripped_rstrip s : stripped s -> rstrip s = s.
Proof.
  intros H. pose proof (stripped_lstrip s H) as Hl.
  unfold stripped, strip in H. now rewrite Hl in H.
Qed.

Lemma rstrip_space_stripped s :
  stripped s -> s <> "" -> rstrip (String " " s) = String " " s.
Proof.
  intros H Hne. simpl. rewrite (stripped_rstrip s H). now destruct s.
Qed.

Lemma strip_space_stripped s : stripped s -> strip (String " " s) = s.
Proof.
  intros H. unfold strip. simpl lstrip.
  now rewrite (stripped_lstrip s H), (stripped_rstrip s H).
Qed.

(** What is left of [" " + s] at the end of a stripped line: it strips
    back to [s]. *)
Lemma rstrip_space_value s : stripped s -> strip (rstrip (String " " s)) = s.
Proof.
  intros H. destruct s as [|c s]; [reflexivity|].
  rewrite rstrip_space_stripped by (assumption || discriminate).
  now apply strip_space_stripped.
Qed.

Lemma no_space_digits s : all_digits s = true -> no_space s = true.
Proof.
  induction s as [|c s IH]; [reflexivity|]. simpl.
  intros [Hc Hs]%andb_prop. now rewrite (isdigit_not_space c Hc), IH.
Qed.

Lemma no_space_app a b : no_space (a +:+ b) = no_space a && no_space b.
Proof.
  induction a as [|c a IH]; [reflexivity|]. rewrite sapp_cons. simpl.
  now rewrite IH, andb_assoc.
Qed.

Lemma starts_with_digit_app a b :
  starts_with_digit a = true -> starts_with_digit (a +:+ b) = true.
Proof. now destruct a. Qed.

Lemma starts_with_digit_prefix c p s :
  isdigit c = false -> starts_with_digit s = true -> startswith (String c p) s = false.
Proof.
  intros Hc Hs. destruct s as [|a s]; [discriminate|]. simpl in Hs.
  unfold startswith. simpl. destruct (ascii_dec c a); [congruence|reflexivity].
Qed.

Lemma starts_with_digit_ne s t :
  starts_with_digit s = true -> starts_with_digit t = false -> s <> t.
Proof. intros Hs Ht ->. congruence. Qed.

(** *** Splitting a joined text *)

Lemma split_app_gen sep s t :
  split sep (s +:+ String sep t)
  = match split sep t with
    | [] => split sep s
    | _ => split sep s ++ split sep t
    end.
Proof.
  pose proof (split_not_nil sep t) as Ht.
  induction s as [|c s IH].
  - rewrite sapp_nil_l. simpl. rewrite Ascii.eqb_refl. now destruct (split sep t).
  - rewrite sapp_cons. simpl. destruct (Ascii.eqb c sep).
    + rewrite IH. now destruct (split sep t).
    + rewrite IH. destruct (split sep t) as [|h r]; [congruence|].
      pose proof (split_not_nil sep s). now destruct (split sep s).
Qed.

Lemma split_join_concat sep ls :
  ls <> [] -> split sep (join (String sep "") ls) = concat (map (split sep) ls).
Proof.
  induction ls as [|l ls IH]; [congruence|]. intros _.
  destruct ls as [|l' ls]; [simpl; now rewrite List.app_nil_r|].
  change (join (String sep "") (l :: l' :: ls))
    with (l +:+ String sep "" +:+ join (String sep "") (l' :: ls)).
  rewrite sapp_cons, sapp_nil_l, split_app_gen, IH by discriminate.
  cbn [map concat]. pose proof (split_not_nil sep l').
  now destruct (split sep l').
Qed.

(** *** What [stripped] says: no whitespace at either end *)

Lemma lstrip_length s : (String.length (lstrip s) <= String.length s)%nat.
Proof.
  induction s as [|c s IH]; [reflexivity|]. simpl.
  destruct (isspace c); simpl; lia.
Qed.

Lemma rstrip_length s : (String.length (rstrip s) <= String.length s)%nat.
Proof.
  induction s as [|c s IH]; [reflexivity|]. simpl.
  destruct (rstrip s); [destruct (isspace c)|]; simpl in *; lia.
Qed.

Lemma rstrip_trailing_space r c :
  isspace c = true -> rstrip (r +:+ String c "") = rstrip r.
Proof.
  intros Hc. induction r as [|a r IH].
  - rewrite sapp_nil_l. simpl. now rewrite Hc.
  - rewrite sapp_cons. simpl. now rewrite IH.
Qed.

Lemma length_app_char r c : String.length (r +:+ String c "") = S (String.length r).
Proof. induction r as [|a r IH]; [reflexivity|]. rewrite sapp_cons. simpl. now rewrite IH. Qed.

Lemma stripped_first c r : stripped (String c r) -> isspace c = false.
Proof.
  intros H%stripped_lstrip. simpl in H. destruct (isspace c); [|reflexivity].
  pose proof (lstrip_length r) as Hl. rewrite H in Hl. simpl in Hl. lia.
Qed.

Lemma stripped_last r c : stripped (r +:+ String c "") -> isspace c = false.
Proof.
  intros H%stripped_rstrip. destruct (isspace c) eqn:Hc; [|reflexivity].
  rewrite rstrip_trailing_space in H by assumption.
  pose proof (rstrip_length r) as Hl. rewrite H, length_app_char in Hl. lia.
Qed.
End PyFacts.

(** * The scanning loop without the digit limit *)

Import Py PyFacts.

Lemma item_split1 sep s :
  contains sep s = true ->
  item (split1 sep s) 0 = Ok (before sep s) /\ item (split1 sep s) 1 = Ok (after sep s)
  /\ length (split1 sep s) = 2%nat.
Proof. intros H. rewrite split1_spec, H. repeat split. Qed.

Lemma startswith_contains p c s :
  contains c p = true -> startswith p s = true -> contains c s = true.
Proof.
  intros Hp [r ->]%startswith_inv. rewrite contains_app, Hp. reflexivity.
Qed.

Lemma re_match_digits_split lit c r s :
  isdigit c = false -> lit = String c r -> re_match_digits lit s = true ->
  contains c s = true /\ before c s = take_digits s /\ take_digits s <> ""
  /\ all_digits (take_digits s) = true.
Proof.
  intros Hc -> H. apply re_match_digits_inv in H as (t & Hs & Hne).
  pose proof (all_digits_take s) as Hd.
  rewrite sapp_cons in Hs.
  destruct (before_digits c (r +:+ t) (take_digits s) Hc Hd) as (Hb & _ & Hin).
  rewrite <- Hs in Hb, Hin. auto.
Qed.

Lemma accumulate_ok line p sc :
  current_function sc = Some p -> accumulate line sc = Ok (accumulate_step line p sc).
Proof.
  intros Hp. unfold accumulate, accumulate_step. rewrite Hp.
  destruct (negb (truthy (p_description p)) && negb (startswith "Implementation:" line));
    [reflexivity|].
  destruct (startswith "Implementation:" line); [reflexivity|].
  destruct (startswith "File " line); [|reflexivity].
  rewrite ints_findall. reflexivity.
Qed.

Lemma parse_line_step raw sc : parse_line raw sc = Ok (step sc raw).
Proof.
  unfold parse_line, step, step_line, field_value. set (line := strip raw).
  destruct (startswith "Project:" line) eqn:E1.
  { destruct (item_split1 ":" line) as (_ & -> & _); [|reflexivity].
    now apply (startswith_contains "Project:"). }
  destruct (startswith "Description:" line) eqn:E2.
  { destruct (item_split1 ":" line) as (_ & -> & _); [|reflexivity].
    now apply (startswith_contains "Description:"). }
  destruct (startswith "technology:" line) eqn:E3.
  { destruct (item_split1 ":" line) as (_ & -> & _); [|reflexivity].
    now apply (startswith_contains "technology:"). }
  destruct (bool_decide (line = "PROJECT FILES INDEX:")); [reflexivity|].
  destruct (in_section files_sec sc && truthy line
            && negb (startswith "All functions:" line)).
  { destruct (re_match_digits "." line) eqn:E5; [|reflexivity].
    destruct (re_match_digits_split "." "." "" line eq_refl eq_refl E5)
      as (Hin & Hb & Hne & Hd).
    destruct (item_split1 "." line Hin) as (-> & -> & ->).
    rewrite bool_decide_true by reflexivity. unfold add_parsed_file. simpl.
    rewrite Hb, int_digits by assumption. reflexivity. }
  destruct (bool_decide (line = "All functions:")); [reflexivity|].
  destruct (in_section functions_sec sc && is_header line) eqn:E7.
  { apply andb_prop in E7 as [_ E7].
    destruct (re_match_digits_split "F." "F" "." line eq_refl eq_refl E7) as (_ & _ & _ & Hd).
    apply re_match_digits_inv in E7 as (t & Hs & _).
    assert (contains "." line = true) as Hin.
    { rewrite Hs, !contains_app. simpl. now rewrite orb_true_r. }
    destruct (item_split1 "." line Hin) as (-> & -> & _). reflexivity. }
  destruct (current_function sc) as [p|] eqn:Ep.
  - rewrite bool_decide_true by eauto. simpl andb.
    destruct (truthy line && negb (is_header line)).
    + now apply accumulate_ok.
    + unfold config_step.
      destruct (startswith config_trigger line); [reflexivity|].
      destruct (in_section config_sec sc); reflexivity.
  - rewrite bool_decide_false by (intros [? [=]]). simpl andb.
    unfold config_step.
    destruct (startswith config_trigger line); [reflexivity|].
    destruct (in_section config_sec sc); reflexivity.
Qed.

Lemma parse_lines_fold lines sc : parse_lines lines sc = Ok (fold_left step lines sc).
Proof.
  revert sc. induction lines as [|raw lines IH]; intros sc; [reflexivity|].
  simpl. rewrite parse_line_step. simpl. apply IH.
Qed.

Lemma _parse_content_finish content st :
  _parse_content content st
  = Ok (finish (fold_left step (split newline content) (start st))).
Proof. unfold _parse_content. fold (start st). now rewrite parse_lines_fold. Qed.

Lemma parse_returns content : parse content = Ok (parsed content).
Proof. apply _parse_content_finish. Qed.

(** * Facts about [dict] *)

Section DictFacts.
Context {K V : Type} `{EqDecision K}.
Implicit Types (d : dict K V) (k : K) (v : V).

Lemma dict_get_set_eq k v d : dict_get (dict_set k v d) k = Some v.
Proof.
  induction d as [|[k' v'] d IH]; simpl.
  - now rewrite decide_True.
  - destruct (decide (k = k')) as [->|Hne]; simpl.
    + now rewrite decide_True.
    + now rewrite decide_False.
Qed.

Lemma dict_get_set_ne k k' v d : k <> k' -> dict_get (dict_set k v d) k' = dict_get d k'.
Proof.
  intros Hne. induction d as [|[k0 v0] d IH]; simpl.
  - rewrite decide_False; [reflexivity|congruence].
  - destruct (decide (k = k0)) as [->|]; simpl; [|now rewrite IH].
    destruct (decide (k' = k0)); [congruence|reflexivity].
Qed.

Lemma dict_get_set k k' v d :
  dict_get (dict_set k v d) k' = if decide (k = k') then Some v else dict_get d k'.
Proof.
  destruct (decide (k = k')) as [->|]; [apply dict_get_set_eq|now apply dict_get_set_ne].
Qed.

Lemma dict_get_None k d : dict_get d k = None <-> k ∉ dict_keys d.
Proof.
  induction d as [|[k' v'] d IH]; simpl.
  - split; [intros _; apply not_elem_of_nil|reflexivity].
  - rewrite not_elem_of_cons. destruct (decide (k = k')); [|tauto].
    split; [discriminate|tauto].
Qed.

Lemma dict_get_Some_values k v d : dict_get d k = Some v -> v ∈ dict_values d.
Proof.
  induction d as [|[k' v'] d IH]; simpl; [discriminate|].
  destruct (decide (k = k')); [intros [= ->]; left|right; auto].
Qed.

Lemma dict_get_Some_keys k v d : dict_get d k = Some v -> k ∈ dict_keys d.
Proof.
  intros Hg. destruct (decide (k ∈ dict_keys d)) as [|Hn]; [assumption|].
  apply dict_get_None in Hn. congruence.
Qed.

Lemma dict_get_Some_elem k v d : dict_get d k = Some v -> (k, v) ∈ d.
Proof.
  induction d as [|[k' v'] d IH]; simpl; [discriminate|].
  destruct (decide (k = k')) as [->|]; [intros [= ->]; left|right; auto].
Qed.

Lemma dict_elem_get k v d : dict_wf d -> (k, v) ∈ d -> dict_get d k = Some v.
Proof.
  unfold dict_wf. induction d as [|[k' v'] d IH]; simpl; [intros _ []%elem_of_nil|].
  intros [Hk Hd]%NoDup_cons [[= -> ->]|Hin]%elem_of_cons.
  - now rewrite decide_True.
  - rewrite decide_False; [auto|]. intros ->. apply Hk.
    apply list_elem_of_fmap. now exists (k', v).
Qed.

Lemma dict_keys_set k v d :
  dict_keys (dict_set k v d) = if dict_mem d k then dict_keys d else dict_keys d ++ [k].
Proof.
  unfold dict_mem. induction d as [|[k' v'] d IH]; simpl; [reflexivity|].
  destruct (decide (k = k')); simpl; [reflexivity|].
  rewrite IH. now destruct (dict_get d k).
Qed.

Lemma dict_wf_set k v d : dict_wf d -> dict_wf (dict_set k v d).
Proof.
  unfold dict_wf. intros Hd. rewrite dict_keys_set.
  unfold dict_mem. destruct (dict_get d k) eqn:E; [assumption|].
  apply NoDup_app. split; [assumption|]. split; [|apply NoDup_singleton].
  intros x Hx ->%list_elem_of_singleton. now apply dict_get_None in E.
Qed.




Lemma dict_get_del_eq k d : dict_wf d -> dict_get (dict_del k d) k = None.
Proof.
  unfold dict_wf. induction d as [|[k0 v0] d IH]; simpl; [trivial|].
  intros [Hk Hd]%NoDup_cons. destruct (decide (k = k0)) as [->|Hne]; simpl.
  - now apply dict_get_None.
  - rewrite decide_False by assumption. auto.
Qed.

Lemma dict_get_del_ne k k' d : k <> k' -> dict_get (dict_del k d) k' = dict_get d k'.
Proof.
  intros Hne. induction d as [|[k0 v0] d IH]; simpl; [trivial|].
  destruct (decide (k = k0)) as [->|]; simpl.
  - rewrite decide_False; [reflexivity|congruence].
  - now rewrite IH.
Qed.
End DictFacts.

(** * Malformed input *)



(** * Project metadata *)

Lemma startswith_exclusive p q s :
  (forall r, startswith q (p +:+ r) = false) ->
  startswith p s = true -> startswith q s = false.
Proof. intros Hq [r ->]%startswith_inv. apply Hq. Qed.

Lemma step_line_project_name line sc :
  project_name (sc_self (step_line line sc))
  = if startswith "Project:" line then field_value line else project_name (sc_self sc).
Proof.
  unfold step_line, new_function, save_current, accumulate_step, add_parsed_file,
    config_step.
  repeat match goal with
         | |- context [if ?b then _ else _] => destruct b; try reflexivity
         | |- context [match ?x with Some _ => _ | None => _ end] =>
             destruct x; try reflexivity
         end.
Qed.

Lemma step_line_project_description line sc :
  project_description (sc_self (step_line line sc))
  = if startswith "Description:" line then field_value line
    else project_description (sc_self sc).
Proof.
  destruct (startswith "Description:" line) eqn:E.
  - unfold step_line.
    rewrite (startswith_exclusive "Description:" "Project:" line (fun _ => eq_refl) E), E.
    reflexivity.
  - unfold step_line, new_function, save_current, accumulate_step, add_parsed_file,
      config_step. rewrite E.
    repeat match goal with
           | |- context [if ?b then _ else _] => destruct b; try reflexivity
           | |- context [match ?x with Some _ => _ | None => _ end] =>
               destruct x; try reflexivity
           end.
Qed.

Lemma step_line_technology line sc :
  technology (sc_self (step_line line sc))
  = if startswith "technology:" line then field_value line else technology (sc_self sc).
Proof.
  destruct (startswith "technology:" line) eqn:E.
  - unfold step_line.
    rewrite (startswith_exclusive "technology:" "Project:" line (fun _ => eq_refl) E),
      (startswith_exclusive "technology:" "Description:" line (fun _ => eq_refl) E), E.
    reflexivity.
  - unfold step_line, new_function, save_current, accumulate_step, add_parsed_file,
      config_step. rewrite E.
    repeat match goal with
           | |- context [if ?b then _ else _] => destruct b; try reflexivity
           | |- context [match ?x with Some _ => _ | None => _ end] =>
               destruct x; try reflexivity
           end.
Qed.

Lemma last_cons {A} (x : A) l d : List.last (x :: l) d = List.last l x.
Proof.
  revert x d. induction l as [|y l IH]; intros x d; [reflexivity|].
  change (List.last (x :: y :: l) d) with (List.last (y :: l) d).
  now rewrite (IH y d), (IH y x).
Qed.

Section LastWins.
Variable prefix : string.
Variable field : TaskFlowTextManager -> string.
Hypothesis step_field : forall line sc,
  field (sc_self (step_line line sc))
  = if startswith prefix line then field_value line else field (sc_self sc).

Lemma fold_field raws sc :
  field (sc_self (fold_left step raws sc))
  = List.last (map field_value (List.filter (startswith prefix) (map strip raws)))
      (field (sc_self sc)).
Proof.
  revert sc. induction raws as [|raw raws IH]; intros sc; [reflexivity|].
  cbn [fold_left map List.filter]. rewrite IH.
  change (step sc raw) with (step_line (strip raw) sc). rewrite step_field.
  destruct (startswith prefix (strip raw)); [|reflexivity].
  cbn [map]. now rewrite last_cons.
Qed.
End LastWins.

Lemma finish_fields sc :
  project_name (self (finish sc)) = project_name (sc_self sc)
  /\ project_description (self (finish sc)) = project_description (sc_self sc)
  /\ technology (self (finish sc)) = technology (sc_self sc)
  /\ config_section (self (finish sc)) = config_section (sc_self sc)
  /\ files (self (finish sc)) = files (sc_self sc).
Proof. unfold finish, save_current. destruct (current_function sc); repeat split. Qed.



(** * No surrounding whitespace survives parsing *)







(** * The configuration section *)









(** The trigger after a function has been started: the line is taken for
    the function, and the configuration text stays empty. *)
Lemma config_trigger_inside_function :
  let content :=
    text ["All functions:"; "1F. LOGIN"; "Checks the password";
          "key projct configuration:"; "mode=fast"] in
  exists st, parse content = Ok st
  /\ config_section (self st) = ""
  /\ Function.implementation <$> dict_get (functions (self st)) "1F"
     = Some (text ["key projct configuration:"; "mode=fast"]).
Proof. eexists. split; [reflexivity|]. split; reflexivity. Qed.

(** * [edit_function] *)





(** * [add_function] *)

Lemma int_str n : int (str n) = Ok n.
Proof.
  destruct (Z_le_gt_dec 0 n) as [Hn|Hn]; [now apply int_str_nonneg|].
  destruct n as [|p|p]; try lia. unfold str. cbn [Z.to_int NilZero.string_of_int].
  pose proof (DecimalPos.Unsigned.to_uint_nonnil p) as Hnil.
  assert (NilZero.string_of_uint (Pos.to_uint p) = NilEmpty.string_of_uint (Pos.to_uint p))
    as -> by now destruct (Pos.to_uint p).
  set (ds := NilEmpty.string_of_uint (Pos.to_uint p)).
  assert (all_digits ds = true) as Hd by apply all_digits_string_of_uint.
  assert (ds <> "") as Hne by (subst ds; now destruct (Pos.to_uint p)).
  unfold int.
  assert (int_rstrip (int_lstrip (String "-" ds)) = String "-" ds) as ->.
  { cbn [int_lstrip]. change (int_space "-") with false. cbv iota.
    cbn [int_rstrip]. rewrite (all_digits_int_rstrip ds Hd). now destruct ds. }
  unfold int_unsigned.
  rewrite (all_digits_underscores ds false Hd), (all_digits_remove "_" ds eq_refl Hd).
  destruct ds eqn:E; [congruence|]. cbn [truthy orb]. rewrite <- E. subst ds.
  rewrite NilEmpty.usu. cbn. unfold Z.of_uint.
  now rewrite DecimalPos.Unsigned.of_to.
Qed.

Lemma remove_char_app c s t : remove_char c (s +:+ t) = remove_char c s +:+ remove_char c t.
Proof.
  induction s as [|a s IH]; [reflexivity|]. rewrite sapp_cons. simpl.
  destruct (Ascii.eqb a c); [assumption|]. rewrite sapp_cons. now f_equal.
Qed.

Lemma str_no_F n : remove_char "F" (str n) = str n.
Proof.
  unfold str. destruct n as [|p|p]; [reflexivity| |]; cbn [Z.to_int NilZero.string_of_int].
  - assert (NilZero.string_of_uint (Pos.to_uint p)
            = NilEmpty.string_of_uint (Pos.to_uint p)) as ->.
    { pose proof (DecimalPos.Unsigned.to_uint_nonnil p). now destruct (Pos.to_uint p). }
    apply all_digits_remove; [reflexivity|apply all_digits_string_of_uint].
  - assert (NilZero.string_of_uint (Pos.to_uint p)
            = NilEmpty.string_of_uint (Pos.to_uint p)) as ->.
    { pose proof (DecimalPos.Unsigned.to_uint_nonnil p). now destruct (Pos.to_uint p). }
    simpl. f_equal.
    apply all_digits_remove; [reflexivity|apply all_digits_string_of_uint].
Qed.

Lemma numeric_id_str n : numeric_id (str n +:+ "F") = Ok n.
Proof.
  unfold numeric_id. rewrite remove_char_app, str_no_F.
  change (remove_char "F" "F") with "". rewrite sapp_nil_r. apply int_str.
Qed.

Lemma is_function_id_inv k :
  is_function_id k = true ->
  k = take_digits k +:+ "F" /\ take_digits k <> "" /\ all_digits (take_digits k) = true.
Proof.
  unfold is_function_id. intros [Ht Hd%bool_decide_eq_true]%andb_prop.
  split; [|split].
  - rewrite <- Hd. symmetry. apply take_drop_digits.
  - now destruct (take_digits k).
  - apply all_digits_take.
Qed.

Lemma numeric_id_wf k : is_function_id k = true -> numeric_id k = Ok (id_number k).
Proof.
  intros (Hk & Hne & Hd)%is_function_id_inv. unfold numeric_id, id_number.
  rewrite Hk at 1. rewrite remove_char_app, (all_digits_remove "F" _ eq_refl Hd).
  change (remove_char "F" "F") with "". rewrite sapp_nil_r. now apply int_digits.
Qed.

Lemma numeric_ids_wf ks :
  Forall (fun k => is_function_id k = true) ks -> numeric_ids ks = Ok (map id_number ks).
Proof.
  induction 1 as [|k ks Hk _ IH]; [reflexivity|].
  simpl. rewrite (numeric_id_wf k Hk). simpl. now rewrite IH.
Qed.




Lemma fold_max_nonneg ns x :
  0 <= x -> Forall (fun n => 0 <= n) ns ->
  fold_left Z.max ns x = Z.max x (max_or_zero ns).
Proof.
  intros Hx Hns. revert x Hx. unfold max_or_zero.
  induction Hns as [|m ns Hm _ IH]; intros x Hx; simpl; [lia|].
  rewrite IH by lia. lia.
Qed.

Lemma max_list_nonneg ns :
  ns <> [] -> Forall (fun n => 0 <= n) ns -> max_list ns = max_or_zero ns.
Proof.
  destruct ns as [|x ns]; [congruence|]. intros _ [Hx Hns]%Forall_cons.
  simpl. now apply fold_max_nonneg.
Qed.

Lemma deref_alloc h v : deref (h ++ [v]) (length h) = v.
Proof. unfold deref. rewrite lookup_app_r by lia. now rewrite Nat.sub_diag. Qed.

Lemma deref_alloc_old h v l : (l < length h)%nat -> deref (h ++ [v]) l = deref h l.
Proof. intros Hl. unfold deref. now rewrite lookup_app_l. Qed.

Lemma deref_insert_eq h l v : (l < length h)%nat -> deref (<[l := v]> h) l = v.
Proof. intros Hl. unfold deref. now rewrite list_lookup_insert_eq. Qed.

Lemma deref_insert_ne h l l' v : l <> l' -> deref (<[l := v]> h) l' = deref h l'.
Proof. intros Hl. unfold deref. now rewrite list_lookup_insert_ne. Qed.


Lemma max_or_zero_ge ns n : n ∈ ns -> n <= max_or_zero ns.
Proof.
  unfold max_or_zero. induction ns as [|m ns IH]; [intros []%elem_of_nil|].
  simpl. intros [->|Hin]%elem_of_cons; [lia|]. specialize (IH Hin). lia.
Qed.

Lemma id_number_nonneg ks : Forall (fun n => 0 <= n) (map id_number ks).
Proof. apply Forall_forall. intros n (k & -> & _)%list_elem_of_fmap. apply digits_value_nonneg. Qed.

Example add_function_empty :
  add_function "A" "d" "i" None (mkState [] init)
  = Ok ({| objects := [[]];
           self := set_functions [("1F", Function.mk "1F" "A" "d" "i" 0%nat)] init |},
        "1F").
Proof. reflexivity. Qed.

(** * [delete_file] *)










(** * [reorder_files] *)

Section SortedFacts.
Context {A : Type}.
Implicit Types (x : Z * A) (l : list (Z * A)).

Lemma insert_by_key_perm x l : Permutation (insert_by_key x l) (x :: l).
Proof.
  induction l as [|y l IH]; [reflexivity|]. simpl.
  destruct (fst x <=? fst y); [reflexivity|].
  rewrite IH. apply perm_swap.
Qed.

Lemma sorted_by_key_perm l : Permutation (sorted_by_key l) l.
Proof.
  induction l as [|x l IH]; [reflexivity|]. simpl.
  rewrite insert_by_key_perm. now constructor.
Qed.

Lemma insert_by_key_sorted x l :
  StronglySorted key_lt l -> fst x ∉ map fst l ->
  StronglySorted key_lt (insert_by_key x l).
Proof.
  induction 1 as [|y l Hl IH Hy]; intros Hx; [repeat constructor|]. simpl.
  cbn [map] in Hx. apply not_elem_of_cons in Hx as [Hxy Hx].
  destruct (Z.leb_spec (fst x) (fst y)) as [Hle|Hgt].
  - constructor; [now constructor|]. constructor; [unfold key_lt; lia|].
    eapply Forall_impl; [exact Hy|]. unfold key_lt. intros; lia.
  - constructor; [auto|]. rewrite insert_by_key_perm.
    constructor; [unfold key_lt; lia|assumption].
Qed.

Lemma sorted_by_key_sorted l :
  NoDup (map fst l) -> StronglySorted key_lt (sorted_by_key l).
Proof.
  induction l as [|x l IH]; [constructor|]. cbn [map]. intros [Hx Hl]%NoDup_cons.
  simpl. apply insert_by_key_sorted; [auto|].
  now rewrite (sorted_by_key_perm l).
Qed.
End SortedFacts.

Lemma filter_length_perm {A} (p : A -> bool) l l' :
  Permutation l l' -> length (List.filter p l) = length (List.filter p l').
Proof.
  induction 1 as [|x l l' _ IH|x y l|l l' l'' _ IH1 _ IH2]; simpl.
  - reflexivity.
  - destruct (p x); simpl; now rewrite IH.
  - destruct (p x), (p y); reflexivity.
  - now rewrite IH1.
Qed.

Lemma dict_set_absent {K V} `{EqDecision K} (k : K) (v : V) (d : dict K V) :
  k ∉ dict_keys d -> dict_set k v d = d ++ [(k, v)].
Proof.
  induction d as [|[k' v'] d IH]; [reflexivity|]. simpl.
  intros [Hk Hd]%not_elem_of_cons. rewrite decide_False by assumption.
  now rewrite IH.
Qed.

Lemma mapping_keys n items : dict_keys (mapping n items) = map fst items.
Proof.
  revert n. induction items as [|[k f] items IH]; intros n; [reflexivity|].
  simpl. now rewrite IH.
Qed.

Lemma numbered_keys m items :
  dict_keys (numbered (Z.of_nat m) items) = map Z.of_nat (seq m (length items)).
Proof.
  revert m. induction items as [|[k f] items IH]; intros m; [reflexivity|].
  simpl. f_equal. rewrite <- IH. do 2 f_equal. lia.
Qed.


Lemma renumber_spec n items new_files index_mapping :
  StronglySorted key_lt items ->
  (forall j, j ∈ dict_keys new_files -> j < n) ->
  (forall k, k ∈ dict_keys index_mapping -> k ∉ map fst items) ->
  renumber n items new_files index_mapping
  = (new_files ++ numbered n items, index_mapping ++ mapping n items).
Proof.
  intros Hs. revert n new_files index_mapping.
  induction Hs as [|[k f] items Hs IH Hk]; intros n nf im Hnf Him.
  - simpl. now rewrite !app_nil_r.
  - cbn [renumber numbered mapping].
    rewrite (dict_set_absent n), (dict_set_absent k).
    + rewrite IH.
      * now rewrite <- !app_assoc.
      * intros j. unfold dict_keys. rewrite map_app.
        intros [Hj%Hnf|Hj%list_elem_of_singleton]%elem_of_app; simpl in *; lia.
      * intros k'. unfold dict_keys. rewrite map_app.
        intros [Hk'%Him|Hk'%list_elem_of_singleton]%elem_of_app.
        -- cbn [map] in Hk'. now apply not_elem_of_cons in Hk' as [_ ?].
        -- simpl in Hk'. subst k'. intros (x & Hx & Hin)%list_elem_of_fmap.
           rewrite Forall_forall in Hk. specialize (Hk x Hin).
           unfold key_lt in Hk. simpl in Hk. lia.
    + intros Hin. specialize (Him _ Hin). apply Him. now left.
    + intros Hin%Hnf. lia.
Qed.

Lemma sorted_lookup n items k f :
  StronglySorted key_lt items -> (k, f) ∈ items ->
  let c := Z.of_nat (length (List.filter (fun j => j <? k) (map fst items))) in
  dict_get (mapping n items) k = Some (n + c)
  /\ dict_get (numbered n items) (n + c) = Some (set_index (n + c) f).
Proof.
  intros Hs. revert n. induction Hs as [|[k0 f0] items Hs IH Hk]; intros n Hin.
  - now apply elem_of_nil in Hin.
  - cbn [map List.filter mapping numbered dict_get fst].
    assert (Forall (fun j => k0 < j) (map fst items)) as Hk'.
    { apply Forall_forall. intros j (x & -> & Hx)%list_elem_of_fmap.
      rewrite Forall_forall in Hk. exact (Hk x Hx). }
    apply elem_of_cons in Hin as [[= -> ->]|Hin].
    + rewrite Z.ltb_irrefl.
      assert (List.filter (fun j => j <? k0) (map fst items) = []) as ->.
      { clear -Hk'. induction Hk' as [|j js Hj _ IHj]; [reflexivity|]. simpl.
        destruct (Z.ltb_spec j k0); [lia|assumption]. }
      simpl. rewrite Z.add_0_r, !decide_True by reflexivity. auto.
    + assert (k0 < k) as Hlt.
      { rewrite Forall_forall in Hk. exact (Hk _ Hin). }
      destruct (Z.ltb_spec k0 k); [|lia]. cbn [length].
      destruct (IH (n + 1) Hin) as [IH1 IH2].
      rewrite Nat2Z.inj_succ.
      replace (n + Z.succ (Z.of_nat (length (List.filter (fun j => j <? k) (map fst items)))))
        with (n + 1 + Z.of_nat (length (List.filter (fun j => j <? k) (map fst items))))
        by lia.
      rewrite !decide_False by lia. auto.
Qed.

Lemma rewrite_references_spec index_mapping funcs h funcs' h' :
  rewrite_references index_mapping funcs h = (funcs', h') ->
  Forall (fun func => (Function.files_involved func < length h)%nat) (dict_values funcs) ->
  dict_keys funcs' = dict_keys funcs
  /\ (forall l, (l < length h)%nat -> deref h' l = deref h l)
  /\ (forall k func, dict_get funcs k = Some func ->
        exists func',
          dict_get funcs' k = Some func'
          /\ Function.id func' = Function.id func
          /\ Function.name func' = Function.name func
          /\ Function.description func' = Function.description func
          /\ Function.implementation func' = Function.implementation func
          /\ deref h' (Function.files_involved func')
             = map (translate index_mapping) (deref h (Function.files_involved func))).
Proof.
  revert h funcs' h'. induction funcs as [|[k func] funcs IH]; intros h funcs' h' Hrun Hwf.
  - injection Hrun as <- <-. repeat split. intros ? ? [=].
  - cbn [rewrite_references alloc] in Hrun.
    destruct (rewrite_references index_mapping funcs
                (h ++ [map (translate index_mapping)
                         (deref h (Function.files_involved func))]))
      as [r' h2] eqn:Hr.
    injection Hrun as <- <-.
    cbn [dict_values map] in Hwf. apply Forall_cons in Hwf as [Hfunc Hwf].
    destruct (IH _ _ _ Hr) as (Hkeys & Hold & Hget).
    { eapply Forall_impl; [exact Hwf|]. intros f Hf. rewrite length_app. simpl in *. lia. }
    assert (forall l, (l < length h)%nat -> deref h2 l = deref h l) as Hold'.
    { intros l Hl. rewrite Hold by (rewrite length_app; simpl; lia).
      now apply deref_alloc_old. }
    split; [simpl; now f_equal|]. split; [exact Hold'|].
    intros k' func0. cbn [dict_get].
    destruct (decide (k' = k)) as [->|Hne].
    + intros [= <-]. eexists. split; [reflexivity|]. cbn.
      repeat split. rewrite Hold by (rewrite length_app; simpl; lia).
      apply deref_alloc.
    + intros Hg. destruct (Hget _ _ Hg) as (func' & H1 & H2 & H3 & H4 & H5 & H6).
      exists func'. repeat split; try assumption.
      rewrite H6. f_equal. apply deref_alloc_old.
      rewrite Forall_forall in Hwf. apply Hwf. eapply dict_get_Some_values, Hg.
Qed.

Lemma filter_lt_mono keys k k' :
  k <= k' ->
  (length (List.filter (fun j => (j <? k)%Z) keys)
   <= length (List.filter (fun j => (j <? k')%Z) keys))%nat.
Proof.
  intros Hk. induction keys as [|j keys IH]; [reflexivity|]. simpl.
  destruct (Z.ltb_spec j k), (Z.ltb_spec j k'); simpl; lia.
Qed.

Lemma rank_increasing keys k k' : k ∈ keys -> k < k' -> rank keys k < rank keys k'.
Proof.
  intros Hin Hlt. unfold rank.
  assert (length (List.filter (fun j => (j <? k)%Z) keys)
          < length (List.filter (fun j => (j <? k')%Z) keys))%nat; [|lia].
  induction keys as [|j keys IH]; [now apply elem_of_nil in Hin|]. simpl.
  apply elem_of_cons in Hin as [->|Hin].
  - pose proof (filter_lt_mono keys j k' ltac:(lia)).
    destruct (Z.ltb_spec j j), (Z.ltb_spec j k'); simpl; lia.
  - specialize (IH Hin).
    destruct (Z.ltb_spec j k), (Z.ltb_spec j k'); simpl; lia.
Qed.

Lemma dict_keys_perm {V} (d d' : dict Z V) :
  Permutation d d' -> Permutation (dict_keys d) (dict_keys d').
Proof. apply Permutation_map. Qed.

Lemma translate_renumbered (fs : dict Z ProjectFile.t) idx :
  dict_wf fs ->
  translate (mapping 1 (sorted_by_key fs)) idx = renumbered (dict_keys fs) idx.
Proof.
  intros Hwf. unfold translate, renumbered.
  pose proof (sorted_by_key_perm fs) as Hperm.
  pose proof (sorted_by_key_sorted fs Hwf) as Hsorted.
  destruct (decide (idx ∈ dict_keys fs)) as [Hin|Hnotin].
  - rewrite bool_decide_true by assumption.
    apply list_elem_of_fmap in Hin as ([k f] & -> & Hin).
    rewrite <- Hperm in Hin. cbn [fst].
    destruct (sorted_lookup 1 _ _ _ Hsorted Hin) as [-> _].
    unfold rank. cbn [default id]. do 2 f_equal.
    apply filter_length_perm, (dict_keys_perm _ _ Hperm).
  - rewrite bool_decide_false by assumption.
    assert (dict_get (mapping 1 (sorted_by_key fs)) idx = None) as ->; [|reflexivity].
    apply dict_get_None. rewrite mapping_keys.
    change (map fst (sorted_by_key fs)) with (dict_keys (sorted_by_key fs)).
    now rewrite (dict_keys_perm _ _ Hperm).
Qed.

(** C5.  [reorder_files] leaves a file collection whose keys are exactly
    1, ..., N; the file that had index [k] is now at [rank k], its place in
    the ascending order of the old indices, with its [index] field set to
    it; and every function keeps its id, name, description and
    implementation, while each entry of its [files_involved] that was a file
    index is replaced by the rank of that index and every other entry is
    left as it was. *)
Theorem reorder_files_dense st :
  wf_state st ->
  let keys := dict_keys (files (self st)) in
  let st' := reorder_files st in
  dict_keys (files (self st')) = map Z.of_nat (seq 1 (length keys))
  /\ (forall k f, dict_get (files (self st)) k = Some f ->
        dict_get (files (self st')) (rank keys k) = Some (set_index (rank keys k) f))
  /\ (forall k k', k ∈ keys -> k < k' -> rank keys k < rank keys k')
  /\ dict_keys (functions (self st')) = dict_keys (functions (self st))
  /\ (forall k func, dict_get (functions (self st)) k = Some func ->
        exists func',
          dict_get (functions (self st')) k = Some func'
          /\ Function.id func' = Function.id func
          /\ Function.name func' = Function.name func
          /\ Function.description func' = Function.description func
          /\ Function.implementation func' = Function.implementation func
          /\ deref (objects st') (Function.files_involved func')
             = map (renumbered keys) (deref (objects st) (Function.files_involved func))).
Proof.
  intros (Hf & Hfn & Hlocs) keys st'. subst st'. unfold reorder_files.
  pose proof (sorted_by_key_perm (files (self st))) as Hperm.
  pose proof (sorted_by_key_sorted _ Hf) as Hsorted.
  rewrite (renumber_spec 1 _ [] [] Hsorted)
    by (intros ? []%elem_of_nil). cbn [app].
  destruct (rewrite_references _ (functions (self st)) (objects st)) as [funcs h] eqn:Hr.
  cbn [self objects files functions set_files set_functions].
  destruct (rewrite_references_spec _ _ _ _ _ Hr Hlocs) as (Hkeys & _ & Hget).
  split; [|split; [|split; [|split]]].
  - rewrite (numbered_keys 1). do 2 f_equal.
    subst keys. unfold dict_keys. rewrite !length_map.
    now apply Permutation_length.
  - intros k f Hg. apply dict_get_Some_elem in Hg. rewrite <- Hperm in Hg.
    destruct (sorted_lookup 1 _ _ _ Hsorted Hg) as [_ Hn].
    cbv zeta in Hn. unfold rank.
    rewrite (filter_length_perm _ _ _ (dict_keys_perm _ _ Hperm)) in Hn. exact Hn.
  - intros k k'. apply rank_increasing.
  - exact Hkeys.
  - intros k func Hg. destruct (Hget _ _ Hg) as (func' & H1 & H2 & H3 & H4 & H5 & H6).
    exists func'. repeat split; try assumption. rewrite H6.
    apply map_ext. intros idx. now apply translate_renumbered.
Qed.

Lemma reorder_files_dense_witness :
  let st := {| objects := [[7; 3; 99; 7]];
               self := {| project_name := ""; project_description := ""; technology := "";
                          files := [(7, ProjectFile.mk 7 "b.js" "");
                                    (3, ProjectFile.mk 3 "a.js" "")];
                          functions := [("1F", Function.mk "1F" "N" "d" "i" 0%nat)];
                          config_section := "" |} |} in
  dict_keys (files (self (reorder_files st))) = [1; 2]
  /\ dict_get (files (self (reorder_files st))) 1 = Some (ProjectFile.mk 1 "a.js" "")
  /\ dict_get (files (self (reorder_files st))) 2 = Some (ProjectFile.mk 2 "b.js" "")
  /\ (Function.files_involved <$> dict_get (functions (self (reorder_files st))) "1F")
     ≫= (fun l => Some (deref (objects (reorder_files st)) l))
     = Some [2; 1; 99; 2].
Proof.
  intros st.
  destruct (reorder_files_dense st) as (H1 & H2 & _ & _ & H5).
  { split; [|split].
    - apply NoDup_cons. split; [|apply NoDup_singleton].
      intros Hin%list_elem_of_singleton. discriminate.
    - apply NoDup_singleton.
    - repeat constructor. }
  split; [exact H1|]. split; [exact (H2 3 _ eq_refl)|]. split; [exact (H2 7 _ eq_refl)|].
  reflexivity.
Defined.

(** * [validate_project] *)













(** * The round trip *)

(** C1 at a failing input.  The document [config_first] has one function,
    with a one-line description and one implementation line that is no
    header of any kind.  Parsing it gives that function and the
    configuration text; the serializer writes the configuration text after
    the function; parsing the result takes the configuration lines for
    implementation lines of the function, so the function collection is not
    the one parsed first. *)
Theorem round_trip_config_first :
  exists st st',
    parse config_first = Ok st
    /\ reparse config_first = Ok st'
    /\ config_section (self st) = blob ["key projct configuration:"; "mode=fast"]
    /\ function_view st "1F"
       = Some ("1F", "LOGIN", "Checks the password", "File 1 reads the input", [1])
    /\ function_view st' "1F"
       = Some ("1F", "LOGIN", "Checks the password",
               text ["File 1 reads the input"; "key projct configuration:"; "mode=fast"],
               [1])
    /\ ~ same_model st st'.
Proof.
  eexists _, _. split; [reflexivity|]. split; [vm_compute; reflexivity|].
  split; [reflexivity|]. split; [reflexivity|]. split; [reflexivity|].
  intros [_ H]. specialize (H "1F"). discriminate H.
Qed.

(** ** The shape of a parsed model *)

Lemma contains_after c sep s : contains c (after sep s) = true -> contains c s = true.
Proof.
  induction s as [|a s IH]; [trivial|]. simpl.
  destruct (Ascii.eqb a sep); intros H; [now rewrite H, orb_true_r|].
  now rewrite (IH H), orb_true_r.
Qed.

Lemma contains_before c sep s : contains c (before sep s) = true -> contains c s = true.
Proof.
  induction s as [|a s IH]; [trivial|]. simpl.
  destruct (Ascii.eqb a sep); [discriminate|]. simpl.
  destruct (Ascii.eqb a c); [trivial|]. exact IH.
Qed.

Lemma name_ok_strip_after sep line :
  contains newline line = false -> name_ok (strip (after sep line)).
Proof.
  intros Hn. split; [apply strip_stripped|]. apply contains_strip.
  destruct (contains newline (after sep line)) eqn:E; [|reflexivity].
  apply contains_after in E. congruence.
Qed.

Lemma name_ok_strip_before sep line :
  contains newline line = false -> name_ok (strip (before sep line)).
Proof.
  intros Hn. split; [apply strip_stripped|]. apply contains_strip.
  destruct (contains newline (before sep line)) eqn:E; [|reflexivity].
  apply contains_before in E. congruence.
Qed.

Ltac step_cases :=
  unfold step_line, new_function, save_current, save_function, accumulate_step,
    add_parsed_file, config_step;
  repeat match goal with
         | |- context [if ?b then _ else _] => destruct b eqn:?
         | |- context [match ?x with Some _ => _ | None => _ end] => destruct x eqn:?
         end.

Lemma metadata_step_line line sc :
  contains newline line = false ->
  metadata_ok (sc_self sc) -> metadata_ok (sc_self (step_line line sc)).
Proof.
  intros Hn (H1 & H2 & H3).
  pose proof (proj2 (name_ok_strip_after ":" line Hn)) as Hv.
  step_cases; repeat split; assumption.
Qed.

Lemma files_step_line line sc :
  contains newline line = false ->
  files_ok (sc_self sc) -> files_ok (sc_self (step_line line sc)).
Proof.
  intros Hn [Hwf Hok].
  assert (files_ok (sc_self (add_parsed_file line sc))) as Hadd.
  { split; simpl.
    - now apply dict_wf_set.
    - intros k f. rewrite dict_get_set. destruct (decide _) as [<-|]; [|apply Hok].
      intros [= <-]. repeat split; simpl.
      + apply digits_value_nonneg.
      + apply strip_stripped.
      + now apply name_ok_strip_after. }
  step_cases; first [exact Hadd | split; assumption].
Qed.

Lemma function_ok_frame h h' k f :
  function_ok h k f -> (length h <= length h')%nat ->
  deref h' (Function.files_involved f) = deref h (Function.files_involved f) ->
  function_ok h' k f.
Proof.
  intros (H1 & H2 & H3 & H4 & ls & H5 & H6 & H7) Hlen Hd.
  split; [assumption|]. split; [assumption|]. split; [assumption|].
  split; [lia|]. exists ls. split; [assumption|]. split; congruence.
Qed.

Lemma refs_of_app ls l :
  refs_of (ls ++ [l])
  = refs_of ls ++ (if startswith "File " l then file_refs l else []).
Proof.
  unfold refs_of. rewrite map_app, concat_app. simpl. now rewrite List.app_nil_r.
Qed.

Lemma take_digits_app ds c r :
  all_digits ds = true -> isdigit c = false ->
  take_digits (ds +:+ String c r) = ds /\ drop_digits (ds +:+ String c r) = String c r.
Proof.
  intros Hd Hc. induction ds as [|a ds IH].
  - rewrite sapp_nil_l. simpl. now rewrite Hc.
  - rewrite sapp_cons. simpl in *. apply andb_prop in Hd as [Ha Hd]. rewrite Ha.
    destruct (IH Hd) as [-> ->]. auto.
Qed.

Lemma is_function_id_make ds :
  all_digits ds = true -> ds <> "" -> is_function_id (ds +:+ "F") = true.
Proof.
  intros Hd Hne. unfold is_function_id.
  destruct (take_digits_app ds "F" "" Hd eq_refl) as [-> ->].
  rewrite bool_decide_true by reflexivity. now destruct ds.
Qed.

Lemma contains_no_space c s : isspace c = true -> no_space s = true -> contains c s = false.
Proof.
  intros Hc. induction s as [|a s IH]; [reflexivity|]. simpl.
  intros [Ha Hs]%andb_prop. rewrite (IH Hs), orb_false_r.
  destruct (Ascii.eqb_spec a c) as [->|]; [|reflexivity].
  now rewrite Hc in Ha.
Qed.

Lemma no_space_stripped s : no_space s = true -> stripped s.
Proof.
  intros H. unfold stripped. destruct s as [|c s]; [reflexivity|].
  replace (String c s) with (String c s +:+ "") by apply sapp_nil_r.
  now rewrite strip_no_space.
Qed.

(** What a function header line gives: the id before the first dot. *)
Lemma header_id line :
  is_header line = true ->
  exists ds r, line = ds +:+ "F." +:+ r /\ all_digits ds = true /\ ds <> ""
               /\ before "." line = ds +:+ "F" /\ after "." line = r
               /\ strip (before "." line) = ds +:+ "F"
               /\ is_function_id (ds +:+ "F") = true.
Proof.
  intros H. apply re_match_digits_inv in H as (r & Hl & Hne).
  pose proof (all_digits_take line) as Hd.
  set (ds := take_digits line) in *. exists ds, r.
  assert (no_space (ds +:+ "F") = true) as Hns.
  { rewrite no_space_app, no_space_digits by assumption. reflexivity. }
  assert (contains "." (ds +:+ "F") = false) as Hdot.
  { rewrite contains_app, (all_digits_no "." ds eq_refl Hd). reflexivity. }
  assert (line = (ds +:+ "F") +:+ String "." r) as Hl'.
  { rewrite Hl at 1. now rewrite sapp_assoc. }
  assert (before "." line = ds +:+ "F" /\ after "." line = r) as [Hb Ha].
  { rewrite Hl'. clear -Hdot. induction (ds +:+ "F") as [|a s IH].
    - rewrite sapp_nil_l. simpl. auto.
    - rewrite sapp_cons. simpl in *. destruct (Ascii.eqb a "."); [discriminate|].
      destruct (IH Hdot) as [-> ->]. auto. }
  repeat split; try assumption.
  - rewrite Hb. now apply no_space_stripped.
  - now apply is_function_id_make.
Qed.

Lemma scanning_ok_frame sc sc' :
  sc_objects sc' = sc_objects sc ->
  functions (sc_self sc') = functions (sc_self sc) ->
  current_function sc' = current_function sc ->
  scanning_ok sc -> scanning_ok sc'.
Proof.
  unfold scanning_ok, functions_ok. intros -> -> ->. trivial.
Qed.

Lemma scanning_commit sc :
  scanning_ok sc -> functions_ok (sc_objects sc) (sc_self (save_current sc)).
Proof.
  intros [[Hwf Hok] Hp]. unfold save_current.
  destruct (current_function sc) as [p|]; [|now split].
  destruct (Hp p eq_refl) as [(P1 & P2 & P3 & P4 & P5) _].
  split; simpl.
  - now apply dict_wf_set.
  - intros k f. rewrite dict_get_set. destruct (decide _) as [<-|]; [|apply Hok].
    intros [= <-]. repeat split; try apply P2; try assumption.
    exists (p_implementation p). auto.
Qed.

Lemma scanning_new_function line sc :
  contains newline line = false -> is_header line = true ->
  scanning_ok sc -> scanning_ok (new_function line sc).
Proof.
  intros Hn Hh Hsc. pose proof (scanning_commit sc Hsc) as [Hwf Hok].
  destruct (header_id line Hh) as (ds & r & _ & Hd & Hne & _ & _ & Hid & Hfid).
  assert (sc_objects (save_current sc) = sc_objects sc) as Hobj.
  { unfold save_current. now destruct (current_function sc). }
  unfold new_function. rewrite Hobj. split; cbn.
  - split; [assumption|]. intros k f Hg. specialize (Hok k f Hg).
    apply (function_ok_frame (sc_objects sc)); [assumption|rewrite length_app; lia|].
    apply deref_alloc_old. apply Hok.
  - intros p [= <-]. cbn. split.
    + split; [now rewrite Hid|]. split; [now apply name_ok_strip_after|].
      split; [rewrite length_app; simpl; lia|].
      split; [|apply deref_alloc].
      split; [now left|]. split; [cbn; constructor|cbn; congruence].
    + intros k f Hg. specialize (Hok k f Hg). destruct Hok as (_ & _ & _ & Hl & _). lia.
Qed.

Lemma scanning_accumulate line p sc :
  current_function sc = Some p ->
  (startswith "Implementation:" line = false -> content_line line) ->
  scanning_ok sc -> scanning_ok (accumulate_step line p sc).
Proof.
  intros Hp Hc Hsc. pose proof Hsc as [[Hwf Hok] Hpend].
  destruct (Hpend p Hp) as [(P1 & P2 & P3 & (B1 & B2 & B3) & P5) Hfresh].
  unfold accumulate_step.
  destruct (negb (truthy (p_description p))) eqn:Ed; cbn [andb].
  - destruct (startswith "Implementation:" line) eqn:Ei; cbn [negb].
    + exact Hsc.
    + split; [exact (proj1 Hsc)|]. cbn. intros ? [= <-]. split; [|exact Hfresh].
      specialize (Hc eq_refl).
      split; [assumption|]. split; [assumption|]. split; [assumption|].
      split; [|assumption]. cbn.
      split; [now right|]. split; [assumption|].
      intros _. destruct Hc as (Ht & _). now destruct line.
  - destruct (startswith "Implementation:" line) eqn:Ei; [exact Hsc|].
    assert (p_description p <> "") as Hdesc.
    { intros E. rewrite E in Ed. discriminate. }
    assert (forall k f, dict_get (functions (sc_self sc)) k = Some f ->
              function_ok (if startswith "File " line
                           then <[p_files p := deref (sc_objects sc) (p_files p)
                                                 ++ file_refs line]> (sc_objects sc)
                           else sc_objects sc) k f) as Hok'.
    { intros k f Hg. apply (function_ok_frame (sc_objects sc)); [now apply Hok| |].
      - destruct (startswith "File " line); [rewrite length_insert|]; lia.
      - destruct (startswith "File " line); [|reflexivity].
        apply deref_insert_ne. intros E. now apply (Hfresh k f Hg). }
    split; [split; assumption|]. cbn. intros ? [= <-]. split; [|exact Hfresh].
    split; [assumption|]. split; [assumption|].
    cbn [p_files p_implementation p_description sc_objects].
    split; [destruct (startswith "File " line); [rewrite length_insert|]; lia|].
    split.
    + split; [assumption|]. split; [|congruence].
      apply Forall_app. split; [assumption|]. constructor; [now apply Hc|constructor].
    + rewrite refs_of_app, <- P5.
      destruct (startswith "File " line); [now apply deref_insert_eq|].
      now rewrite List.app_nil_r.
Qed.

Lemma scanning_step_line line sc :
  stripped line -> contains newline line = false ->
  scanning_ok sc -> scanning_ok (step_line line sc).
Proof.
  intros Hs Hn Hsc. unfold step_line.
  destruct (startswith "Project:" line) eqn:E1; [now apply (scanning_ok_frame sc)|].
  destruct (startswith "Description:" line) eqn:E2; [now apply (scanning_ok_frame sc)|].
  destruct (startswith "technology:" line) eqn:E3; [now apply (scanning_ok_frame sc)|].
  destruct (bool_decide (line = "PROJECT FILES INDEX:")) eqn:E4;
    [now apply (scanning_ok_frame sc)|].
  destruct (in_section files_sec sc && truthy line
            && negb (startswith "All functions:" line)).
  { destruct (re_match_digits "." line); [|assumption].
    now apply (scanning_ok_frame sc). }
  destruct (bool_decide (line = "All functions:")) eqn:E6;
    [now apply (scanning_ok_frame sc)|].
  destruct (in_section functions_sec sc && is_header line) eqn:E7.
  { apply andb_prop in E7 as [_ E7]. now apply scanning_new_function. }
  assert (scanning_ok (config_step line sc)) as Hcfg.
  { unfold config_step. destruct (startswith config_trigger line);
      [now apply (scanning_ok_frame sc)|].
    destruct (in_section config_sec sc); [now apply (scanning_ok_frame sc)|assumption]. }
  destruct (current_function sc) as [p|] eqn:Ep; [|exact Hcfg].
  destruct (truthy line && negb (is_header line)) eqn:E8; [|exact Hcfg].
  apply andb_prop in E8 as [Ht Hh]. apply negb_true_iff in Hh.
  apply scanning_accumulate; [assumption| |assumption].
  intros Ei. apply bool_decide_eq_false in E4, E6.
  repeat split; assumption.
Qed.

Lemma image_fold raws sc :
  Forall (fun raw => contains newline raw = false) raws ->
  metadata_ok (sc_self sc) /\ files_ok (sc_self sc) /\ scanning_ok sc ->
  metadata_ok (sc_self (fold_left step raws sc))
  /\ files_ok (sc_self (fold_left step raws sc))
  /\ scanning_ok (fold_left step raws sc).
Proof.
  intros Hr. revert sc. induction Hr as [|raw raws Hn _ IH]; intros sc H; [assumption|].
  cbn [fold_left]. apply IH. destruct H as (H1 & H2 & H3).
  assert (contains newline (strip raw) = false) as Hn' by now apply contains_strip.
  unfold step. split; [now apply metadata_step_line|].
  split; [now apply files_step_line|].
  apply scanning_step_line; [apply strip_stripped|assumption..].
Qed.

Lemma image_finish sc :
  metadata_ok (sc_self sc) /\ files_ok (sc_self sc) /\ scanning_ok sc ->
  parsed_image (finish sc).
Proof.
  intros (H1 & H2 & H3). pose proof (scanning_commit sc H3) as Hf.
  unfold parsed_image, finish. cbn [self objects].
  assert (sc_objects (save_current sc) = sc_objects sc) as ->
    by (unfold save_current; now destruct (current_function sc)).
  unfold save_current in *. destruct (current_function sc); auto.
Qed.

Lemma image_start : 
  metadata_ok (sc_self (start (mkState [] init)))
  /\ files_ok (sc_self (start (mkState [] init)))
  /\ scanning_ok (start (mkState [] init)).
Proof.
  split; [repeat split|]. split.
  - split; [apply NoDup_nil_2|]. intros ? ? [=].
  - split; [split; [apply NoDup_nil_2|intros ? ? [=]]|]. intros ? [=].
Qed.

(** Every model [parse] returns has the shape [parsed_image]. *)
Lemma parsed_image_parsed content : parsed_image (parsed content).
Proof.
  apply image_finish, image_fold; [apply split_no_sep|apply image_start].
Qed.

(** ** What the serializer writes *)

Lemma file_lines_ok fs indices :
  Forall (fun k => k ∈ dict_keys fs) indices ->
  file_lines fs indices = Ok (map (file_line fs) indices).
Proof.
  induction 1 as [|k ks Hk _ IH]; [reflexivity|]. cbn [file_lines map].
  unfold dict_item, file_line at 1.
  destruct (dict_get fs k) as [f|] eqn:E; [|now apply dict_get_None in E].
  cbn. now rewrite IH.
Qed.

Lemma function_lines_ok fns ids :
  Forall (fun k => k ∈ dict_keys fns) ids ->
  function_lines fns ids = Ok (concat (map (block_text fns) ids)).
Proof.
  induction 1 as [|k ks Hk _ IH]; [reflexivity|]. cbn [function_lines map concat].
  unfold dict_item, block_text at 1.
  destruct (dict_get fns k) as [f|] eqn:E; [|now apply dict_get_None in E].
  cbn. now rewrite IH.
Qed.

Lemma snd_zip_map {A B} (f : A -> B) (l : list A) : map snd (zip (map f l) l) = l.
Proof. induction l as [|x l IH]; [reflexivity|]. simpl. now rewrite IH. Qed.

Lemma sorted_file_indices_perm (fs : dict Z ProjectFile.t) :
  Permutation (sorted_file_indices fs) (dict_keys fs).
Proof.
  unfold sorted_file_indices. rewrite sorted_by_key_perm, map_map. simpl.
  now rewrite map_id.
Qed.

Lemma sorted_function_ids_ok (fns : dict string Function.t) :
  Forall (fun k => is_function_id k = true) (dict_keys fns) ->
  exists ids, sorted_function_ids fns = Ok ids /\ Permutation ids (dict_keys fns).
Proof.
  intros Hwf. unfold sorted_function_ids. rewrite (numeric_ids_wf _ Hwf). cbn.
  eexists. split; [reflexivity|]. now rewrite sorted_by_key_perm, snd_zip_map.
Qed.

Lemma perm_Forall_keys {K} (l keys : list K) :
  Permutation l keys -> Forall (fun k => k ∈ keys) l.
Proof. intros Hp. apply Forall_forall. intros k Hk. now rewrite <- Hp. Qed.

(** The serializer returns, for every model of the shape of a parsed
    model, the text of its [items], for the file indices and the function
    ids in some order. *)
Lemma _generate_content_ok st :
  parsed_image st ->
  exists indices ids,
    _generate_content (self st)
    = Ok (join (String newline "") (items (self st) indices ids))
    /\ Permutation indices (dict_keys (files (self st)))
    /\ Permutation ids (dict_keys (functions (self st))).
Proof.
  intros (_ & _ & [_ Hfn]).
  destruct (sorted_function_ids_ok (functions (self st))) as (ids & Hids & Hperm).
  { apply Forall_forall. intros k Hk.
    destruct (dict_get (functions (self st)) k) as [f|] eqn:E;
      [|now apply dict_get_None in E].
    exact (proj1 (proj2 (Hfn k f E))). }
  exists (sorted_file_indices (files (self st))), ids.
  split; [|split; [apply sorted_file_indices_perm|exact Hperm]].
  unfold _generate_content.
  rewrite file_lines_ok by apply perm_Forall_keys, sorted_file_indices_perm.
  cbn. rewrite Hids. cbn.
  rewrite function_lines_ok by now apply perm_Forall_keys.
  reflexivity.
Qed.

(** ** Scanning the serialized text *)

Lemma in_section_is s s' sc :
  current_section sc = Some s -> in_section s' sc = bool_decide (s = s').
Proof.
  intros H. unfold in_section. rewrite H.
  destruct (decide (s = s')) as [->|Hne].
  - now rewrite !bool_decide_true.
  - rewrite !bool_decide_false; [reflexivity|assumption|congruence].
Qed.

Lemma in_section_none s sc : current_section sc = None -> in_section s sc = false.
Proof. intros H. unfold in_section. rewrite H. now apply bool_decide_false. Qed.

Lemma shape_header prefix v sc :
  prefix = "Project:" \/ prefix = "Description:" \/ prefix = "technology:" ->
  shape (step sc (prefix +:+ v)) = shape sc.
Proof.
  intros Hp. unfold step.
  assert (strip (prefix +:+ v) = prefix +:+ rstrip v) as ->.
  { destruct Hp as [->|[->| ->]]; apply strip_no_space; (discriminate || reflexivity). }
  unfold step_line.
  destruct Hp as [->|[->| ->]].
  - now rewrite startswith_app.
  - rewrite (startswith_exclusive "Description:" "Project:" _ (fun _ => eq_refl)
               (startswith_app _ _)).
    now rewrite startswith_app.
  - rewrite (startswith_exclusive "technology:" "Project:" _ (fun _ => eq_refl)
               (startswith_app _ _)),
      (startswith_exclusive "technology:" "Description:" _ (fun _ => eq_refl)
         (startswith_app _ _)).
    now rewrite startswith_app.
Qed.

Lemma shape_files_index sc :
  shape (step sc "PROJECT FILES INDEX:")
  = (sc_objects sc, files (sc_self sc), functions (sc_self sc), Some files_sec,
     current_function sc).
Proof. reflexivity. Qed.

Lemma shape_all_functions sc :
  shape (step sc "All functions:")
  = (sc_objects sc, files (sc_self sc), functions (sc_self sc), Some functions_sec,
     current_function sc).
Proof.
  unfold step. change (strip "All functions:") with "All functions:".
  unfold step_line. cbn. now rewrite andb_false_r.
Qed.

Lemma step_blank sc :
  current_section sc <> Some config_sec -> step sc "" = sc.
Proof.
  intros Hs. unfold step. change (strip "") with "". unfold step_line. cbn.
  rewrite !andb_false_r. unfold config_step.
  assert (in_section config_sec sc = false) as Hc.
  { unfold in_section. now apply bool_decide_eq_false. }
  cbn. rewrite Hc. now destruct (current_function sc).
Qed.

Lemma step_marker sc p :
  current_section sc = Some functions_sec -> current_function sc = Some p ->
  step sc "Implementation:" = sc.
Proof.
  intros Hs Hp. unfold step. change (strip "Implementation:") with "Implementation:".
  unfold step_line.
  change (startswith "Project:" "Implementation:") with false.
  change (startswith "Description:" "Implementation:") with false.
  change (startswith "technology:" "Implementation:") with false.
  change (is_header "Implementation:") with false.
  change (truthy "Implementation:") with true.
  rewrite (in_section_is _ files_sec _ Hs), Hp.
  rewrite !bool_decide_false by discriminate. cbn [andb negb].
  rewrite andb_false_r. unfold accumulate_step.
  change (startswith "Implementation:" "Implementation:") with true.
  cbn [negb]. now rewrite andb_false_r.
Qed.

Lemma step_content l sc p :
  content_line l ->
  current_section sc = Some functions_sec -> current_function sc = Some p ->
  step sc l = accumulate_step l p sc.
Proof.
  intros (Ht & [Hs _] & H1 & H2 & H3 & H4 & H5 & H6 & _) Hsec Hp.
  unfold step. rewrite Hs. unfold step_line.
  rewrite H1, H2, H3, H6, Hp, Ht, (in_section_is _ files_sec _ Hsec).
  rewrite !bool_decide_false by (assumption || discriminate).
  cbn. now rewrite andb_false_r.
Qed.

Lemma before_after_app c a r :
  contains c a = false ->
  before c (a +:+ String c r) = a /\ after c (a +:+ String c r) = r.
Proof.
  induction a as [|x a IH]; intros H.
  - rewrite sapp_nil_l. simpl. now rewrite Ascii.eqb_refl.
  - rewrite sapp_cons. simpl in *. destruct (Ascii.eqb x c); [discriminate|].
    destruct (IH H) as [-> ->]. auto.
Qed.

Lemma re_match_digits_make c lit ds r :
  all_digits ds = true -> ds <> "" -> isdigit c = false ->
  re_match_digits (String c lit) (ds +:+ String c lit +:+ r) = true.
Proof.
  intros Hd Hne Hc. destruct ds as [|a ds]; [congruence|].
  rewrite sapp_cons. simpl in *. apply andb_prop in Hd as [Ha Hd]. rewrite Ha.
  change (String c (lit +:+ r)) with (String c lit +:+ r).
  destruct (take_digits_app ds c (lit +:+ r) Hd Hc) as [_ Hdrop].
  change (String c lit +:+ r) with (String c (lit +:+ r)). rewrite Hdrop.
  change (String c (lit +:+ r)) with (String c lit +:+ r). apply startswith_app.
Qed.

(** The facts the scanner tests on a stripped line that starts with a digit. *)
Lemma digit_line_tests line :
  starts_with_digit line = true ->
  startswith "Project:" line = false /\ startswith "Description:" line = false
  /\ startswith "technology:" line = false /\ line <> "PROJECT FILES INDEX:"
  /\ line <> "All functions:" /\ truthy line = true
  /\ startswith "All functions:" line = false.
Proof.
  intros H. repeat split; try (now apply starts_with_digit_prefix);
    try (now apply starts_with_digit_ne). now destruct line.
Qed.

Lemma numbered_line ds lit name :
  all_digits ds = true -> ds <> "" -> no_space lit = true -> stripped name ->
  exists t, strip (ds +:+ lit +:+ String " " name) = ds +:+ lit +:+ t /\ strip t = name.
Proof.
  intros Hd Hne Hl Hn. exists (rstrip (String " " name)).
  split; [|now apply rstrip_space_value].
  rewrite <- !sapp_assoc. apply strip_no_space.
  - destruct ds; [congruence|discriminate].
  - now rewrite no_space_app, no_space_digits.
Qed.

Lemma shape_file_line k path sc :
  0 <= k -> stripped path -> current_section sc = Some files_sec ->
  shape (step sc (str k +:+ ". " +:+ path))
  = (sc_objects sc, dict_set k (ProjectFile.mk k path "") (files (sc_self sc)),
     functions (sc_self sc), Some files_sec, current_function sc).
Proof.
  intros Hk Hp Hs. destruct (str_digits k Hk) as [Hd Hne].
  destruct (numbered_line (str k) "." path Hd Hne eq_refl Hp) as (t & Hline & Ht).
  unfold step. change (str k +:+ ". " +:+ path) with (str k +:+ "." +:+ String " " path).
  rewrite Hline. set (line := str k +:+ "." +:+ t).
  assert (starts_with_digit line = true) as Hsd.
  { apply starts_with_digit_app. destruct (str k) as [|c s]; [congruence|].
    simpl in *. now apply andb_prop in Hd as [? _]. }
  destruct (digit_line_tests line Hsd) as (H1 & H2 & H3 & H4 & H5 & H6 & H7).
  assert (re_match_digits "." line = true) as Hm
    by now apply (re_match_digits_make "." "").
  destruct (before_after_app "." (str k) t (all_digits_no "." _ eq_refl Hd)) as [Hb Ha].
  change (str k +:+ String "." t) with line in Hb, Ha.
  unfold step_line. rewrite H1, H2, H3, H6, H7, Hm, (in_section_is _ files_sec _ Hs).
  rewrite bool_decide_false by assumption. rewrite bool_decide_true by reflexivity.
  cbn [andb negb]. unfold add_parsed_file, shape.
  cbn [sc_objects sc_self with_self set_files files functions current_section
         current_function].
  rewrite Hb, Ha, Ht, Hs, digits_value_str by assumption. reflexivity.
Qed.

Lemma shape_function_header id name sc :
  is_function_id id = true -> stripped name ->
  current_section sc = Some functions_sec ->
  shape (step sc (id +:+ ". " +:+ name))
  = (sc_objects sc ++ [[]], files (sc_self sc),
     functions (sc_self (save_current sc)), Some functions_sec,
     Some (mkPending id name "" [] (length (sc_objects sc)))).
Proof.
  intros (Hid & Hne & Hd)%is_function_id_inv Hn Hs.
  set (ds := take_digits id) in *.
  destruct (numbered_line ds "F." name Hd Hne eq_refl Hn) as (t & Hline & Ht).
  unfold step. rewrite Hid.
  replace ((ds +:+ "F") +:+ ". " +:+ name) with (ds +:+ "F." +:+ String " " name)
    by now rewrite sapp_assoc.
  rewrite Hline. set (line := ds +:+ "F." +:+ t).
  assert (starts_with_digit line = true) as Hsd.
  { apply starts_with_digit_app. destruct ds as [|c s]; [congruence|].
    simpl in *. now apply andb_prop in Hd as [? _]. }
  destruct (digit_line_tests line Hsd) as (H1 & H2 & H3 & H4 & H5 & H6 & H7).
  assert (is_header line = true) as Hm by now apply (re_match_digits_make "F" ".").
  assert (contains "." (ds +:+ "F") = false) as Hdot.
  { rewrite contains_app, (all_digits_no "." ds eq_refl Hd). reflexivity. }
  destruct (before_after_app "." (ds +:+ "F") t Hdot) as [Hb Ha].
  replace ((ds +:+ "F") +:+ String "." t) with line in Hb, Ha
    by (subst line; now rewrite sapp_assoc).
  assert (strip (ds +:+ "F") = ds +:+ "F") as Hstrip.
  { apply no_space_stripped. now rewrite no_space_app, no_space_digits. }
  unfold step_line.
  rewrite H1, H2, H3, Hm, (in_section_is _ files_sec _ Hs),
    (in_section_is _ functions_sec _ Hs).
  rewrite !bool_decide_false by (assumption || discriminate).
  rewrite bool_decide_true by reflexivity. cbn [andb].
  unfold new_function, shape.
  cbn [sc_objects sc_self files functions current_section current_function].
  rewrite Hb, Ha, Ht, Hstrip.
  unfold save_current. destruct (current_function sc); cbn; now rewrite ?Hs.
Qed.

Lemma shape_inv sc h fs fns sec cur :
  shape sc = (h, fs, fns, sec, cur) ->
  sc_objects sc = h /\ files (sc_self sc) = fs /\ functions (sc_self sc) = fns
  /\ current_section sc = sec /\ current_function sc = cur.
Proof. unfold shape. intros [= <- <- <- <- <-]. repeat split. Qed.

Lemma shape_file_lines fs indices sc :
  (forall k, k ∈ indices -> exists f, dict_get fs k = Some f /\ file_ok k f) ->
  current_section sc = Some files_sec ->
  shape (fold_left step (map (file_line fs) indices) sc)
  = (sc_objects sc, reparsed_files fs indices (files (sc_self sc)),
     functions (sc_self sc), Some files_sec, current_function sc).
Proof.
  revert sc. induction indices as [|k ks IH]; intros sc Hok Hs.
  - unfold shape. cbn. now rewrite Hs.
  - cbn [map fold_left]. destruct (Hok k) as (f & Hf & _ & Hk & Hpath & _); [left|].
    assert (file_line fs k = str k +:+ ". " +:+ ProjectFile.path f) as ->
      by (unfold file_line; now rewrite Hf).
    pose proof (shape_file_line k _ sc Hk Hpath Hs) as Hstep.
    apply shape_inv in Hstep as (H1 & H2 & H3 & H4 & H5).
    rewrite IH; [|intros; apply Hok; now right|assumption].
    assert (path_of fs k = ProjectFile.path f) as Hpo
      by (unfold path_of; now rewrite Hf).
    rewrite H1, H2, H3, H5. unfold reparsed_files. cbn [fold_left].
    now rewrite Hpo.
Qed.

Lemma reparsed_files_get fs indices d k :
  dict_get (reparsed_files fs indices d) k
  = if bool_decide (k ∈ indices) then Some (ProjectFile.mk k (path_of fs k) "")
    else dict_get d k.
Proof.
  unfold reparsed_files. revert d. induction indices as [|j js IH]; intros d.
  - cbn. rewrite bool_decide_false; [reflexivity|apply not_elem_of_nil].
  - cbn [fold_left]. rewrite IH.
    destruct (decide (k ∈ js)) as [Hin|Hnotin].
    + rewrite !bool_decide_true; [reflexivity|now right|assumption].
    + rewrite (bool_decide_false (k ∈ js)) by assumption.
      rewrite dict_get_set. destruct (decide (j = k)) as [->|Hne].
      * rewrite bool_decide_true by left. reflexivity.
      * rewrite bool_decide_false; [reflexivity|].
        intros [?|?]%elem_of_cons; congruence.
Qed.

Lemma insert_last {A} (h : list A) x v : <[length h := v]> (h ++ [x]) = h ++ [v].
Proof. induction h as [|y h IH]; [reflexivity|]. simpl. now rewrite IH. Qed.

Lemma insert_deref_id (h : list (list Z)) l :
  (l < length h)%nat -> <[l := deref h l ++ []]> h = h.
Proof.
  intros Hl. rewrite List.app_nil_r. apply list_insert_id. unfold deref.
  destruct (h !! l) eqn:E; [reflexivity|]. apply lookup_ge_None in E. lia.
Qed.

Lemma pending_eta p :
  mkPending (p_id p) (p_name p) (p_description p) (p_implementation p) (p_files p) = p.
Proof. now destruct p. Qed.

Lemma refs_of_cons l ls :
  refs_of (l :: ls) = (if startswith "File " l then file_refs l else []) ++ refs_of ls.
Proof. reflexivity. Qed.

Lemma shape_content_lines ls sc p :
  Forall content_line ls ->
  current_section sc = Some functions_sec -> current_function sc = Some p ->
  p_description p <> "" -> (p_files p < length (sc_objects sc))%nat ->
  shape (fold_left step ls sc)
  = (<[p_files p := deref (sc_objects sc) (p_files p) ++ refs_of ls]> (sc_objects sc),
     files (sc_self sc), functions (sc_self sc), Some functions_sec,
     Some (mkPending (p_id p) (p_name p) (p_description p)
             (p_implementation p ++ ls) (p_files p))).
Proof.
  intros Hls. revert sc p. induction Hls as [|l ls Hl _ IH]; intros sc p Hs Hp Hd Hloc.
  - unfold shape. cbn [fold_left]. change (refs_of []) with (@nil Z).
    rewrite insert_deref_id, List.app_nil_r, pending_eta, Hs, Hp by assumption.
    reflexivity.
  - cbn [fold_left]. rewrite (step_content l sc p Hl Hs Hp).
    unfold accumulate_step.
    destruct Hl as (_ & _ & _ & _ & _ & _ & _ & _ & Himpl). rewrite Himpl.
    assert (truthy (p_description p) = true) as -> by now destruct (p_description p).
    cbn [negb andb].
    rewrite (IH _ (mkPending (p_id p) (p_name p) (p_description p)
                     (p_implementation p ++ [l]) (p_files p)));
      cbn [current_section current_function sc_objects sc_self p_files
             p_description p_id p_name p_implementation];
      [|assumption|reflexivity|assumption|
        destruct (startswith "File " l); [rewrite length_insert|]; assumption].
    rewrite refs_of_cons, <- List.app_assoc. f_equal. f_equal. f_equal. f_equal.
    destruct (startswith "File " l).
    + rewrite list_insert_insert_eq, deref_insert_eq by assumption.
      now rewrite <- List.app_assoc.
    + reflexivity.
Qed.

Lemma content_line_no_newline l : content_line l -> contains newline l = false.
Proof. now intros (_ & [_ H] & _). Qed.

Lemma fold_implementation ls sc :
  Forall content_line ls -> current_section sc <> Some config_sec ->
  (ls = [] -> fold_left step ls sc = sc) ->
  fold_left step (split newline (join (String newline "") ls)) sc
  = fold_left step ls sc.
Proof.
  intros Hls Hs Hnil. destruct ls as [|l ls].
  - cbn. now apply step_blank.
  - rewrite split_join; [reflexivity|discriminate|].
    eapply Forall_impl; [exact Hls|]. apply content_line_no_newline.
Qed.

Lemma shape_block h1 id f sc :
  function_ok h1 id f -> current_section sc = Some functions_sec ->
  exists ls,
    Function.implementation f = join (String newline "") ls
    /\ shape (fold_left step (block_lines id f) sc)
       = (sc_objects sc ++ [deref h1 (Function.files_involved f)],
          files (sc_self sc), functions (sc_self (save_current sc)),
          Some functions_sec,
          Some (mkPending id (Function.name f) (Function.description f) ls
                  (length (sc_objects sc)))).
Proof.
  intros (_ & Hfid & [Hname _] & _ & ls & (B1 & B2 & B3) & Himpl & Hrefs) Hs.
  exists ls. split; [assumption|].
  unfold block_lines. rewrite Himpl, Hrefs.
  cbn [app fold_left]. rewrite fold_left_app. cbn [fold_left].
  pose proof (shape_function_header id (Function.name f) sc Hfid Hname Hs) as H1.
  set (s1 := step sc (id +:+ ". " +:+ Function.name f)) in *.
  apply shape_inv in H1 as (O1 & F1 & N1 & S1 & C1).
  assert (current_section s1 <> Some config_sec) as S1' by (rewrite S1; discriminate).
  destruct (decide (Function.description f = "")) as [Ed|Ed].
  - assert (ls = []) as -> by (destruct ls; [reflexivity|now destruct B3]).
    rewrite Ed. rewrite (step_blank s1 S1').
    rewrite (step_marker s1 _ S1 C1). cbn [join split fold_left].
    rewrite !(step_blank s1 S1'). unfold shape.
    now rewrite O1, F1, N1, S1, C1.
  - destruct B1 as [?|Hd]; [congruence|].
    set (p1 := mkPending id (Function.name f) (Function.description f) []
                 (length (sc_objects sc))).
    assert (step s1 (Function.description f) = with_function p1 s1) as ->.
    { rewrite (step_content _ s1 _ Hd S1 C1). unfold accumulate_step. cbn.
      destruct Hd as (_ & _ & _ & _ & _ & _ & _ & _ & ->). reflexivity. }
    set (s2 := with_function p1 s1).
    assert (current_section s2 = Some functions_sec) as S2 by exact S1.
    assert (current_section s2 <> Some config_sec) as S2' by (rewrite S2; discriminate).
    rewrite (step_marker s2 p1 S2 eq_refl).
    rewrite fold_implementation; [|assumption|assumption|now intros ->].
    pose proof (shape_content_lines ls s2 p1 B2 S2 eq_refl Ed) as H4.
    cbn [p_files p1 sc_objects s2 with_function] in H4.
    rewrite O1 in H4. rewrite length_app in H4. specialize (H4 ltac:(simpl; lia)).
    apply shape_inv in H4 as (O4 & F4 & N4 & S4 & C4).
    rewrite step_blank by (rewrite S4; discriminate).
    unfold shape. rewrite O4, F4, N4, S4, C4. cbn [sc_self s2 with_function].
    rewrite F1, N1, deref_alloc, insert_last. reflexivity.
Qed.

Lemma save_current_frame sc :
  sc_objects (save_current sc) = sc_objects sc
  /\ files (sc_self (save_current sc)) = files (sc_self sc)
  /\ current_section (save_current sc) = current_section sc.
Proof. unfold save_current. now destruct (current_function sc). Qed.

Lemma shape_blocks h1 blocks sc :
  (forall k f, (k, f) ∈ blocks -> function_ok h1 k f) ->
  current_section sc = Some functions_sec ->
  sc_objects (fold_left step (lines_of_blocks blocks) sc)
  = sc_objects sc ++ lists_of_blocks h1 blocks
  /\ files (sc_self (fold_left step (lines_of_blocks blocks) sc)) = files (sc_self sc)
  /\ current_section (fold_left step (lines_of_blocks blocks) sc) = Some functions_sec
  /\ functions (sc_self (save_current (fold_left step (lines_of_blocks blocks) sc)))
     = replay (length (sc_objects sc)) blocks (functions (sc_self (save_current sc))).
Proof.
  revert sc. induction blocks as [|[k f] blocks IH]; intros sc Hok Hs.
  - cbn. now rewrite List.app_nil_r.
  - unfold lines_of_blocks, lists_of_blocks. cbn [map concat fst snd].
    rewrite fold_left_app.
    destruct (shape_block h1 k f sc (Hok k f ltac:(left)) Hs) as (ls & Himpl & Hshape).
    set (s1 := fold_left step (block_lines k f) sc) in *.
    apply shape_inv in Hshape as (O1 & F1 & N1 & S1 & C1).
    destruct (IH s1) as (O2 & F2 & S2 & N2); [intros; apply Hok; now right|assumption|].
    fold (lines_of_blocks blocks). rewrite O2, F2, S2, N2, O1, F1.
    split; [now rewrite <- List.app_assoc|]. split; [reflexivity|]. split; [reflexivity|].
    rewrite length_app, Nat.add_1_r. cbn [replay]. f_equal.
    unfold save_current at 1. rewrite C1. unfold with_self, save_function.
    cbn [sc_self functions set_functions p_id p_name p_description p_implementation
           p_files].
    rewrite N1. f_equal.
    unfold relocate. destruct (Hok k f ltac:(left)) as (-> & _). now rewrite Himpl.
Qed.

Lemma replay_get_other base blocks fns k :
  k ∉ map fst blocks -> dict_get (replay base blocks fns) k = dict_get fns k.
Proof.
  revert base fns. induction blocks as [|[k0 f0] blocks IH]; intros base fns Hk.
  - reflexivity.
  - cbn [replay map fst] in *. apply not_elem_of_cons in Hk as [Hne Hk].
    rewrite IH by assumption. apply dict_get_set_ne. congruence.
Qed.

Lemma replay_get_in base blocks fns k f :
  NoDup (map fst blocks) -> (k, f) ∈ blocks ->
  exists i, blocks !! i = Some (k, f)
            /\ dict_get (replay base blocks fns) k = Some (relocate (base + i) f).
Proof.
  revert base fns. induction blocks as [|[k0 f0] blocks IH]; intros base fns Hnd Hin.
  - now apply elem_of_nil in Hin.
  - cbn [map fst] in Hnd. apply NoDup_cons in Hnd as [Hk0 Hnd]. cbn [replay].
    apply elem_of_cons in Hin as [[= -> ->]|Hin].
    + exists 0%nat. split; [reflexivity|].
      rewrite replay_get_other by assumption. rewrite Nat.add_0_r.
      apply dict_get_set_eq.
    + destruct (IH (S base) (dict_set k0 (relocate base f0) fns) Hnd Hin) as (i & Hi & Hg).
      exists (S i). split; [exact Hi|]. rewrite Hg. do 2 f_equal. lia.
Qed.

Lemma concat_split_lines ls :
  Forall (fun l => contains newline l = false) ls ->
  concat (map (split newline) ls) = ls.
Proof.
  induction 1 as [|l ls Hl _ IH]; [reflexivity|]. cbn [map concat].
  now rewrite (split_no_sep_id newline l Hl), IH.
Qed.

Lemma function_id_no_newline k : is_function_id k = true -> contains newline k = false.
Proof.
  intros (Hk & _ & Hd)%is_function_id_inv. rewrite Hk, contains_app.
  now rewrite (all_digits_no newline _ eq_refl Hd).
Qed.

Lemma file_line_no_newline fs k f :
  dict_get fs k = Some f -> file_ok k f -> contains newline (file_line fs k) = false.
Proof.
  intros Hf (_ & Hk & _ & Hp). unfold file_line. rewrite Hf, !contains_app, Hp.
  destruct (str_digits k Hk) as [Hd _].
  now rewrite (all_digits_no newline _ eq_refl Hd).
Qed.

Lemma body_no_newline d ls : body_ok d ls -> contains newline d = false.
Proof. intros ([->|Hd] & _); [reflexivity|now apply content_line_no_newline]. Qed.

Lemma block_text_lines h fns blocks :
  (forall k f, (k, f) ∈ blocks -> dict_get fns k = Some f /\ function_ok h k f) ->
  concat (map (split newline) (concat (map (block_text fns) (map fst blocks))))
  = lines_of_blocks blocks.
Proof.
  induction blocks as [|[k f] blocks IH]; intros Hok; [reflexivity|].
  unfold lines_of_blocks. cbn [map concat fst snd].
  destruct (Hok k f ltac:(left)) as (Hg & _ & Hid & [_ Hname] & _ & ls & Hbody & _).
  unfold block_text at 1. rewrite Hg. rewrite map_app, concat_app.
  rewrite IH by (intros; apply Hok; now right). fold (lines_of_blocks blocks).
  f_equal. unfold block_lines. cbn [map concat app].
  rewrite (split_no_sep_id newline (k +:+ ". " +:+ Function.name f)).
  - rewrite (split_no_sep_id newline (Function.description f))
      by (eapply body_no_newline; eassumption).
    cbn [app]. rewrite ?List.app_nil_r. reflexivity.
  - rewrite !contains_app, Hname, (function_id_no_newline k Hid). reflexivity.
Qed.

Lemma serialized_lines st indices blocks :
  parsed_image st -> config_section (self st) = "" ->
  Forall (fun k => k ∈ dict_keys (files (self st))) indices ->
  Permutation blocks (functions (self st)) ->
  split newline (join (String newline "") (items (self st) indices (map fst blocks)))
  = ["Project:" +:+ project_name (self st);
     "Description:" +:+ project_description (self st);
     "technology:" +:+ technology (self st);
     "PROJECT FILES INDEX:"]
    ++ map (file_line (files (self st))) indices
    ++ [""; "All functions:"] ++ lines_of_blocks blocks ++ [""].
Proof.
  intros ((M1 & M2 & M3) & [Hfwf Hfok] & [Hnwf Hnok]) Hcfg Hidx Hperm.
  rewrite split_join_concat by discriminate. unfold items. rewrite Hcfg.
  rewrite !map_app, !concat_app.
  rewrite (block_text_lines (objects st)).
  - rewrite (concat_split_lines (map _ indices)).
    + cbn [map concat app].
      rewrite !split_no_sep_id
        by (rewrite ?contains_app, ?M1, ?M2, ?M3; reflexivity).
      reflexivity.
    + apply Forall_forall. intros l (k & -> & Hk)%list_elem_of_fmap.
      rewrite Forall_forall in Hidx. specialize (Hidx k Hk).
      destruct (dict_get (files (self st)) k) as [f|] eqn:E;
        [|now apply dict_get_None in E].
      eapply file_line_no_newline; eauto.
  - intros k f Hin. rewrite Hperm in Hin.
    assert (dict_get (functions (self st)) k = Some f) as Hg by now apply dict_elem_get.
    auto.
Qed.

Lemma reparsed_files_view m indices k :
  files_ok m -> Permutation indices (dict_keys (files m)) ->
  (fun f => (ProjectFile.index f, ProjectFile.path f)) <$> dict_get (files m) k
  = (fun f => (ProjectFile.index f, ProjectFile.path f))
    <$> dict_get (reparsed_files (files m) indices []) k.
Proof.
  intros [Hwf Hok] Hperm. rewrite reparsed_files_get.
  destruct (dict_get (files m) k) as [f|] eqn:E.
  - rewrite bool_decide_true by (rewrite Hperm; eapply dict_get_Some_keys, E).
    destruct (Hok k f E) as (Hi & _). unfold path_of. rewrite E. cbn. now rewrite Hi.
  - rewrite bool_decide_false; [reflexivity|].
    rewrite Hperm. now apply dict_get_None.
Qed.

Lemma replayed_functions_view h m blocks k :
  functions_ok h m -> Permutation (functions m) blocks ->
  (fun func =>
     (Function.id func, Function.name func, Function.description func,
      Function.implementation func, deref h (Function.files_involved func)))
  <$> dict_get (functions m) k
  = (fun func =>
       (Function.id func, Function.name func, Function.description func,
        Function.implementation func,
        deref (lists_of_blocks h blocks) (Function.files_involved func)))
    <$> dict_get (replay 0 blocks []) k.
Proof.
  intros [Hwf Hok] Hperm.
  assert (NoDup (map fst blocks)) as Hnd.
  { unfold dict_wf, dict_keys in Hwf. now rewrite <- Hperm. }
  destruct (dict_get (functions m) k) as [f|] eqn:E.
  - assert ((k, f) ∈ blocks) as Hin by (rewrite <- Hperm; now apply dict_get_Some_elem).
    destruct (replay_get_in 0 blocks [] k f Hnd Hin) as (i & Hi & ->).
    cbn. do 2 f_equal. unfold deref, lists_of_blocks.
    now rewrite list_lookup_fmap, Hi.
  - rewrite replay_get_other; [reflexivity|].
    apply dict_get_None in E. unfold dict_keys in E. now rewrite <- Hperm.
Qed.

(** The round trip of the specification, for every model of the shape of a
    parsed model whose configuration text is empty: the serializer returns a
    text, the parser returns a model for it, and that model has the same
    file collection (index and path) and the same function collection (id,
    name, description, implementation text and file references). *)
Theorem round_trip_without_config st :
  parsed_image st -> config_section (self st) = "" ->
  exists t st',
    _generate_content (self st) = Ok t /\ parse t = Ok st' /\ same_model st st'.
Proof.
  intros Him Hcfg.
  destruct (_generate_content_ok st Him) as (indices & ids & Hgen & Hpi & Hpids).
  apply Permutation_map_inv in Hpids as (blocks & -> & Hpb).
  eexists _, _. split; [exact Hgen|]. split; [apply parse_returns|].
  unfold parsed.
  rewrite (serialized_lines st indices blocks Him Hcfg)
    by (try apply perm_Forall_keys; now symmetry || assumption).
  destruct Him as (_ & Hfiles & Hfns).
  rewrite !fold_left_app.
  set (sc0 := start (mkState [] init)).
  set (sa := fold_left step _ sc0).
  assert (shape sa = ([], [], [], Some files_sec, None)) as Ha.
  { subst sa. cbn [fold_left]. rewrite shape_files_index.
    pose proof (shape_header "technology:" (technology (self st))
                  (step (step sc0 ("Project:" +:+ project_name (self st)))
                     ("Description:" +:+ project_description (self st)))
                  ltac:(auto)) as H3.
    rewrite (shape_header "Description:") in H3 by auto.
    rewrite (shape_header "Project:") in H3 by auto.
    apply shape_inv in H3 as (-> & -> & -> & _ & ->). reflexivity. }
  apply shape_inv in Ha as (Oa & Fa & Na & Sa & Ca).
  set (sb := fold_left step (map _ indices) sa).
  assert (shape sb = ([], reparsed_files (files (self st)) indices [], [],
                      Some files_sec, None)) as Hb.
  { subst sb. rewrite shape_file_lines, Oa, Fa, Na, Ca; [reflexivity| |assumption].
    intros k Hk. rewrite Hpi in Hk.
    destruct (dict_get (files (self st)) k) as [f|] eqn:E;
      [|now apply dict_get_None in E].
    exists f. split; [reflexivity|]. now apply (proj2 Hfiles). }
  apply shape_inv in Hb as (Ob & Fb & Nb & Sb & Cb).
  set (sc := fold_left step ["" ; "All functions:"] sb).
  assert (shape sc = ([], reparsed_files (files (self st)) indices [], [],
                      Some functions_sec, None)) as Hc.
  { subst sc. cbn [fold_left]. rewrite step_blank by (rewrite Sb; discriminate).
    now rewrite shape_all_functions, Ob, Fb, Nb, Cb. }
  apply shape_inv in Hc as (Oc & Fc & Nc & Sc & Cc).
  destruct (shape_blocks (objects st) blocks sc) as (Od & Fd & Sd & Nd);
    [|assumption|].
  { intros k f Hin. apply (proj2 Hfns). apply dict_elem_get; [apply Hfns|].
    now rewrite Hpb. }
  set (sd := fold_left step (lines_of_blocks blocks) sc) in *.
  cbn [fold_left]. rewrite step_blank by (rewrite Sd; discriminate).
  destruct (save_current_frame sd) as (Oe & Fe & _).
  assert (save_current sc = sc) as Hsc by (unfold save_current; now rewrite Cc).
  rewrite Hsc, Oc, Nc in *. cbn [app length] in *.
  split.
  - intros k. unfold file_view, finish. cbn [self]. rewrite Fe, Fd, Fc.
    now apply reparsed_files_view.
  - intros k. unfold function_view, finish. cbn [self objects]. rewrite Nd, Oe, Od.
    now apply replayed_functions_view.
Qed.

(** For a text whose parsed model has an empty configuration text, parsing
    what the serializer writes for the parsed model gives the same file
    collection and the same function collection again. *)
Theorem reparse_same_model content :
  config_section (self (parsed content)) = "" ->
  exists st st',
    parse content = Ok st /\ reparse content = Ok st' /\ same_model st st'.
Proof.
  intros Hcfg.
  destruct (round_trip_without_config (parsed content) (parsed_image_parsed content) Hcfg)
    as (t & st' & Hgen & Hparse & Hsame).
  exists (parsed content), st'. split; [apply parse_returns|]. split; [|exact Hsame].
  unfold reparse. rewrite parse_returns.
  change (_generate_content (self (parsed content)) ≫= parse = Ok st').
  rewrite Hgen. exact Hparse.
Qed.

Lemma reparse_same_model_witness :
  exists st st',
    parse (text ["Project: Demo"; "PROJECT FILES INDEX:"; "1. a.py"; "";
                 "All functions:"; "1F. LOGIN"; "Checks the password";
                 "Implementation:"; "File 1 reads the input";
                 "key projct configuration:"; "mode=fast"]) = Ok st
    /\ reparse (text ["Project: Demo"; "PROJECT FILES INDEX:"; "1. a.py"; "";
                      "All functions:"; "1F. LOGIN"; "Checks the password";
                      "Implementation:"; "File 1 reads the input";
                      "key projct configuration:"; "mode=fast"]) = Ok st'
    /\ same_model st st'.
Proof. apply reparse_same_model. reflexivity. Defined.


(** ** Parsed models share no list object *)






(** * Further properties of the operations

    The operations of the manager that the round trip and the reference
    bookkeeping rely on, each for every model it can be called on. *)

Lemma dict_del_set_absent {K V} `{EqDecision K} (k : K) (v : V) (d : dict K V) :
  k ∉ dict_keys d -> dict_del k (dict_set k v d) = d.
Proof.
  induction d as [|[k' v'] d IH]; simpl.
  - intros _. now rewrite decide_True.
  - intros [Hk Hd]%not_elem_of_cons. rewrite decide_False by assumption.
    simpl. rewrite decide_False by assumption. now rewrite IH.
Qed.

Lemma set_functions_same m : set_functions (functions m) m = m.
Proof. now destruct m. Qed.

Lemma dict_mem_get {K V} `{EqDecision K} (d : dict K V) k v :
  dict_get d k = Some v -> dict_mem d k = true.
Proof. unfold dict_mem. now intros ->. Qed.

(** ** [add_file] *)


(** ** [edit_file] *)


(** ** [delete_function] *)

(** X3.  On a function that exists, [delete_function] returns [True] and removes
    that id only: the other functions, the files and the list objects are
    as before. *)
Theorem delete_function_removes st function_id func :
  dict_wf (functions (self st)) ->
  dict_get (functions (self st)) function_id = Some func ->
  exists st',
    delete_function function_id st = (st', true)
    /\ dict_get (functions (self st')) function_id = None
    /\ (forall k, k <> function_id ->
          dict_get (functions (self st')) k = dict_get (functions (self st)) k)
    /\ files (self st') = files (self st)
    /\ objects st' = objects st.
Proof.
  intros Hwf Hg. unfold delete_function. rewrite (dict_mem_get _ _ _ Hg).
  eexists. split; [reflexivity|]. cbn [self objects files functions set_functions].
  split; [now apply dict_get_del_eq|].
  split; [|split; reflexivity].
  intros k Hk. apply dict_get_del_ne. congruence.
Qed.

Lemma delete_function_removes_witness :
  exists st',
    delete_function "1F" scenario = (st', true)
    /\ dict_get (functions (self st')) "1F" = None
    /\ (forall k, k <> "1F" ->
          dict_get (functions (self st')) k = dict_get (functions (self scenario)) k)
    /\ files (self st') = files (self scenario)
    /\ objects st' = objects scenario.
Proof.
  apply (delete_function_removes scenario "1F"
           (Function.mk "1F" "LOGIN" "Checks the password"
              "File 1 reads, File 2 writes" 0%nat)).
  - repeat constructor. intros []%elem_of_nil.
  - reflexivity.
Defined.

(** [delete_function] on an id that does not exist returns [False] and
    leaves the state as it is. *)
Lemma delete_function_missing st function_id :
  dict_get (functions (self st)) function_id = None ->
  delete_function function_id st = (st, false).
Proof. intros Hg. unfold delete_function, dict_mem. now rewrite Hg. Qed.

(** ** [add_function], again *)



(** ** File descriptions *)

Lemma file_lines_paths fs fs' indices :
  (forall k, ProjectFile.path <$> dict_get fs' k = ProjectFile.path <$> dict_get fs k) ->
  file_lines fs' indices = file_lines fs indices.
Proof.
  intros H. induction indices as [|k ks IH]; [reflexivity|].
  cbn [file_lines]. rewrite IH. unfold dict_item. specialize (H k).
  destruct (dict_get fs' k), (dict_get fs k); try discriminate; [|reflexivity].
  cbn in H. injection H as H. cbn. now rewrite H.
Qed.

(** X6.  The serializer writes no file description: after [edit_file] has
    replaced the description of a file, and whatever description [add_file]
    was given, the serialized text is the same. *)
Theorem descriptions_not_serialized st index path description description' :
  _generate_content (self (fst (edit_file index None (Some description) st)))
  = _generate_content (self st)
  /\ _generate_content (self (fst (add_file path description st)))
     = _generate_content (self (fst (add_file path description' st))).
Proof.
  split.
  - unfold edit_file. destruct (dict_get (files (self st)) index) as [f|] eqn:E;
      [|reflexivity].
    cbn [fst self]. unfold _generate_content.
    cbn [files functions set_files project_name project_description technology
           config_section].
    unfold sorted_file_indices. rewrite dict_keys_set, (dict_mem_get _ _ _ E).
    rewrite (file_lines_paths (files (self st))); [reflexivity|].
    intros k. rewrite dict_get_set. destruct (decide (index = k)) as [<-|]; [|reflexivity].
    now rewrite E.
  - unfold add_file. cbn [fst self]. unfold _generate_content.
    cbn [files functions set_files project_name project_description technology
           config_section].
    unfold sorted_file_indices. rewrite !dict_keys_set.
    match goal with
    | |- context [file_lines (dict_set ?i (ProjectFile.mk ?i path description) ?fs)] =>
        rewrite (file_lines_paths (dict_set i (ProjectFile.mk i path description') fs)
                   (dict_set i (ProjectFile.mk i path description) fs))
    end; [reflexivity|].
    intros k. rewrite !dict_get_set. now destruct (decide _).
Qed.



(** ** The shape of a parsed model *)



(** ** [search_functions] *)

Lemma is_in_app a q b : is_in q (a +:+ q +:+ b) = true.
Proof.
  induction a as [|c a IH].
  - rewrite sapp_nil_l. destruct (q +:+ b) eqn:E; cbn [is_in]; rewrite <- E;
      now rewrite startswith_app.
  - rewrite sapp_cons. cbn [is_in]. rewrite IH. apply orb_true_r.
Qed.

Lemma is_in_nil s : is_in "" s = true.
Proof. now destruct s. Qed.

Lemma is_in_refl s : is_in s s = true.
Proof.
  pose proof (is_in_app "" s "") as H. now rewrite sapp_nil_l, sapp_nil_r in H.
Qed.

Lemma is_in_inv q s : is_in q s = true -> exists a b, s = a +:+ q +:+ b.
Proof.
  induction s as [|c s IH]; cbn [is_in].
  - rewrite orb_false_r. intros [r ->]%startswith_inv. now exists "", r.
  - intros [[r ->]%startswith_inv|H]%orb_prop; [now exists "", r|].
    destruct (IH H) as (a & b & ->). now exists (String c a), b.
Qed.

Lemma is_in_trans q r s : is_in q r = true -> is_in r s = true -> is_in q s = true.
Proof.
  intros (a & b & ->)%is_in_inv (a' & b' & ->)%is_in_inv.
  replace (a' +:+ (a +:+ q +:+ b) +:+ b') with ((a' +:+ a) +:+ q +:+ (b +:+ b'))
    by now rewrite !sapp_assoc.
  apply is_in_app.
Qed.

Lemma filter_sublist {A} (f : A -> bool) l : sublist (List.filter f l) l.
Proof.
  induction l as [|x l IH]; [constructor|]. cbn [List.filter].
  destruct (f x); now constructor.
Qed.

Lemma filter_sublist_impl {A} (f g : A -> bool) l :
  (forall x, f x = true -> g x = true) ->
  sublist (List.filter f l) (List.filter g l).
Proof.
  intros H. induction l as [|x l IH]; [constructor|]. cbn [List.filter].
  destruct (f x) eqn:E.
  - rewrite (H x E). now constructor.
  - destruct (g x); [now constructor|exact IH].
Qed.

(** X10.  [search_functions] returns a sub-list of the function collection,
    in the order of the collection; with the empty query it returns all of
    it; a query whose lower-case form occurs in the
    lower-case form of another query returns every function the other one
    returns; and a function is returned for a query whose lower-case form
    is that of its name, its description or its implementation.  Nothing
    here depends on what [lower] does to a string. *)
Theorem search_functions_narrows st query :
  sublist (search_functions query st) (dict_values (functions (self st)))
  /\ search_functions "" st = dict_values (functions (self st))
  /\ (forall query',
        is_in (lower query) (lower query') = true ->
        sublist (search_functions query' st) (search_functions query st))
  /\ (forall func,
        func ∈ dict_values (functions (self st)) ->
        lower query = lower (Function.name func)
        \/ lower query = lower (Function.description func)
        \/ lower query = lower (Function.implementation func) ->
        func ∈ search_functions query st).
Proof.
  unfold search_functions. split; [apply filter_sublist|]. split; [|split].
  - cbn [lower]. induction (dict_values (functions (self st))) as [|f l IH];
      [reflexivity|].
    cbn [List.filter]. rewrite is_in_nil. cbn [orb]. now rewrite IH.
  - intros query' Hq. apply filter_sublist_impl. intros func Hf.
    apply orb_prop in Hf as [[Hf|Hf]%orb_prop|Hf];
      rewrite (is_in_trans _ _ _ Hq Hf), ?orb_true_r; reflexivity.
  - intros func Hin Hq. apply list_elem_of_In, filter_In.
    split; [now apply list_elem_of_In|].
    destruct Hq as [-> |[-> | ->]]; rewrite is_in_refl, ?orb_true_r; reflexivity.
Qed.

(** ** [_get_default_patterns] *)

Lemma contains_remove_char_eq c s : contains c (remove_char c s) = false.
Proof.
  induction s as [|a s IH]; [reflexivity|]. simpl.
  destruct (Ascii.eqb a c) eqn:E; [assumption|]. simpl. now rewrite E.
Qed.

Lemma contains_remove_char c d s :
  contains c s = false -> contains c (remove_char d s) = false.
Proof.
  induction s as [|a s IH]; [reflexivity|]. simpl.
  intros [Ha Hs]%orb_false_elim. destruct (Ascii.eqb a d); simpl; [auto|].
  rewrite Ha. auto.
Qed.

(** X11.  The key [_get_default_patterns] looks up has no hyphen, so the entry
    ["browser-extension"] of its table is never found: the function
    returns the JavaScript list when the key is [javascript], the Python
    list when it is [python], and the list for unknown technologies in
    every other case; it never raises. *)
Theorem default_patterns_never_browser_extension technology :
  exists patterns,
    _get_default_patterns technology = Ok patterns
    /\ patterns <> ["*.zip"; "*.crx"; "web-ext-artifacts/**"]
    /\ patterns
       = if bool_decide (pattern_key technology = "javascript")
         then ["node_modules/**"; "*.log"; ".env*"; "dist/**"; "build/**"]
         else if bool_decide (pattern_key technology = "python")
         then ["__pycache__/**"; "*.pyc"; "venv/**"; "*.egg-info/**"; ".pytest_cache/**"]
         else ["*.log"; ".env*"; ".DS_Store"; "Thumbs.db"; ".vscode/**"; ".idea/**"].
Proof.
  assert (pattern_key technology <> "browser-extension") as Hkey.
  { intros He.
    assert (contains "-" (pattern_key technology) = false) as Hc
      by apply contains_remove_char, contains_remove_char_eq.
    now rewrite He in Hc. }
  unfold _get_default_patterns.
  change (dict_item default_patterns "unknown")
    with (Ok (A := list string)
            ["*.log"; ".env*"; ".DS_Store"; "Thumbs.db"; ".vscode/**"; ".idea/**"]).
  cbn [mbind result_bind mret result_ret].
  eexists. split; [reflexivity|].
  unfold default_patterns. cbn [dict_get].
  destruct (decide (pattern_key technology = "javascript")) as [E|E].
  { rewrite (bool_decide_true _ E). split; [discriminate|reflexivity]. }
  rewrite (bool_decide_false _ E).
  destruct (decide (pattern_key technology = "python")) as [E1|E1].
  { rewrite (bool_decide_true _ E1). split; [discriminate|reflexivity]. }
  rewrite (bool_decide_false _ E1).
  destruct (decide (pattern_key technology = "browser-extension")); [contradiction|].
  destruct (decide (pattern_key technology = "unknown")); split;
    (discriminate || reflexivity).
Qed.

(** ** Deleting and renumbering files in a valid model *)












(** ** When the id conversion fails *)

Lemma numeric_ids_length ks ns : numeric_ids ks = Ok ns -> length ns = length ks.
Proof.
  revert ns. induction ks as [|k ks IH]; intros ns; simpl.
  - now intros [= <-].
  - destruct (numeric_id k); [|discriminate]. simpl.
    destruct (numeric_ids ks) as [ms|]; [|discriminate]. simpl.
    intros [= <-]. simpl. now rewrite (IH ms).
Qed.

Lemma snd_zip_length {A B} (l : list A) (k : list B) :
  length l = length k -> map snd (zip l k) = k.
Proof.
  revert k. induction l as [|x l IH]; intros [|y k]; simpl; try discriminate;
    [reflexivity|].
  intros [= H]. now rewrite IH.
Qed.


(** ** [reorder_files], again *)













(** ** The round trip, with the metadata *)














(** ** Reading a generated document

    [ProjectFileGenerator._build_content] of [project_scanner.py] writes the
    document that [_parse_content] reads. *)








Lemma id_number_str i : 0 <= i -> id_number (str i +:+ "F") = i.
Proof.
  intros Hi. unfold id_number. destruct (str_digits i Hi) as [Hd Hne].
  destruct (take_digits_app (str i) "F" "" Hd eq_refl) as [-> _].
  now apply digits_value_str.
Qed.









(** ** The round trip of a model without functions *)



























(** ** The round trip of a model with functions loses the configuration *)












(** ** What saving and loading undo

    The serializer writes the implementation text of a function, not its
    list of file references; the parser builds the list from the text.
    What [delete_file] and [reorder_files] do to the lists is therefore
    gone after saving and loading. *)












(** ** Loading into a manager that holds a model *)

Lemma deref_app_r h o l : deref (h ++ o) (length h + l) = deref o l.
Proof.
  unfold deref. rewrite lookup_app_r by lia. do 2 f_equal. lia.
Qed.

Lemma truthy_app_r s t : truthy t = true -> truthy (s +:+ t) = true.
Proof.
  intros Ht. destruct s as [|c s]; [now rewrite sapp_nil_l|]. now rewrite sapp_cons.
Qed.

Lemma truthy_app_l s t : truthy s = true -> truthy (s +:+ t) = true.
Proof. destruct s as [|c s]; [discriminate|]. now rewrite sapp_cons. Qed.

Ltac overlaid_fields :=
  unfold overlaid;
  cbn [sc_objects sc_self current_function current_section with_self with_section
         with_function set_files set_functions set_project_name
         set_project_description set_technology set_config_section config_section
         files functions fmap option_fmap option_map].

Lemma overlaid_save_current st0 sc1 sc2 :
  overlaid st0 sc1 sc2 ->
  forall k, dict_get (functions (sc_self (save_current sc2))) k
            = match dict_get (functions (sc_self (save_current sc1))) k with
              | Some f => Some (shift_function (length (objects st0)) f)
              | None => dict_get (functions (self st0)) k
              end.
Proof.
  intros (Ho & Hs & Hc & Hf & Hn & Hcfg & Ht) k. unfold save_current. rewrite Hc.
  destruct (current_function sc1) as [p|]; [|apply Hn].
  cbn [fmap option_fmap option_map with_self sc_self save_function functions
         set_functions shift_pending p_id p_name p_description p_implementation p_files].
  rewrite !dict_get_set. destruct (decide (p_id p = k)); [reflexivity|apply Hn].
Qed.

Lemma overlaid_step_line st0 line sc1 sc2 :
  overlaid st0 sc1 sc2 -> overlaid st0 (step_line line sc1) (step_line line sc2).
Proof.
  intros Hov. pose proof Hov as (Ho & Hs & Hc & Hf & Hn & Hcfg & Ht).
  assert (forall s, in_section s sc2 = in_section s sc1) as Hin
    by (intros s; unfold in_section; now rewrite Hs).
  unfold step_line. rewrite !Hin.
  destruct (startswith "Project:" line);
    [overlaid_fields; repeat (split; [assumption|]); assumption|].
  destruct (startswith "Description:" line);
    [overlaid_fields; repeat (split; [assumption|]); assumption|].
  destruct (startswith "technology:" line);
    [overlaid_fields; repeat (split; [assumption|]); assumption|].
  destruct (bool_decide (line = "PROJECT FILES INDEX:")).
  { overlaid_fields. repeat (split; [assumption || reflexivity|]). intros [=]. }
  destruct (in_section files_sec sc1 && truthy line
            && negb (startswith "All functions:" line)).
  { destruct (re_match_digits "." line); [|exact Hov].
    unfold add_parsed_file. overlaid_fields.
    repeat (split; [assumption|]). split; [|repeat (split; [assumption|]); assumption].
    intros k. rewrite !dict_get_set. destruct (decide _); [reflexivity|apply Hf]. }
  destruct (bool_decide (line = "All functions:")).
  { overlaid_fields. repeat (split; [assumption || reflexivity|]). intros [=]. }
  destruct (in_section functions_sec sc1 && is_header line).
  { unfold new_function. overlaid_fields.
    destruct (save_current_frame sc1) as (O1 & F1 & S1).
    destruct (save_current_frame sc2) as (O2 & F2 & S2).
    rewrite O1, O2, S1, S2, Ho, F1, F2.
    split; [now rewrite <- List.app_assoc|]. split; [assumption|].
    split; [unfold shift_pending; cbn; now rewrite length_app|].
    split; [assumption|]. split; [now apply overlaid_save_current|].
    assert (config_section (sc_self (save_current sc1)) = config_section (sc_self sc1)
            /\ config_section (sc_self (save_current sc2)) = config_section (sc_self sc2))
      as [-> ->] by (unfold save_current; destruct (current_function sc1),
                       (current_function sc2); now split).
    split; assumption. }
  rewrite Hc.
  assert (overlaid st0 (config_step line sc1) (config_step line sc2)) as Hconfig.
  { unfold config_step. rewrite Hin.
    destruct (startswith config_trigger line).
    - overlaid_fields. repeat (split; [assumption || reflexivity|]).
      rewrite truthy_app_r by reflexivity. split; [reflexivity|]. intros _. reflexivity.
    - destruct (in_section config_sec sc1) eqn:E; [|exact Hov].
      unfold in_section in E. apply bool_decide_eq_true in E. specialize (Ht E).
      overlaid_fields. repeat (split; [assumption|]).
      rewrite Ht in Hcfg. rewrite Hcfg, truthy_app_l by assumption.
      split; [reflexivity|]. intros _. reflexivity. }
  destruct (current_function sc1) as [p|] eqn:Ep; [|exact Hconfig].
  cbn [fmap option_fmap option_map].
  destruct (truthy line && negb (is_header line)); [|exact Hconfig].
  unfold accumulate_step.
  cbn [shift_pending p_id p_name p_description p_implementation p_files].
  destruct (negb (truthy (p_description p)) && negb (startswith "Implementation:" line)).
  { overlaid_fields. repeat (split; [assumption || reflexivity|]). assumption. }
  destruct (startswith "Implementation:" line).
  { unfold overlaid. rewrite Hc, Ep. repeat (split; [assumption || reflexivity|]).
    assumption. }
  overlaid_fields. split.
  { destruct (startswith "File " line); [|assumption].
    rewrite Ho, deref_app_r. apply insert_app_r. }
  repeat (split; [assumption || reflexivity|]). assumption.
Qed.

Lemma deref_alloc_old_app h o l : (l < length h)%nat -> deref (h ++ o) l = deref h l.
Proof. intros Hl. unfold deref. now rewrite lookup_app_l. Qed.

Lemma overlaid_fold st0 raws : forall sc1 sc2,
  overlaid st0 sc1 sc2 ->
  overlaid st0 (fold_left step raws sc1) (fold_left step raws sc2).
Proof.
  induction raws as [|raw raws IH]; intros sc1 sc2 H; [exact H|].
  cbn [fold_left]. apply IH. now apply overlaid_step_line.
Qed.

Lemma overlaid_start st0 : overlaid st0 (start (mkState [] init)) (start st0).
Proof.
  unfold overlaid, start. cbn. rewrite List.app_nil_r.
  repeat (split; [reflexivity|]). intros [=].
Qed.

(** What [_parse_content] leaves in a manager that held the state [st]:
    the model of the text laid over the model of [st]. *)
Lemma parse_content_overlay content st :
  exists st',
    _parse_content content st = Ok st'
    /\ objects st' = objects st ++ objects (parsed content)
    /\ (forall k, dict_get (files (self st')) k
                  = match dict_get (files (self (parsed content))) k with
                    | Some f => Some f
                    | None => dict_get (files (self st)) k
                    end)
    /\ (forall k, dict_get (functions (self st')) k
                  = match dict_get (functions (self (parsed content))) k with
                    | Some f => Some (shift_function (length (objects st)) f)
                    | None => dict_get (functions (self st)) k
                    end)
    /\ config_section (self st')
       = (if truthy (config_section (self (parsed content)))
          then config_section (self (parsed content)) else config_section (self st))
    /\ project_name (self st')
       = List.last (header_values "Project:" content) (project_name (self st))
    /\ project_description (self st')
       = List.last (header_values "Description:" content) (project_description (self st))
    /\ technology (self st')
       = List.last (header_values "technology:" content) (technology (self st)).
Proof.
  eexists. split; [apply _parse_content_finish|].
  pose proof (overlaid_fold st (split newline content) _ _ (overlaid_start st)) as Hov.
  unfold parsed.
  set (sc1 := fold_left step (split newline content) (start (mkState [] init))) in *.
  set (sc2 := fold_left step (split newline content) (start st)) in *.
  pose proof (overlaid_save_current st sc1 sc2 Hov) as Hfn.
  destruct Hov as (Ho & _ & _ & Hf & _ & Hcfg & _).
  destruct (finish_fields sc1) as (_ & _ & _ & -> & ->).
  destruct (finish_fields sc2) as (-> & -> & -> & -> & ->).
  destruct (save_current_frame sc1) as (O1 & _ & _).
  destruct (save_current_frame sc2) as (O2 & _ & _).
  unfold finish. cbn [self objects]. rewrite O1, O2.
  split; [exact Ho|]. split; [exact Hf|]. split; [exact Hfn|]. split; [exact Hcfg|].
  subst sc2. unfold header_values.
  rewrite (fold_field "Project:" project_name step_line_project_name),
    (fold_field "Description:" project_description step_line_project_description),
    (fold_field "technology:" technology step_line_technology).
  repeat split.
Qed.




(** * The conversions under the digit limit *)

(** ** Runs of digits *)

Lemma longest_digits_ge n s : (n <= Limited.longest_digits n s)%nat.
Proof.
  revert n. induction s as [|c s IH]; intros n; simpl; [lia|].
  destruct (isdigit c); [specialize (IH (S n))|]; lia.
Qed.

Lemma longest_digits_mono n m s :
  (n <= m)%nat -> (Limited.longest_digits n s <= Limited.longest_digits m s)%nat.
Proof.
  revert n m. induction s as [|c s IH]; intros n m Hnm; simpl; [lia|].
  destruct (isdigit c); [apply IH|]; lia.
Qed.

(** The longest run of a part of a string is no longer than that of the
    string. *)
Lemma longest_digits_suffix n a b :
  (Limited.longest_digits 0 b <= Limited.longest_digits n (a +:+ b))%nat.
Proof.
  revert n. induction a as [|c a IH]; intros n.
  - rewrite sapp_nil_l. apply longest_digits_mono. lia.
  - rewrite sapp_cons. simpl. destruct (isdigit c); [apply IH|].
    specialize (IH 0%nat). lia.
Qed.

Lemma longest_digits_prefix n a b :
  (Limited.longest_digits n a <= Limited.longest_digits n (a +:+ b))%nat.
Proof.
  revert n. induction a as [|c a IH]; intros n.
  - rewrite sapp_nil_l. apply longest_digits_ge.
  - rewrite sapp_cons. simpl. destruct (isdigit c); [apply IH|].
    specialize (IH 0%nat). lia.
Qed.

Lemma longest_digits_part a u b :
  (Limited.longest_digits 0 u <= Limited.longest_digits 0 (a +:+ u +:+ b))%nat.
Proof.
  pose proof (longest_digits_suffix 0 a (u +:+ b)).
  pose proof (longest_digits_prefix 0 u b). lia.
Qed.

Lemma longest_digits_all n d :
  all_digits d = true -> Limited.longest_digits n d = (n + String.length d)%nat.
Proof.
  revert n. induction d as [|c d IH]; intros n; simpl; [lia|].
  intros [Hc Hd]%andb_prop. rewrite Hc, (IH _ Hd). lia.
Qed.

Lemma count_digits_all d : all_digits d = true -> Limited.count_digits d = String.length d.
Proof.
  induction d as [|c d IH]; simpl; [reflexivity|].
  intros [Hc Hd]%andb_prop. now rewrite Hc, (IH Hd).
Qed.

Lemma part_of_refl s : part_of s s.
Proof. exists "", "". now rewrite sapp_nil_l, sapp_nil_r. Qed.

Lemma part_of_trans u v s : part_of u v -> part_of v s -> part_of u s.
Proof.
  intros (a & b & ->) (a' & b' & ->). exists (a' +:+ a), (b +:+ b').
  now rewrite !sapp_assoc.
Qed.

Lemma part_of_tail c u s : part_of u s -> part_of u (String c s).
Proof. intros (a & b & ->). exists (String c a), b. reflexivity. Qed.

Lemma part_of_head c u s : part_of (String c u) (String c (u +:+ s)).
Proof. exists "", s. reflexivity. Qed.

Lemma digits_fit_part u s :
  part_of u s -> Limited.digits_fit s = true -> Limited.digits_fit u = true.
Proof.
  intros (a & b & ->) H. unfold Limited.digits_fit in *.
  apply Nat.leb_le in H. apply Nat.leb_le.
  pose proof (longest_digits_part a u b). lia.
Qed.

(** A number written in a text that fits is within the limit. *)
Lemma within_limit_part d s :
  all_digits d = true -> part_of d s -> Limited.digits_fit s = true ->
  Limited.within_limit d = true.
Proof.
  intros Hd Hp Hs. pose proof (digits_fit_part d s Hp Hs) as H.
  unfold Limited.digits_fit, Limited.within_limit in *.
  rewrite (longest_digits_all 0 d Hd) in H. now rewrite (count_digits_all d Hd).
Qed.

Lemma part_of_lstrip s : part_of (lstrip s) s.
Proof.
  induction s as [|c s IH]; [apply part_of_refl|]. simpl.
  destruct (isspace c); [now apply part_of_tail|apply part_of_refl].
Qed.

Lemma rstrip_prefix s : exists b, s = rstrip s +:+ b.
Proof.
  induction s as [|c s [b IH]]; [now exists ""|]. simpl.
  destruct (rstrip s) as [|a t] eqn:E.
  - destruct (isspace c).
    + exists (String c s). reflexivity.
    + exists b. rewrite sapp_cons. f_equal. exact IH.
  - exists b. rewrite sapp_cons. f_equal. exact IH.
Qed.

Lemma part_of_strip s : part_of (strip s) s.
Proof.
  apply (part_of_trans _ (lstrip s)); [|apply part_of_lstrip].
  unfold strip. destruct (rstrip_prefix (lstrip s)) as [b Hb].
  exists "", b. now rewrite sapp_nil_l.
Qed.

Lemma part_of_take_digits s : part_of (take_digits s) s.
Proof. exists "", (drop_digits s). rewrite sapp_nil_l. symmetry. apply take_drop_digits. Qed.

Lemma part_of_drop_chars k s : part_of (drop_chars k s) s.
Proof.
  revert s. induction k as [|k IH]; intros s; [apply part_of_refl|].
  destruct s as [|c s]; [apply part_of_refl|]. simpl. apply part_of_tail, IH.
Qed.

Lemma findall_File_go_part k s :
  Forall (fun r => part_of r s) (findall_File_go k s).
Proof.
  revert k. induction s as [|c s IH]; intros k; [constructor|].
  assert (forall j, Forall (fun r => part_of r (String c s)) (findall_File_go j s)) as Ht.
  { intros j. eapply Forall_impl; [apply IH|]. intros r Hr. now apply part_of_tail. }
  cbn [findall_File_go]. destruct k; [|apply Ht].
  destruct (startswith "File " (String c s)); [|apply Ht].
  destruct (take_digits (drop_chars 4 s)) eqn:E; [apply Ht|].
  constructor; [|apply Ht]. rewrite <- E. apply part_of_tail.
  apply (part_of_trans _ (drop_chars 4 s));
    [apply part_of_take_digits|apply part_of_drop_chars].
Qed.

Lemma split_head_prefix sep s h t : split sep s = h :: t -> exists b, s = h +:+ b.
Proof.
  revert h t. induction s as [|c s IH]; intros h t; simpl.
  - intros [= <- <-]. now exists "".
  - destruct (Ascii.eqb c sep); [intros [= <- <-]; now exists (String c s)|].
    destruct (split sep s) as [|h' t'] eqn:E.
    + intros [= <- <-]. now destruct (split_not_nil sep s).
    + intros [= <- <-]. destruct (IH h' t' eq_refl) as [b Hb].
      exists b. rewrite sapp_cons. now f_equal.
Qed.

Lemma split_part sep s : Forall (fun l => part_of l s) (split sep s).
Proof.
  induction s as [|c s IH]; [repeat constructor; apply part_of_refl|]. simpl.
  destruct (Ascii.eqb c sep).
  - constructor.
    + exists "", (String c s). reflexivity.
    + eapply Forall_impl; [exact IH|]. intros l Hl. now apply part_of_tail.
  - destruct (split sep s) as [|h t] eqn:E; [now destruct (split_not_nil sep s)|].
    apply Forall_cons in IH as [_ Ht]. constructor.
    + destruct (split_head_prefix sep s h t E) as [b ->]. apply part_of_head.
    + eapply Forall_impl; [exact Ht|]. intros l Hl. now apply part_of_tail.
Qed.

Lemma digits_fit_lines content :
  Limited.digits_fit content = true ->
  Forall (fun raw => Limited.digits_fit raw = true) (split newline content).
Proof.
  intros H. eapply Forall_impl; [apply split_part|].
  intros l Hl. now apply (digits_fit_part l content).
Qed.

(** ** The conversions *)

Lemma int_within s : Limited.within_limit s = true -> Limited.int s = int s.
Proof. unfold Limited.int. now intros ->. Qed.

Lemma int_raises_value s e : int s = Raise e -> e = ValueError.
Proof.
  unfold int, int_unsigned.
  destruct (int_rstrip (int_lstrip s)) as [|[[] [] [] [] [] [] [] []] r]; cbn;
    repeat match goal with
           | |- context [if ?b then _ else _] => destruct b
           | |- context [match ?o with Some _ => _ | None => _ end] => destruct o
           end; cbn; congruence.
Qed.

Lemma limited_int_cases s :
  Limited.int s = int s \/ Limited.int s = Raise ValueError /\ Limited.within_limit s = false.
Proof. unfold Limited.int. destruct (Limited.within_limit s); auto. Qed.

Lemma limited_ints_cases refs :
  Limited.ints refs = ints refs
  \/ Limited.ints refs = Raise ValueError
     /\ Exists (fun r => Limited.within_limit r = false) refs.
Proof.
  induction refs as [|r refs IH]; [now left|]. cbn [Limited.ints ints].
  destruct (limited_int_cases r) as [->|[-> Hr]]; [|right; split; [reflexivity|now left]].
  destruct (int r) as [n|e] eqn:E.
  - cbn. destruct IH as [->|[-> Hx]]; [now left|]. right. split; [reflexivity|now right].
  - left. reflexivity.
Qed.
(** ** [_parse_content] under the limit *)

Lemma digits_unfit d s :
  all_digits d = true -> part_of d s -> Limited.within_limit d = false ->
  Limited.digits_fit s = false.
Proof.
  intros Hd Hp Hw. destruct (Limited.digits_fit s) eqn:E; [|reflexivity].
  rewrite (within_limit_part d s Hd Hp E) in Hw. discriminate.
Qed.

Lemma limited_accumulate raw line p sc :
  current_function sc = Some p -> part_of line raw ->
  Limited.accumulate line sc = Ok (accumulate_step line p sc)
  \/ Limited.accumulate line sc = Raise ValueError /\ Limited.digits_fit raw = false.
Proof.
  intros Hp Hraw. unfold Limited.accumulate, accumulate_step. rewrite Hp.
  destruct (negb (truthy (p_description p)) && negb (startswith "Implementation:" line));
    [now left|].
  destruct (startswith "Implementation:" line); [now left|].
  destruct (startswith "File " line); [|now left].
  destruct (limited_ints_cases (findall_File line)) as [->|[-> Hx]].
  - rewrite ints_findall. now left.
  - right. split; [reflexivity|].
    apply Exists_exists in Hx as (r & Hin & Hr).
    pose proof (findall_File_go_digits 0 line) as Hd.
    pose proof (findall_File_go_part 0 line) as Hpart.
    rewrite Forall_forall in Hd, Hpart.
    apply (digits_unfit r); [apply (Hd r Hin)| |exact Hr].
    apply (part_of_trans _ line); [apply (Hpart r Hin)|exact Hraw].
Qed.

(** One pass of the loop under the limit does what [step] does, or raises
    [ValueError] on a line that holds a number of too many digits. *)
Lemma limited_parse_line raw sc :
  Limited.parse_line raw sc = Ok (step sc raw)
  \/ Limited.parse_line raw sc = Raise ValueError /\ Limited.digits_fit raw = false.
Proof.
  pose proof (part_of_strip raw) as Hraw.
  unfold Limited.parse_line, step, step_line, field_value.
  set (line := strip raw) in *.
  destruct (startswith "Project:" line) eqn:E1.
  { destruct (item_split1 ":" line) as (_ & -> & _); [|now left].
    now apply (startswith_contains "Project:"). }
  destruct (startswith "Description:" line) eqn:E2.
  { destruct (item_split1 ":" line) as (_ & -> & _); [|now left].
    now apply (startswith_contains "Description:"). }
  destruct (startswith "technology:" line) eqn:E3.
  { destruct (item_split1 ":" line) as (_ & -> & _); [|now left].
    now apply (startswith_contains "technology:"). }
  destruct (bool_decide (line = "PROJECT FILES INDEX:")); [now left|].
  destruct (in_section files_sec sc && truthy line
            && negb (startswith "All functions:" line)).
  { destruct (re_match_digits "." line) eqn:E5; [|now left].
    destruct (re_match_digits_split "." "." "" line eq_refl eq_refl E5)
      as (Hin & Hb & Hne & Hd).
    destruct (item_split1 "." line Hin) as (-> & -> & ->).
    rewrite bool_decide_true by reflexivity. unfold add_parsed_file.
    cbn [mbind result_bind]. rewrite Hb.
    destruct (limited_int_cases (take_digits line)) as [->|[-> Hw]].
    - rewrite int_digits by assumption. now left.
    - right. split; [reflexivity|].
      apply (digits_unfit (take_digits line)); [exact Hd| |exact Hw].
      apply (part_of_trans _ line); [apply part_of_take_digits|exact Hraw]. }
  destruct (bool_decide (line = "All functions:")); [now left|].
  destruct (in_section functions_sec sc && is_header line) eqn:E7.
  { apply andb_prop in E7 as [_ E7].
    apply re_match_digits_inv in E7 as (t & Hs & _).
    assert (contains "." line = true) as Hin.
    { rewrite Hs, !contains_app. simpl. now rewrite orb_true_r. }
    destruct (item_split1 "." line Hin) as (-> & -> & _). now left. }
  destruct (current_function sc) as [p|] eqn:Ep.
  - rewrite bool_decide_true by eauto. simpl andb.
    destruct (truthy line && negb (is_header line)).
    + now apply (limited_accumulate raw).
    + unfold config_step.
      destruct (startswith config_trigger line); [now left|].
      destruct (in_section config_sec sc); now left.
  - rewrite bool_decide_false by (intros [? [=]]). simpl andb.
    unfold config_step.
    destruct (startswith config_trigger line); [now left|].
    destruct (in_section config_sec sc); now left.
Qed.

Lemma limited_parse_lines lines sc :
  Limited.parse_lines lines sc = Ok (fold_left step lines sc)
  \/ Limited.parse_lines lines sc = Raise ValueError
     /\ Exists (fun raw => Limited.digits_fit raw = false) lines.
Proof.
  revert sc. induction lines as [|raw lines IH]; intros sc; [now left|].
  cbn [Limited.parse_lines fold_left].
  destruct (limited_parse_line raw sc) as [->|[-> Hr]].
  - cbn. destruct (IH (step sc raw)) as [->|[-> Hx]]; [now left|].
    right. split; [reflexivity|now right].
  - right. split; [reflexivity|now left].
Qed.

(** Under the limit [_parse_content] returns what it returns without the
    limit, or raises [ValueError] on a text that holds a number of too many
    digits. *)
Lemma limited_parse_content content st :
  Limited._parse_content content st = _parse_content content st
  \/ Limited._parse_content content st = Raise ValueError
     /\ Limited.digits_fit content = false.
Proof.
  rewrite _parse_content_finish. unfold Limited._parse_content. fold (start st).
  destruct (limited_parse_lines (split newline content) (start st)) as [->|[-> Hx]];
    [now left|].
  right. split; [reflexivity|].
  destruct (Limited.digits_fit content) eqn:E; [|reflexivity].
  apply Exists_exists in Hx as (raw & Hin & Hr).
  pose proof (digits_fit_lines content E) as Hall. rewrite Forall_forall in Hall.
  rewrite (Hall raw Hin) in Hr. discriminate.
Qed.

Lemma limited_parse_content_fit content st :
  Limited.digits_fit content = true ->
  Limited._parse_content content st = _parse_content content st.
Proof.
  intros H. destruct (limited_parse_content content st) as [E|[_ E]]; [exact E|].
  congruence.
Qed.






(** A line of the file index that starts with [All functions:] and goes on
    is taken for a line of the function that is being accumulated. *)
Lemma section_line_with_tail_kept :
  let content :=
    text ["All functions:"; "1F. LOGIN"; "Checks the password";
          "PROJECT FILES INDEX:"; "All functions: none"] in
  exists st,
    Limited.parse content = Ok st
    /\ function_view st "1F"
       = Some ("1F", "LOGIN", "Checks the password", "All functions: none", []).
Proof. eexists. split; reflexivity. Qed.
(** ** [add_function] under the limit *)

Lemma count_digits_app a b :
  Limited.count_digits (a +:+ b) = (Limited.count_digits a + Limited.count_digits b)%nat.
Proof.
  induction a as [|c a IH]; [reflexivity|]. rewrite sapp_cons. simpl.
  destruct (isdigit c); lia.
Qed.

Lemma count_digits_remove c s :
  isdigit c = false -> Limited.count_digits (remove_char c s) = Limited.count_digits s.
Proof.
  intros Hc. induction s as [|a s IH]; [reflexivity|]. simpl.
  destruct (Ascii.eqb_spec a c) as [->|]; [now rewrite Hc|].
  simpl. now rewrite IH.
Qed.

Lemma within_limit_remove_F k :
  Limited.within_limit (remove_char "F" k) = Limited.within_limit k.
Proof. unfold Limited.within_limit. now rewrite count_digits_remove. Qed.

Lemma within_limit_id n : formats n -> Limited.within_limit (str n +:+ "F") = true.
Proof.
  unfold formats, Limited.within_limit. rewrite count_digits_app.
  change (Limited.count_digits "F") with 0%nat. now rewrite Nat.add_0_r.
Qed.

Lemma limited_numeric_id_cases k :
  Limited.numeric_id k = numeric_id k
  \/ Limited.numeric_id k = Raise ValueError /\ Limited.within_limit k = false.
Proof.
  unfold Limited.numeric_id, numeric_id.
  destruct (limited_int_cases (remove_char "F" k)) as [->|[-> H]]; [now left|].
  right. now rewrite within_limit_remove_F in H.
Qed.

Lemma limited_numeric_ids_cases ks :
  Limited.numeric_ids ks = numeric_ids ks
  \/ Limited.numeric_ids ks = Raise ValueError
     /\ Exists (fun k => Limited.within_limit k = false) ks.
Proof.
  induction ks as [|k ks IH]; [now left|]. cbn [Limited.numeric_ids numeric_ids].
  destruct (limited_numeric_id_cases k) as [->|[-> Hk]];
    [|right; split; [reflexivity|now left]].
  destruct (numeric_id k) as [n|e]; [|now left].
  cbn. destruct IH as [->|[-> Hx]]; [now left|]. right. split; [reflexivity|now right].
Qed.

Lemma limited_numeric_ids_fit ks :
  Forall (fun k => Limited.within_limit k = true) ks ->
  Limited.numeric_ids ks = numeric_ids ks.
Proof.
  intros H. destruct (limited_numeric_ids_cases ks) as [E|[_ Hx]]; [exact E|].
  apply Exists_exists in Hx as (k & Hin & Hk). rewrite Forall_forall in H.
  rewrite (H k Hin) in Hk. discriminate.
Qed.

Lemma numeric_ids_raises_value ks e : numeric_ids ks = Raise e -> e = ValueError.
Proof.
  induction ks as [|k ks IH]; [discriminate|]. cbn [numeric_ids].
  destruct (numeric_id k) as [n|e'] eqn:E.
  - cbn. destruct (numeric_ids ks); [discriminate|]. cbn. intros [= <-]. now apply IH.
  - cbn. intros [= <-]. now apply (int_raises_value _ _ E).
Qed.

Lemma limited_numeric_ids_raises ks e :
  Limited.numeric_ids ks = Raise e -> e = ValueError.
Proof.
  destruct (limited_numeric_ids_cases ks) as [->|[-> _]];
    [apply numeric_ids_raises_value|congruence].
Qed.

Lemma limited_str_formats n : formats n -> Limited.str n = Ok (str n).
Proof. unfold formats, Limited.str. now intros ->. Qed.

Lemma limited_str_cases n :
  Limited.str n = Ok (str n) /\ formats n
  \/ Limited.str n = Raise ValueError /\ ~ formats n.
Proof.
  unfold Limited.str, formats. destruct (Limited.within_limit (str n)); [now left|].
  right. split; [reflexivity|discriminate].
Qed.

Lemma warn_missing_cases fs l :
  Limited.warn_missing fs l = Ok () /\ Forall (warns fs) l
  \/ Limited.warn_missing fs l = Raise ValueError /\ ~ Forall (warns fs) l.
Proof.
  induction l as [|x l IH]; [left; split; [reflexivity|constructor]|].
  cbn [Limited.warn_missing]. destruct (dict_mem fs x) eqn:Hx.
  - cbn. destruct IH as [[-> Hl]|[-> Hl]].
    + left. split; [reflexivity|]. constructor; [|exact Hl]. unfold warns. congruence.
    + right. split; [reflexivity|]. intros [_ H]%Forall_cons. now apply Hl.
  - destruct (limited_str_cases x) as [[-> Hf]|[-> Hf]].
    + cbn. destruct IH as [[-> Hl]|[-> Hl]].
      * left. split; [reflexivity|]. constructor; [|exact Hl]. now intros _.
      * right. split; [reflexivity|]. intros [_ H]%Forall_cons. now apply Hl.
    + right. split; [reflexivity|]. intros [H _]%Forall_cons. apply Hf. now apply H.
Qed.

Lemma max_or_zero_nonneg ns : 0 <= max_or_zero ns.
Proof. unfold max_or_zero. induction ns; simpl; lia. Qed.

Lemma max_or_zero_snoc ns x : max_or_zero (ns ++ [x]) = Z.max (max_or_zero ns) x.
Proof.
  unfold max_or_zero. induction ns as [|n ns IH]; simpl; [lia|]. rewrite IH. lia.
Qed.

(** What [add_function] does where every conversion is within the limit,
    in a model whose function ids are of the form digits-then-[F]: the new
    function goes last, under the id [str(top + 1) + "F"]. *)
Lemma limited_add_function_runs st name description implementation files_involved :
  Forall (fun k => is_function_id k = true) (dict_keys (functions (self st))) ->
  add_function_fits files_involved st ->
  let new_id :=
    str (max_or_zero (map id_number (dict_keys (functions (self st)))) + 1) +:+ "F" in
  Limited.add_function name description implementation files_involved st
  = Ok ({| objects := match files_involved with
                      | Some _ => objects st
                      | None => objects st ++ [[]]
                      end;
           self := set_functions
                     (functions (self st)
                      ++ [(new_id,
                           Function.mk new_id name description implementation
                             (match files_involved with
                              | Some l => l
                              | None => length (objects st)
                              end))])
                     (self st) |}, new_id)
  /\ (new_id ∉ dict_keys (functions (self st)))
  /\ is_function_id new_id = true
  /\ Limited.within_limit new_id = true.
Proof.
  intros Hwf (Hids & Hnew & Hwarn) new_id.
  set (top := max_or_zero (map id_number (dict_keys (functions (self st))))) in *.
  pose proof (max_or_zero_nonneg (map id_number (dict_keys (functions (self st)))))
    as Htop. fold top in Htop.
  assert (new_id ∉ dict_keys (functions (self st))) as Hfresh.
  { intros Hin.
    assert (numeric_id new_id = Ok (id_number new_id)) as Hn.
    { apply numeric_id_wf. rewrite Forall_forall in Hwf. now apply Hwf. }
    subst new_id. rewrite numeric_id_str in Hn. injection Hn as Hn.
    assert (id_number (str (top + 1) +:+ "F") <= top); [|lia].
    apply max_or_zero_ge, list_elem_of_fmap. eauto. }
  split; [|split; [exact Hfresh|split]].
  - unfold Limited.add_function.
    rewrite (limited_numeric_ids_fit _ Hids), (numeric_ids_wf _ Hwf).
    rewrite <- (dict_set_absent _ _ _ Hfresh).
    assert (forall h l,
              deref h l = entries files_involved st ->
              Limited.warn_missing (files (self st)) (deref h l) = Ok ()) as Hw.
    { intros h l ->. destruct (warn_missing_cases (files (self st))
                                 (entries files_involved st)) as [[E _]|[_ E]];
        [exact E|contradiction]. }
    cbn [mbind result_bind]. subst new_id top.
    destruct (dict_keys (functions (self st))) as [|k ks] eqn:Ek.
    + destruct files_involved as [l|]; cbn [alloc]; cbn [mbind result_bind map];
        rewrite Hw; try reflexivity. apply deref_alloc.
    + rewrite <- (max_list_nonneg (map id_number (k :: ks))) in *
        by (discriminate || apply id_number_nonneg).
      rewrite (limited_str_formats _ Hnew).
      destruct files_involved as [l|]; cbn [alloc];
        cbn [mbind result_bind mret result_ret map];
        rewrite Hw; try reflexivity. apply deref_alloc.
  - destruct (str_digits (top + 1)) as [Hd Hne]; [lia|].
    now apply is_function_id_make.
  - now apply within_limit_id.
Qed.
Lemma dict_get_snoc {K V} `{EqDecision K} (d : dict K V) k v k' :
  k ∉ dict_keys d ->
  dict_get (d ++ [(k, v)]) k' = if decide (k = k') then Some v else dict_get d k'.
Proof.
  intros Hk. rewrite <- (dict_set_absent k v d Hk). apply dict_get_set.
Qed.

(** C7.  In a model whose function ids are of the form digits-then-[F], and
    where the conversions of [add_function] are within the limit,
    [add_function] returns the id [str(top + 1) + "F"], where [top] is the
    largest numeric prefix of the existing ids, or 0 when there is none; that
    id is numerically greater than every existing id and is not among them;
    it is ["1F"] when there is no function; and the model then maps it to
    the new function, every other id being mapped as before. *)
Theorem add_function_fresh_id st name description implementation files_involved :
  Forall (fun k => is_function_id k = true) (dict_keys (functions (self st))) ->
  add_function_fits files_involved st ->
  let top := max_or_zero (map id_number (dict_keys (functions (self st)))) in
  let new_id := str (top + 1) +:+ "F" in
  exists st' func,
    Limited.add_function name description implementation files_involved st
    = Ok (st', new_id)
    /\ Limited.numeric_id new_id = Ok (top + 1)
    /\ (forall k, k ∈ dict_keys (functions (self st)) ->
          Limited.numeric_id k = Ok (id_number k) /\ id_number k < top + 1)
    /\ (new_id ∉ dict_keys (functions (self st)))
    /\ (functions (self st) = [] -> new_id = "1F")
    /\ dict_get (functions (self st')) new_id = Some func
    /\ func = Function.mk new_id name description implementation
                (Function.files_involved func)
    /\ deref (objects st') (Function.files_involved func) = entries files_involved st
    /\ (forall k, k <> new_id ->
          dict_get (functions (self st')) k = dict_get (functions (self st)) k)
    /\ files (self st') = files (self st).
Proof.
  intros Hwf Hfits top new_id.
  destruct (limited_add_function_runs st name description implementation
              files_involved Hwf Hfits) as (Hrun & Hfresh & Hid & Hlim).
  fold top in Hrun, Hfresh, Hid, Hlim. fold new_id in Hrun, Hfresh, Hid, Hlim.
  destruct Hfits as (Hids & _ & _).
  assert (forall k, Limited.within_limit k = true -> Limited.numeric_id k = numeric_id k)
    as Hnum.
  { intros k Hk. destruct (limited_numeric_id_cases k) as [E|[_ E]]; [exact E|congruence]. }
  eexists _, _. split; [exact Hrun|]. cbn [self objects functions set_functions files].
  split; [rewrite (Hnum _ Hlim); apply numeric_id_str|]. split.
  { intros k Hk. rewrite Forall_forall in Hids, Hwf. split.
    - rewrite (Hnum k (Hids k Hk)). apply numeric_id_wf. now apply Hwf.
    - assert (id_number k <= top); [|lia]. apply max_or_zero_ge.
      apply list_elem_of_fmap. now exists k. }
  split; [exact Hfresh|]. split.
  { intros He. subst new_id top. now rewrite He. }
  split; [rewrite (dict_get_snoc _ _ _ _ Hfresh); now rewrite decide_True|].
  split; [reflexivity|]. split.
  { destruct files_involved as [l|]; [reflexivity|]. apply deref_alloc. }
  split; [|reflexivity].
  intros k Hk. rewrite (dict_get_snoc _ _ _ _ Hfresh). now rewrite decide_False by congruence.
Qed.

Lemma add_function_fresh_id_witness :
  exists st' func,
    Limited.add_function "LOGOUT" "Ends the session" "File 2 clears the token"
      (Some 0%nat) scenario
    = Ok (st', "2F")
    /\ Limited.numeric_id "2F" = Ok 2
    /\ (forall k, k ∈ dict_keys (functions (self scenario)) ->
          Limited.numeric_id k = Ok (id_number k) /\ id_number k < 2)
    /\ ("2F" ∉ dict_keys (functions (self scenario)))
    /\ (functions (self scenario) = [] -> "2F" = "1F")
    /\ dict_get (functions (self st')) "2F" = Some func
    /\ func = Function.mk "2F" "LOGOUT" "Ends the session" "File 2 clears the token"
                (Function.files_involved func)
    /\ deref (objects st') (Function.files_involved func) = [1; 2]
    /\ (forall k, k <> "2F" ->
          dict_get (functions (self st')) k = dict_get (functions (self scenario)) k)
    /\ files (self st') = files (self scenario).
Proof.
  apply (add_function_fresh_id scenario "LOGOUT" "Ends the session"
           "File 2 clears the token" (Some 0%nat)).
  - repeat constructor.
  - split; [|split].
    + repeat constructor.
    + reflexivity.
    + repeat constructor; intros [=].
Defined.

(** Where a conversion of [add_function] is beyond the limit, it raises
    [ValueError]: at the id of a parsed function that has one digit more
    than [int()] converts; at the new number, when the largest id is the
    largest number [str()] converts; and at an entry of [files_involved]
    that is no file index and has one digit more than [str()] converts. *)
Lemma add_function_beyond_limit :
  (Limited.parse long_id = Ok (parsed long_id)
   /\ dict_keys (functions (self (parsed long_id))) = [long_number +:+ "F"]
   /\ is_function_id (long_number +:+ "F") = true
   /\ Limited.add_function "TOTALS" "Adds the totals" "File 1 is read" None
        (parsed long_id)
      = Raise ValueError)
  /\ (Limited.parse last_id = Ok (parsed last_id)
      /\ Limited.numeric_ids (dict_keys (functions (self (parsed last_id))))
         = Ok [10 ^ 4300 - 1]
      /\ Limited.add_function "TOTALS" "Adds the totals" "File 1 is read" None
           (parsed last_id)
         = Raise ValueError)
  /\ Limited.add_function "TOTALS" "Adds the totals" "File 1 is read" (Some 0%nat)
       (mkState [[10 ^ 4300]] init)
     = Raise ValueError.
Proof.
  split; [|split].
  - split; [vm_compute; reflexivity|]. split; [vm_compute; reflexivity|].
    split; vm_compute; reflexivity.
  - split; [vm_compute; reflexivity|]. split; vm_compute; reflexivity.
  - vm_compute. reflexivity.
Qed.

(** X4.  Where the conversions of [add_function] are within the limit,
    adding a function and deleting the id that [add_function] returned gives
    back the function collection, the files and the metadata exactly as they
    were. *)
Theorem add_then_delete_function st name description implementation files_involved :
  Forall (fun k => is_function_id k = true) (dict_keys (functions (self st))) ->
  add_function_fits files_involved st ->
  exists st1 new_id st2,
    Limited.add_function name description implementation files_involved st
    = Ok (st1, new_id)
    /\ delete_function new_id st1 = (st2, true)
    /\ self st2 = self st.
Proof.
  intros Hwf Hfits.
  destruct (limited_add_function_runs st name description implementation
              files_involved Hwf Hfits) as (Hrun & Hfresh & _).
  eexists _, _, _. split; [exact Hrun|].
  rewrite <- (dict_set_absent _ _ _ Hfresh).
  unfold delete_function. cbn [self objects functions set_functions].
  unfold dict_mem. rewrite dict_get_set_eq. split; [reflexivity|].
  cbn [self]. rewrite (dict_del_set_absent _ _ _ Hfresh).
  now destruct (self st).
Qed.

Lemma add_then_delete_function_witness :
  exists st1 new_id st2,
    Limited.add_function "LOGOUT" "Ends the session" "File 2 clears the token" None
      scenario
    = Ok (st1, new_id)
    /\ delete_function new_id st1 = (st2, true)
    /\ self st2 = self scenario.
Proof.
  apply (add_then_delete_function scenario "LOGOUT" "Ends the session"
           "File 2 clears the token" None).
  - repeat constructor.
  - split; [|split]; [repeat constructor|reflexivity|constructor].
Defined.

(** X5.  [add_function] keeps the form of the ids, so it can be called again:
    from a model whose ids have the form of the data model and are within
    the limit, calls in a row all return as long as the numbers they reach
    are within the limit, and the ids they add are the next numbers in
    order. *)
Theorem add_function_repeatable st (calls : list (string * string * string)) :
  Forall (fun k => is_function_id k = true) (dict_keys (functions (self st))) ->
  Forall (fun k => Limited.within_limit k = true) (dict_keys (functions (self st))) ->
  (forall i, 1 <= i <= Z.of_nat (length calls) ->
     formats (max_or_zero (map id_number (dict_keys (functions (self st)))) + i)) ->
  exists st',
    foldl (fun r c => st ← r;
                      fst <$> Limited.add_function (c.1.1) (c.1.2) (c.2) None st)
      (Ok st) calls = Ok st'
    /\ dict_keys (functions (self st'))
       = dict_keys (functions (self st))
         ++ next_ids (max_or_zero (map id_number (dict_keys (functions (self st)))))
              (length calls)
    /\ Forall (fun k => is_function_id k = true) (dict_keys (functions (self st'))).
Proof.
  revert st. induction calls as [|[[n d] i] calls IH]; intros st Hwf Hids Hnum.
  - exists st. cbn. rewrite List.app_nil_r. auto.
  - set (top := max_or_zero (map id_number (dict_keys (functions (self st))))) in *.
    pose proof (max_or_zero_nonneg (map id_number (dict_keys (functions (self st)))))
      as Htop. fold top in Htop.
    assert (add_function_fits None st) as Hfits.
    { split; [exact Hids|]. split; [|constructor].
      apply Hnum. cbn [length]. lia. }
    destruct (limited_add_function_runs st n d i None Hwf Hfits)
      as (Hrun & Hfresh & Hid & Hlim).
    fold top in Hrun, Hfresh, Hid, Hlim.
    cbn [foldl fst snd]. cbn [mbind result_bind]. rewrite Hrun.
    cbn [fmap result_fmap fst].
    match goal with
    | |- context [foldl _ (Ok ?s) calls] => destruct (IH s) as (st' & Hfold & Hkeys & Hall)
    end.
    { cbn [self functions set_functions]. unfold dict_keys. rewrite map_app.
      apply Forall_app. split; [exact Hwf|]. now repeat constructor. }
    { cbn [self functions set_functions]. unfold dict_keys. rewrite map_app.
      apply Forall_app. split; [exact Hids|]. now repeat constructor. }
    { cbn [self functions set_functions]. unfold dict_keys. rewrite !map_app.
      cbn [map fst]. rewrite max_or_zero_snoc, id_number_str by lia.
      fold (dict_keys (functions (self st))). fold top.
      intros j Hj. replace (Z.max top (top + 1) + j) with (top + (j + 1)) by lia.
      apply Hnum. cbn [length]. lia. }
    exists st'. split; [exact Hfold|]. split; [|exact Hall].
    rewrite Hkeys. cbn [self functions set_functions]. unfold dict_keys.
    rewrite !map_app. cbn [map fst]. rewrite max_or_zero_snoc, id_number_str by lia.
    fold (dict_keys (functions (self st))). fold top.
    rewrite <- List.app_assoc. f_equal. unfold next_ids. cbn [length seq map app].
    f_equal. rewrite <- (seq_shift (length calls) 1), map_map. apply map_ext. intros a.
    do 2 f_equal. lia.
Qed.

Lemma add_function_repeatable_witness :
  exists st',
    foldl (fun r c => st ← r;
                      fst <$> Limited.add_function (c.1.1) (c.1.2) (c.2) None st)
      (Ok scenario) [("A", "a", "x"); ("B", "b", "y")] = Ok st'
    /\ dict_keys (functions (self st')) = ["1F"; "2F"; "3F"]
    /\ Forall (fun k => is_function_id k = true) (dict_keys (functions (self st'))).
Proof.
  apply (add_function_repeatable scenario [("A", "a", "x"); ("B", "b", "y")]).
  - repeat constructor.
  - repeat constructor.
  - intros i Hi. cbn in Hi. assert (i = 1 \/ i = 2) as [-> | ->] by lia; reflexivity.
Defined.
(** ** [_generate_content] under the limit *)

Lemma limited_file_lines_cases fs indices :
  Forall (fun k => k ∈ dict_keys fs) indices ->
  Limited.file_lines fs indices = file_lines fs indices /\ Forall formats indices
  \/ Limited.file_lines fs indices = Raise ValueError /\ ~ Forall formats indices.
Proof.
  induction 1 as [|k ks Hk _ IH]; [left; split; [reflexivity|constructor]|].
  cbn [Limited.file_lines file_lines]. unfold dict_item.
  destruct (dict_get fs k) as [f|] eqn:E; [|now apply dict_get_None in E].
  cbn [mbind result_bind].
  destruct (limited_str_cases k) as [[-> Hf]|[-> Hf]].
  - cbn [mbind result_bind]. destruct IH as [[-> Hl]|[-> Hl]].
    + left. split; [reflexivity|now constructor].
    + right. split; [reflexivity|]. intros [_ H]%Forall_cons. now apply Hl.
  - right. split; [reflexivity|]. intros [H _]%Forall_cons. now apply Hf.
Qed.

Lemma limited_generate_content_cases m :
  match Limited.numeric_ids (dict_keys (functions m)) with
  | Ok ns =>
      Limited._generate_content m = _generate_content m
      /\ returns (_generate_content m) /\ Forall formats (dict_keys (files m))
      \/ Limited._generate_content m = Raise ValueError
         /\ ~ Forall formats (dict_keys (files m))
  | Raise e => e = ValueError /\ Limited._generate_content m = Raise ValueError
  end.
Proof.
  pose proof (limited_file_lines_cases (files m) (sorted_file_indices (files m))
                (perm_Forall_keys _ _ (sorted_file_indices_perm (files m)))) as Hfl.
  assert (Forall formats (sorted_file_indices (files m))
          <-> Forall formats (dict_keys (files m))) as Hperm
    by now rewrite (sorted_file_indices_perm (files m)).
  unfold Limited._generate_content, _generate_content, Limited.sorted_function_ids,
    sorted_function_ids.
  rewrite file_lines_ok in *
    by apply perm_Forall_keys, sorted_file_indices_perm.
  destruct (Limited.numeric_ids (dict_keys (functions m))) as [ns|e] eqn:E.
  - assert (numeric_ids (dict_keys (functions m)) = Ok ns) as E'.
    { destruct (limited_numeric_ids_cases (dict_keys (functions m))) as [H|[H _]];
        congruence. }
    rewrite E'. destruct Hfl as [[-> Hf]|[-> Hf]].
    + left. split; [reflexivity|]. split; [|now apply Hperm].
      cbn [mbind result_bind mret result_ret].
      rewrite function_lines_ok; [eexists; reflexivity|].
      apply perm_Forall_keys. rewrite sorted_by_key_perm.
      rewrite snd_zip_length; [reflexivity|]. unfold dict_keys in *.
      now apply numeric_ids_length.
    + right. split; [reflexivity|]. now rewrite <- Hperm.
  - pose proof (limited_numeric_ids_raises _ _ E) as ->. split; [reflexivity|].
    destruct Hfl as [[-> _]|[-> _]]; reflexivity.
Qed.


Lemma limited_add_function_cases st name description implementation files_involved :
  match Limited.numeric_ids (dict_keys (functions (self st))) with
  | Ok ns =>
      returns (Limited.add_function name description implementation files_involved st)
      /\ (ns <> [] -> formats (max_list ns + 1))
      /\ Forall (warns (files (self st))) (entries files_involved st)
      \/ Limited.add_function name description implementation files_involved st
         = Raise ValueError
         /\ ~ ((ns <> [] -> formats (max_list ns + 1))
               /\ Forall (warns (files (self st))) (entries files_involved st))
  | Raise e =>
      e = ValueError
      /\ Limited.add_function name description implementation files_involved st
         = Raise ValueError
  end.
Proof.
  assert (exists h l,
            match files_involved with
            | Some l => (objects st, l)
            | None => alloc [] (objects st)
            end = (h, l)
            /\ deref h l = entries files_involved st) as (h & l & Hhl & Hd).
  { destruct files_involved as [l|]; eexists _, _; (split; [reflexivity|]);
      [reflexivity|apply deref_alloc]. }
  unfold Limited.add_function. rewrite Hhl, Hd.
  destruct (Limited.numeric_ids (dict_keys (functions (self st)))) as [ns|e] eqn:E.
  - cbn [mbind result_bind].
    destruct (warn_missing_cases (files (self st)) (entries files_involved st))
      as [[Hw Hl]|[Hw Hl]].
    + destruct ns as [|n ns].
      * cbn [mbind result_bind]. rewrite Hw. left. split; [eexists; reflexivity|].
        split; [congruence|exact Hl].
      * destruct (limited_str_cases (max_list (n :: ns) + 1)) as [[-> Hf]|[-> Hf]].
        -- cbn [mbind result_bind mret result_ret]. rewrite Hw.
           left. split; [eexists; reflexivity|]. split; [now intros _|exact Hl].
        -- right. split; [reflexivity|]. intros [H _]. apply Hf, H. discriminate.
    + right. split; [|intros [_ H]; now apply Hl].
      destruct ns as [|n ns]; [cbn [mbind result_bind]; now rewrite Hw|].
      destruct (limited_str_cases (max_list (n :: ns) + 1)) as [[-> _]|[-> _]];
        [|reflexivity].
      cbn [mbind result_bind mret result_ret]. now rewrite Hw.
  - pose proof (limited_numeric_ids_raises _ _ E) as ->. now split.
Qed.

(** X14.  Which calls of [_generate_content] and [add_function] return.  Both
    first convert every function id, [int(id.replace('F', ''))]: when one
    id does not convert, both raise [ValueError].  When the ids convert,
    [_generate_content] returns exactly when every file index is within
    the limit of [str()], and [add_function] exactly when the new number
    is, and every entry of [files_involved] that is no file index.  Neither
    raises anything but [ValueError]. *)
Theorem conversions_decide st name description implementation files_involved :
  match Limited.numeric_ids (dict_keys (functions (self st))) with
  | Ok ns =>
      (returns (Limited._generate_content (self st))
       <-> Forall formats (dict_keys (files (self st))))
      /\ (returns (Limited.add_function name description implementation
                     files_involved st)
          <-> (ns <> [] -> formats (max_list ns + 1))
              /\ Forall (warns (files (self st))) (entries files_involved st))
  | Raise e =>
      e = ValueError
      /\ Limited._generate_content (self st) = Raise ValueError
      /\ Limited.add_function name description implementation files_involved st
         = Raise ValueError
  end
  /\ (forall e, Limited._generate_content (self st) = Raise e -> e = ValueError)
  /\ (forall e,
        Limited.add_function name description implementation files_involved st
        = Raise e -> e = ValueError).
Proof.
  pose proof (limited_generate_content_cases (self st)) as Hg.
  pose proof (limited_add_function_cases st name description implementation
                files_involved) as Ha.
  destruct (Limited.numeric_ids (dict_keys (functions (self st)))) as [ns|e].
  - split; [split|split].
    + destruct Hg as [(-> & Hr & Hf)|[-> Hf]]; [tauto|].
      split; [intros [t [=]]|contradiction].
    + destruct Ha as [(Hr & H1 & H2)|[-> Hf]]; [tauto|].
      split; [intros [r [=]]|contradiction].
    + intros e He. destruct Hg as [(Hg & [t Hr] & _)|[Hg _]]; congruence.
    + intros e He. destruct Ha as [([r Hr] & _)|[Ha _]]; congruence.
  - destruct Hg as [-> Hg], Ha as [_ Ha]. repeat split; try assumption;
      intros e' He'; congruence.
Qed.

(** ** Saving and loading under the limit *)




(** X24.  [_parse_content] on a manager that already holds a model (as
    [load_project] calls it, which never clears the manager), for a text
    that holds no number of more digits than [int()] converts, returns and
    lays the model of the text over the model that was there: a file index
    or function id that the text defines is as in the text, every other
    one is as it was, so nothing is ever removed; the list objects that
    were there are untouched; a metadata field changes only when the text
    has a header line for it, and the configuration text only when the
    text has one. *)
Theorem parse_content_overlays content st :
  wf_state st -> Limited.digits_fit content = true ->
  exists st',
    Limited._parse_content content st = Ok st'
    /\ objects st' = objects st ++ objects (parsed content)
    /\ (forall k, file_view st' k
                  = match file_view (parsed content) k with
                    | Some v => Some v
                    | None => file_view st k
                    end)
    /\ (forall fid, function_view st' fid
                    = match function_view (parsed content) fid with
                      | Some v => Some v
                      | None => function_view st fid
                      end)
    /\ config_section (self st')
       = (if truthy (config_section (self (parsed content)))
          then config_section (self (parsed content)) else config_section (self st))
    /\ project_name (self st')
       = List.last (header_values "Project:" content) (project_name (self st))
    /\ project_description (self st')
       = List.last (header_values "Description:" content) (project_description (self st))
    /\ technology (self st')
       = List.last (header_values "technology:" content) (technology (self st)).
Proof.
  intros (_ & _ & Hlocs) Hfit.
  destruct (parse_content_overlay content st)
    as (st' & Hrun & Ho & Hf & Hn & Hc & H1 & H2 & H3).
  exists st'. split; [now rewrite (limited_parse_content_fit _ _ Hfit)|].
  split; [exact Ho|].
  split; [|split; [|now repeat split]].
  - intros k. unfold file_view. rewrite Hf.
    now destruct (dict_get (files (self (parsed content))) k).
  - intros fid. unfold function_view. rewrite Hn, Ho.
    destruct (dict_get (functions (self (parsed content))) fid) as [f|].
    + cbn. now rewrite deref_app_r.
    + destruct (dict_get (functions (self st)) fid) as [f|] eqn:E; [|reflexivity].
      cbn. rewrite deref_alloc_old_app; [reflexivity|].
      rewrite Forall_forall in Hlocs. apply Hlocs. eapply dict_get_Some_values, E.
Qed.

Lemma parse_content_overlays_witness :
  let content := text ["Project: Other"; "PROJECT FILES INDEX:"; "2. c.js"] in
  exists st',
    Limited._parse_content content scenario = Ok st'
    /\ objects st' = objects scenario ++ objects (parsed content)
    /\ (forall k, file_view st' k
                  = match file_view (parsed content) k with
                    | Some v => Some v
                    | None => file_view scenario k
                    end)
    /\ (forall fid, function_view st' fid
                    = match function_view (parsed content) fid with
                      | Some v => Some v
                      | None => function_view scenario fid
                      end)
    /\ config_section (self st')
       = (if truthy (config_section (self (parsed content)))
          then config_section (self (parsed content))
          else config_section (self scenario))
    /\ project_name (self st')
       = List.last (header_values "Project:" content) (project_name (self scenario))
    /\ project_description (self st')
       = List.last (header_values "Description:" content)
           (project_description (self scenario))
    /\ technology (self st')
       = List.last (header_values "technology:" content) (technology (self scenario)).
Proof.
  apply (parse_content_overlays
           (text ["Project: Other"; "PROJECT FILES INDEX:"; "2. c.js"]) scenario).
  - split; [|split].
    + apply NoDup_cons. split; [|apply NoDup_singleton].
      intros Hin%list_elem_of_singleton. discriminate.
    + apply NoDup_singleton.
    + repeat constructor.
  - reflexivity.
Defined.

(** ** What the limit leaves as it was

    Whatever a method returns under the limit, it returns without it: the
    properties proved above of the results of [_parse_content],
    [_generate_content] and [add_function] are properties of what the
    methods return under the limit. *)

Lemma limited_parse_content_refines content st st' :
  Limited._parse_content content st = Ok st' -> _parse_content content st = Ok st'.
Proof.
  intros H. destruct (limited_parse_content content st) as [E|[E _]]; congruence.
Qed.

Lemma limited_generate_content_refines m t :
  Limited._generate_content m = Ok t -> _generate_content m = Ok t.
Proof.
  intros H. pose proof (limited_generate_content_cases m) as Hc.
  destruct (Limited.numeric_ids (dict_keys (functions m))).
  - destruct Hc as [[E _]|[E _]]; congruence.
  - destruct Hc as [_ E]. congruence.
Qed.

Lemma limited_add_function_refines st name description implementation files_involved r :
  Limited.add_function name description implementation files_involved st = Ok r ->
  add_function name description implementation files_involved st = Ok r.
Proof.
  unfold Limited.add_function, add_function.
  destruct (match files_involved with
            | Some l => (objects st, l)
            | None => alloc [] (objects st)
            end) as [h l].
  destruct (limited_numeric_ids_cases (dict_keys (functions (self st)))) as [->|[-> _]];
    [|discriminate].
  destruct (numeric_ids (dict_keys (functions (self st)))) as [ns|e]; [|discriminate].
  cbn [mbind result_bind].
  destruct (Limited.warn_missing (files (self st)) (deref h l)) as [[]|e].
  - destruct ns as [|n ns]; [trivial|].
    destruct (limited_str_cases (max_list (n :: ns) + 1)) as [[-> _]|[-> _]];
      [trivial|discriminate].
  - destruct ns as [|n ns]; [discriminate|].
    destruct (Limited.str (max_list (n :: ns) + 1)); discriminate.
Qed.
